(** * gypsum: a software-defined GPS receiver

    A shallow embedding of the tracker ([gypsum/tracker.py]), the world
    model ([gypsum/world_model.py]) and the receiver orchestrator
    ([gypsum/receiver.py]), followed by the properties of that code.

    Conventions of the embedding.
    - Python [float] and numpy [float64] values are real numbers ([R]);
      rounding is not modelled.  The one non-number the code can produce
      from real inputs, numpy's [nan] for the mean or variance of an empty
      array, is [None] in [option R].
    - A real number has one zero where a float has two.  Where the code's
      result depends on the sign of a zero, in [np.arctan2] and [np.angle]
      on the branch cut, that sign is read from [Np.SignedZeros], over
      which every definition and every property is general.
    - Python [int] is [Z]; [len] is [nat].
    - A call that can raise returns a [result]; mutation of [self] is
      explicit state passing, and the state returned next to a [Raise] is
      the state as the exception left it.
    - matplotlib calls and [print] have no effect on the state and are left
      out. *)

From Stdlib Require Import Reals Lra Lia ZArith List.
From stdpp Require Import gmap.

(** ** Python exceptions and results *)

Inductive exn : Type :=
| TypeError
| KeyError
| ValueError
| RuntimeError
| NotImplementedError
| UnknownEventError.

Inductive result (A : Type) : Type :=
| Ok (a : A)
| Raise (e : exn).
Arguments Ok {A} a.
Arguments Raise {A} e.

Definition is_ok {A} (r : result A) : bool :=
  match r with Ok _ => true | Raise _ => false end.

(** the exception a call raised, if it raised *)
Definition raised {A} (r : result A) : option exn :=
  match r with Ok _ => None | Raise e => Some e end.

(** [l[-n:]] *)
Definition last_n {A} (n : nat) (l : list A) : list A :=
  skipn (length l - n) l.

(** ** Constants *)

(** Modelled from the spec: [gypsum/constants.py] is not among the sources;
    the spec fixes 2046 samples per 1 ms PRN period. *)
Definition SAMPLES_PER_PRN_TRANSMISSION : Z := 2046.

(** Modelled from the spec: [gypsum/constants.py] is not among the sources;
    the spec fixes the sample rate at 2.046 MHz. *)
Definition SAMPLES_PER_SECOND : Z := 2046000.

(** Modelled from the spec: [gypsum/config.py] is not among the sources;
    the spec gives [acquisition_integration_period_ms: 20]. *)
Definition ACQUISITION_INTEGRATION_PERIOD_MS : nat := 20.

(** ** numpy and math on real numbers *)

Module Np.
Local Open Scope R_scope.

Record complex : Type := Cx { real : R; imag : R }.

Definition C0 : complex := Cx 0 0.
Definition Cadd (a b : complex) : complex := Cx (real a + real b) (imag a + imag b).
Definition Cmul (a b : complex) : complex :=
  Cx (real a * real b - imag a * imag b) (real a * imag b + imag a * real b).
Definition Cconj (a : complex) : complex := Cx (real a) (- imag a).
Definition Cscale (c : R) (a : complex) : complex := Cx (c * real a) (c * imag a).

Definition Rlt_bool (x y : R) : bool := if Rlt_dec x y then true else false.
Definition Rle_bool (x y : R) : bool := if Rle_dec x y then true else false.
Definition Req_bool (x y : R) : bool := if Req_dec_T x y then true else false.

(** [math.tau] *)
Definition tau : R := 2 * PI.

(** Python's [x % y] on floats: the result has the sign of the divisor. *)
Definition fmod (x y : R) : R := x - y * IZR (Zfloor (x / y)).

(** [np.exp(1j * theta)] *)
Definition exp_j (theta : R) : complex := Cx (cos theta) (sin theta).

(** [np.abs] of a complex number *)
Definition abs (c : complex) : R := sqrt (real c * real c + imag c * imag c).

(** [np.sign] *)
Definition sign (x : R) : R :=
  if Rlt_dec 0 x then 1 else if Rlt_dec x 0 then -1 else 0.

(** [int(x)]: truncation towards zero *)
Definition int (x : R) : Z := if Rle_dec 0 x then Zfloor x else Zceil x.

Definition sum (l : list R) : R := fold_right Rplus 0 l.
Definition Csum (l : list complex) : complex := fold_right Cadd C0 l.

(** [np.mean]; [nan] on an empty array *)
Definition mean (l : list R) : option R :=
  match l with
  | [] => None
  | _ => Some (sum l / INR (length l))
  end.

Definition Cmean (l : list complex) : option complex :=
  match l with
  | [] => None
  | _ => Some (Cscale (/ INR (length l)) (Csum l))
  end.

(** [np.var]: the mean of the squared deviations from the mean *)
Definition var (l : list R) : option R :=
  match mean l with
  | None => None
  | Some m => mean (map (fun x => (x - m) * (x - m)) l)
  end.

(** comparison and arithmetic with a possible [nan] *)
Definition nan_lt (x : option R) (c : R) : bool :=
  match x with
  | None => false
  | Some v => Rlt_bool v c
  end.

Definition nan_add (x y : option R) : option R :=
  match x, y with
  | Some a, Some b => Some (a + b)
  | _, _ => None
  end.

Definition nan_div (x : option R) (c : R) : option R :=
  match x with
  | Some a => Some (a / c)
  | None => None
  end.

(** The signs of the float zeros: whether, in a call [np.arctan2(y, x)],
    a [y] that is zero is [-0.0], and whether an [x] that is zero is
    [-0.0]. *)
Class SignedZeros : Type := {
  y_is_negative_zero : R -> R -> bool;
  x_is_negative_zero : R -> R -> bool
}.

(** [np.arctan2(y, x)], the angle of the point (x, y) in [-pi, pi].  On the
    negative real axis the result is pi for [y = 0.0] and -pi for
    [y = -0.0]; at the origin it is 0 for [x = 0.0] and pi or -pi, by the
    sign of [y], for [x = -0.0]. *)
Definition arctan2 `{SignedZeros} (y x : R) : R :=
  if Rlt_dec 0 x then atan (y / x)
  else if Rlt_dec x 0 then
    (if Rlt_dec 0 y then atan (y / x) + PI
     else if Rlt_dec y 0 then atan (y / x) - PI
     else if y_is_negative_zero y x then - PI else PI)
  else if Rlt_dec 0 y then PI / 2
  else if Rlt_dec y 0 then - (PI / 2)
  else if x_is_negative_zero y x
       then (if y_is_negative_zero y x then - PI else PI)
       else 0.

Fixpoint argmax_from (best_i : nat) (best : R) (i : nat) (l : list R) : nat :=
  match l with
  | [] => best_i
  | x :: l' =>
      if Rlt_dec best x then argmax_from i x (S i) l'
      else argmax_from best_i best (S i) l'
  end.

(** [np.argmax]: the first index of the maximum; raises on an empty array *)
Definition argmax (l : list R) : option nat :=
  match l with
  | [] => None
  | x :: l' => Some (argmax_from 0 x 1 l')
  end.

(** [np.arange(n)] *)
Definition arange (n : nat) : list R := map INR (seq 0 n).

(** [np.roll(a, shift)] *)
Definition roll {A} (a : list A) (shift : Z) : list A :=
  match a with
  | [] => []
  | _ =>
      let n := length a in
      let k := Z.to_nat (shift mod Z.of_nat n) in
      skipn (n - k) a ++ firstn (n - k) a
  end.

(** the products of the entries of two arrays of the same length *)
Fixpoint elementwise (a b : list complex) : list complex :=
  match a, b with
  | x :: a', y :: b' => Cmul x y :: elementwise a' b'
  | _, _ => []
  end.

(** [a * b] on one-dimensional arrays: arrays of the same length are
    multiplied entry by entry, an array of length 1 is broadcast over the
    other, and any other two shapes raise [ValueError] *)
Definition multiply (a b : list complex) : result (list complex) :=
  if (length a =? length b)%nat then Ok (elementwise a b)
  else
    match a, b with
    | [x], _ => Ok (map (Cmul x) b)
    | _, [y] => Ok (map (fun x => Cmul x y) a)
    | _, _ => Raise ValueError
    end.

(** Python truthiness of an integer *)
Definition truthy (z : Z) : bool := negb (z =? 0)%Z.

End Np.

(** ** The tracker ([gypsum/tracker.py]) *)

Module Tracker.
Import Np.
Local Open Scope R_scope.

Inductive NavigationBitPseudosymbol : Type :=
| MINUS_ONE
| ONE.

(** [NavigationBitPseudosymbol.from_val]: a dictionary lookup with the two
    keys -1 and 1; any other key raises [KeyError]. *)
Definition from_val (val : Z) : result NavigationBitPseudosymbol :=
  if (val =? -1)%Z then Ok MINUS_ONE
  else if (val =? 1)%Z then Ok ONE
  else Raise KeyError.

Definition as_val (s : NavigationBitPseudosymbol) : Z :=
  match s with
  | MINUS_ONE => -1
  | ONE => 1
  end.

(** Modelled from the spec: [gypsum/satellite.py] is not among the sources;
    a satellite has an identity and its sample-rate complex PRN replica. *)
Record GpsSatellite : Type := {
  satellite_id : Z;
  prn_as_complex : list complex
}.

Record GpsSatelliteTrackingParameters : Type := {
  satellite : GpsSatellite;
  current_doppler_shift : R;
  current_carrier_wave_phase_shift : R;
  current_prn_code_phase_shift : Z;
  doppler_shifts : list R;
  carrier_wave_phases : list R;
  carrier_wave_phase_errors : list R;
  navigation_bit_pseudosymbols : list Z
}.

Record GpsSatelliteTracker : Type := {
  tracking_params : GpsSatelliteTrackingParameters;
  loop_bandwidth : R;
  loop_gain_phase : R;
  loop_gain_freq : R;
  _is : list R;
  _qs : list R;
  iq_angles : list R;
  phase_errors : list R;
  carrier_phases : list R;
  time_domain_for_1ms : list R
}.

(** field updates, as the assignments of the source *)

Definition set_current_doppler_shift v (p : GpsSatelliteTrackingParameters) :=
  {| satellite := satellite p;
     current_doppler_shift := v;
     current_carrier_wave_phase_shift := current_carrier_wave_phase_shift p;
     current_prn_code_phase_shift := current_prn_code_phase_shift p;
     doppler_shifts := doppler_shifts p;
     carrier_wave_phases := carrier_wave_phases p;
     carrier_wave_phase_errors := carrier_wave_phase_errors p;
     navigation_bit_pseudosymbols := navigation_bit_pseudosymbols p |}.

Definition set_current_carrier_wave_phase_shift v (p : GpsSatelliteTrackingParameters) :=
  {| satellite := satellite p;
     current_doppler_shift := current_doppler_shift p;
     current_carrier_wave_phase_shift := v;
     current_prn_code_phase_shift := current_prn_code_phase_shift p;
     doppler_shifts := doppler_shifts p;
     carrier_wave_phases := carrier_wave_phases p;
     carrier_wave_phase_errors := carrier_wave_phase_errors p;
     navigation_bit_pseudosymbols := navigation_bit_pseudosymbols p |}.

Definition set_current_prn_code_phase_shift v (p : GpsSatelliteTrackingParameters) :=
  {| satellite := satellite p;
     current_doppler_shift := current_doppler_shift p;
     current_carrier_wave_phase_shift := current_carrier_wave_phase_shift p;
     current_prn_code_phase_shift := v;
     doppler_shifts := doppler_shifts p;
     carrier_wave_phases := carrier_wave_phases p;
     carrier_wave_phase_errors := carrier_wave_phase_errors p;
     navigation_bit_pseudosymbols := navigation_bit_pseudosymbols p |}.

Definition set_doppler_shifts v (p : GpsSatelliteTrackingParameters) :=
  {| satellite := satellite p;
     current_doppler_shift := current_doppler_shift p;
     current_carrier_wave_phase_shift := current_carrier_wave_phase_shift p;
     current_prn_code_phase_shift := current_prn_code_phase_shift p;
     doppler_shifts := v;
     carrier_wave_phases := carrier_wave_phases p;
     carrier_wave_phase_errors := carrier_wave_phase_errors p;
     navigation_bit_pseudosymbols := navigation_bit_pseudosymbols p |}.

Definition set_carrier_wave_phases v (p : GpsSatelliteTrackingParameters) :=
  {| satellite := satellite p;
     current_doppler_shift := current_doppler_shift p;
     current_carrier_wave_phase_shift := current_carrier_wave_phase_shift p;
     current_prn_code_phase_shift := current_prn_code_phase_shift p;
     doppler_shifts := doppler_shifts p;
     carrier_wave_phases := v;
     carrier_wave_phase_errors := carrier_wave_phase_errors p;
     navigation_bit_pseudosymbols := navigation_bit_pseudosymbols p |}.

Definition set_carrier_wave_phase_errors v (p : GpsSatelliteTrackingParameters) :=
  {| satellite := satellite p;
     current_doppler_shift := current_doppler_shift p;
     current_carrier_wave_phase_shift := current_carrier_wave_phase_shift p;
     current_prn_code_phase_shift := current_prn_code_phase_shift p;
     doppler_shifts := doppler_shifts p;
     carrier_wave_phases := carrier_wave_phases p;
     carrier_wave_phase_errors := v;
     navigation_bit_pseudosymbols := navigation_bit_pseudosymbols p |}.

Definition set_navigation_bit_pseudosymbols v (p : GpsSatelliteTrackingParameters) :=
  {| satellite := satellite p;
     current_doppler_shift := current_doppler_shift p;
     current_carrier_wave_phase_shift := current_carrier_wave_phase_shift p;
     current_prn_code_phase_shift := current_prn_code_phase_shift p;
     doppler_shifts := doppler_shifts p;
     carrier_wave_phases := carrier_wave_phases p;
     carrier_wave_phase_errors := carrier_wave_phase_errors p;
     navigation_bit_pseudosymbols := v |}.

Definition set_tracking_params v (t : GpsSatelliteTracker) :=
  {| tracking_params := v;
     loop_bandwidth := loop_bandwidth t;
     loop_gain_phase := loop_gain_phase t;
     loop_gain_freq := loop_gain_freq t;
     _is := _is t; _qs := _qs t; iq_angles := iq_angles t;
     phase_errors := phase_errors t; carrier_phases := carrier_phases t;
     time_domain_for_1ms := time_domain_for_1ms t |}.

Definition set_is v (t : GpsSatelliteTracker) :=
  {| tracking_params := tracking_params t;
     loop_bandwidth := loop_bandwidth t;
     loop_gain_phase := loop_gain_phase t;
     loop_gain_freq := loop_gain_freq t;
     _is := v; _qs := _qs t; iq_angles := iq_angles t;
     phase_errors := phase_errors t; carrier_phases := carrier_phases t;
     time_domain_for_1ms := time_domain_for_1ms t |}.

Definition set_qs v (t : GpsSatelliteTracker) :=
  {| tracking_params := tracking_params t;
     loop_bandwidth := loop_bandwidth t;
     loop_gain_phase := loop_gain_phase t;
     loop_gain_freq := loop_gain_freq t;
     _is := _is t; _qs := v; iq_angles := iq_angles t;
     phase_errors := phase_errors t; carrier_phases := carrier_phases t;
     time_domain_for_1ms := time_domain_for_1ms t |}.

Definition set_iq_angles v (t : GpsSatelliteTracker) :=
  {| tracking_params := tracking_params t;
     loop_bandwidth := loop_bandwidth t;
     loop_gain_phase := loop_gain_phase t;
     loop_gain_freq := loop_gain_freq t;
     _is := _is t; _qs := _qs t; iq_angles := v;
     phase_errors := phase_errors t; carrier_phases := carrier_phases t;
     time_domain_for_1ms := time_domain_for_1ms t |}.

Definition set_carrier_phases v (t : GpsSatelliteTracker) :=
  {| tracking_params := tracking_params t;
     loop_bandwidth := loop_bandwidth t;
     loop_gain_phase := loop_gain_phase t;
     loop_gain_freq := loop_gain_freq t;
     _is := _is t; _qs := _qs t; iq_angles := iq_angles t;
     phase_errors := phase_errors t; carrier_phases := v;
     time_domain_for_1ms := time_domain_for_1ms t |}.

(** [GpsSatelliteTracker.__init__(self, tracking_params, loop_bandwidth)],
    the body.  [x ** 0.5] is [Rpower x (1/2)]. *)
Definition __init__ (tracking_params : GpsSatelliteTrackingParameters)
    (loop_bandwidth : R) : GpsSatelliteTracker :=
  let damping_factor := sqrt 2 / 2 in
  let natural_freq :=
    loop_bandwidth / (damping_factor * Rpower (1 + damping_factor ^ 2) (1 / 2)) in
  {| tracking_params := tracking_params;
     loop_bandwidth := loop_bandwidth;
     loop_gain_phase :=
       (4 * damping_factor * natural_freq) /
       (1 + ((2 * damping_factor * natural_freq) + natural_freq ^ 2));
     loop_gain_freq :=
       (4 * natural_freq ^ 2) /
       (1 + ((2 * damping_factor * natural_freq) + natural_freq ^ 2));
     _is := [];
     _qs := [];
     iq_angles := [];
     phase_errors := [];
     carrier_phases := [];
     time_domain_for_1ms :=
       map (fun n => n / IZR SAMPLES_PER_SECOND)
           (arange (Z.to_nat SAMPLES_PER_PRN_TRANSMISSION)) |}.

(** The call [GpsSatelliteTracker(...)].  Both parameters of [__init__] are
    required and have no default: Python binds the arguments before the
    body runs and raises [TypeError] when one is missing.  An argument the
    call site does not pass is [None] here. *)
Definition GpsSatelliteTracker_new
    (tracking_params : option GpsSatelliteTrackingParameters)
    (loop_bandwidth : option R) : result GpsSatelliteTracker :=
  match tracking_params, loop_bandwidth with
  | Some p, Some b => Ok (__init__ p b)
  | _, _ => Raise TypeError
  end.

Section WithSignedZeros.
Context `{SignedZeros}.

(** [_is_locked] *)
Definition _is_locked (self : GpsSatelliteTracker) : bool :=
  let previous_milliseconds_to_consider := 250%nat in
  if (length (carrier_wave_phase_errors (tracking_params self))
        <? previous_milliseconds_to_consider)%nat
  then false
  else
    let last_few_phase_errors :=
      last_n previous_milliseconds_to_consider
             (carrier_wave_phase_errors (tracking_params self)) in
    let phase_error_variance := var last_few_phase_errors in
    let is_phase_error_variance_under_threshold := nan_lt phase_error_variance 900 in
    let does_i_channel_look_locked :=
      if (2 <? length (_is self))%nat then
        let last_few_i_values := last_n previous_milliseconds_to_consider (_is self) in
        let positive_i_values := List.filter (fun x => Rle_bool 0 x) last_few_i_values in
        let positive_var := var positive_i_values in
        let negative_i_values := List.filter (fun x => Rlt_bool x 0) last_few_i_values in
        let negative_var := var negative_i_values in
        let s := nan_div (nan_add positive_var negative_var) 2 in
        nan_lt s 2
      else true in
    let points := map (fun iq => Cx (fst iq) (snd iq)) (combine (_is self) (_qs self)) in
    let is_constellation_rotation_acceptable :=
      if (2 <? length points)%nat then
        let points_on_left_pole := List.filter (fun p => Rlt_bool (real p) 0) points in
        match Cmean points_on_left_pole with
        | None =>
            (* the mean of no points is nan, and so is every value computed
               from it; [nan < 6] is False and [abs(False)] is 0 *)
            truthy (Z.abs (Z.b2z false))
        | Some left_point =>
            let angle :=
              180 - fmod ((arctan2 (imag left_point) (real left_point) / tau) * 360) 180 in
            let centered_angle := if Rlt_dec angle 90 then angle else 180 - angle in
            (* [abs(centered_angle < 6)]: the absolute value is taken of the
               comparison, not of the angle *)
            truthy (Z.abs (Z.b2z (Rlt_bool centered_angle 6)))
        end
      else true in
    is_phase_error_variance_under_threshold
      && does_i_channel_look_locked
      && is_constellation_rotation_acceptable.

(** [_calculate_loop_filter_alpha_and_beta]: the first pair of gains is
    computed and then overwritten. *)
Definition _calculate_loop_filter_alpha_and_beta (loop_bandwidth : R) : R * R :=
  let damping_factor := sqrt 2 / 2 in
  let natural_freq :=
    loop_bandwidth / (damping_factor * Rpower (1 + damping_factor ^ 2) (1 / 2)) in
  let loop_gain_freq :=
    (4 * damping_factor * natural_freq) /
    (1 + ((2 * damping_factor * natural_freq) + natural_freq ^ 2)) in
  let loop_gain_phase :=
    (4 * natural_freq ^ 2) /
    (1 + ((2 * damping_factor * natural_freq) + natural_freq ^ 2)) in
  let time_per_sample := 1 / IZR SAMPLES_PER_SECOND in
  let zeta := 1 / sqrt 2 in
  let loop_gain_phase := 4 * zeta * loop_bandwidth * time_per_sample in
  let loop_gain_freq := 4 * (loop_bandwidth ^ 2) * time_per_sample in
  (loop_gain_phase, loop_gain_freq).

(** [_test5]; the angle of the sample appended to [iq_angles] is
    [np.angle(sample)]. *)
Definition _test5 (self : GpsSatelliteTracker)
    (samples_with_carrier_and_prn_wipeoff : list complex) (sample : complex)
  : GpsSatelliteTracker :=
  let error := real sample * imag sample in
  let '(alpha, beta) :=
    if _is_locked self
    then _calculate_loop_filter_alpha_and_beta 3
    else _calculate_loop_filter_alpha_and_beta 6 in
  let p := tracking_params self in
  let p := set_current_carrier_wave_phase_shift
             (current_carrier_wave_phase_shift p + error * alpha) p in
  let p := set_current_carrier_wave_phase_shift
             (fmod (current_carrier_wave_phase_shift p) tau) p in
  let p := set_current_doppler_shift (current_doppler_shift p + error * beta) p in
  let p := set_carrier_wave_phase_errors (carrier_wave_phase_errors p ++ [error]) p in
  let self := set_tracking_params p self in
  set_iq_angles (iq_angles self ++ [arctan2 (imag sample) (real sample)]) self.

Section ProcessSamples.

(** [gypsum.utils.frequency_domain_correlation] is not among the sources:
    any function that returns a correlation profile or raises. *)
Variable frequency_domain_correlation :
  list complex -> list complex -> result (list complex).

(** [process_samples], in parts and then the whole of it.  The block at the
    top of the source that prints the lock state once per second only reads
    the state.

    [doppler_shift_carrier]: the replica of the carrier over the window. *)
Definition doppler_shift_carrier (self : GpsSatelliteTracker)
    (seconds_since_start : R) : list complex :=
  let params := tracking_params self in
  let time_domain := map (fun t => t + seconds_since_start) (time_domain_for_1ms self) in
  map (fun t => exp_j (- ((2 * PI * current_doppler_shift params * t)
                          + current_carrier_wave_phase_shift params)))
      time_domain.

(** [doppler_shifted_samples = samples * doppler_shift_carrier] *)
Definition doppler_shifted_samples (self : GpsSatelliteTracker)
    (seconds_since_start : R) (samples : list complex) : result (list complex) :=
  multiply samples (doppler_shift_carrier self seconds_since_start).

(** [prompt_prn = np.roll(unslid_prn, params.current_prn_code_phase_shift)] *)
Definition prompt_prn (self : GpsSatelliteTracker) : list complex :=
  let params := tracking_params self in
  roll (prn_as_complex (satellite params)) (current_prn_code_phase_shift params).

(** [coherent_prompt_correlation], the correlation of the carrier-wiped
    samples with the prompt PRN replica *)
Definition coherent_prompt_correlation (self : GpsSatelliteTracker)
    (seconds_since_start : R) (samples : list complex) : result (list complex) :=
  match doppler_shifted_samples self seconds_since_start samples with
  | Raise e => Raise e
  | Ok doppler_shifted_samples =>
      frequency_domain_correlation doppler_shifted_samples (prompt_prn self)
  end.

(** [process_samples].  [params] is the object [self.tracking_params], so
    what is written to it before a later line raises stays written. *)
Definition process_samples (self : GpsSatelliteTracker) (seconds_since_start : R)
    (samples : list complex) : result NavigationBitPseudosymbol * GpsSatelliteTracker :=
  let params := tracking_params self in
  match doppler_shifted_samples self seconds_since_start samples with
  | Raise e => (Raise e, self)
  | Ok doppler_shifted_samples =>
  let prompt_prn := prompt_prn self in
  match frequency_domain_correlation doppler_shifted_samples prompt_prn with
  | Raise e => (Raise e, self)
  | Ok coherent_prompt_correlation =>
  let non_coherent_prompt_correlation := map abs coherent_prompt_correlation in
  match argmax non_coherent_prompt_correlation with
  | None => (Raise ValueError, self)
  | Some non_coherent_prompt_peak_offset =>
      let centered_non_coherent_prompt_peak_offset : Z :=
        if Rle_dec (INR non_coherent_prompt_peak_offset)
                   (IZR SAMPLES_PER_PRN_TRANSMISSION / 2)
        then Z.of_nat non_coherent_prompt_peak_offset
        else (Z.of_nat non_coherent_prompt_peak_offset - SAMPLES_PER_PRN_TRANSMISSION)%Z in
      let params :=
        if (0 <? centered_non_coherent_prompt_peak_offset)%Z
        then set_current_prn_code_phase_shift
               (current_prn_code_phase_shift params + 1)%Z params
        else if (centered_non_coherent_prompt_peak_offset <? 0)%Z
        then set_current_prn_code_phase_shift
               (current_prn_code_phase_shift params - 1)%Z params
        else params in
      let params :=
        set_current_prn_code_phase_shift
          (current_prn_code_phase_shift params mod SAMPLES_PER_PRN_TRANSMISSION)%Z
          params in
      let coherent_prompt_prn_correlation_peak :=
        nth non_coherent_prompt_peak_offset coherent_prompt_correlation C0 in
      let navigation_bit_pseudosymbol_value :=
        int (sign (real coherent_prompt_prn_correlation_peak)) in
      let params :=
        set_navigation_bit_pseudosymbols
          (navigation_bit_pseudosymbols params ++ [navigation_bit_pseudosymbol_value])
          params in
      let self := set_tracking_params params self in
      match multiply samples prompt_prn with
      | Raise e => (Raise e, self)
      | Ok samples_with_prn_wiped_off =>
      match multiply doppler_shifted_samples prompt_prn with
      | Raise e => (Raise e, self)
      | Ok x =>
      let self := set_is (_is self ++ [real coherent_prompt_prn_correlation_peak]) self in
      let self := set_qs (_qs self ++ [imag coherent_prompt_prn_correlation_peak]) self in
      let self :=
        _test5 self coherent_prompt_correlation coherent_prompt_prn_correlation_peak in
      let params := tracking_params self in
      let self :=
        set_carrier_phases
          (carrier_phases self ++ [current_carrier_wave_phase_shift params]) self in
      let params :=
        set_doppler_shifts (doppler_shifts params ++ [current_doppler_shift params]) params in
      let params :=
        set_carrier_wave_phases
          (carrier_wave_phases params ++ [current_carrier_wave_phase_shift params])
          params in
      let self := set_tracking_params params self in
      let self :=
        if Rle_bool 4.99 (fmod seconds_since_start 5)
        then set_tracking_params
               (set_carrier_wave_phase_errors [] (tracking_params self)) self
        else self in
      let self :=
        if Req_bool (fmod seconds_since_start 1) 0
        then set_carrier_phases [] (set_iq_angles [] (set_qs [] (set_is [] self)))
        else self in
      (from_val navigation_bit_pseudosymbol_value, self)
      end
      end
  end
  end
  end.

End ProcessSamples.

End WithSignedZeros.

(** Modelled from the spec: [gypsum.utils.frequency_domain_correlation] is
    not among the sources; the spec gives the correlation as
    [IFFT(FFT(d) . conj(FFT(prn)))].  This is the discrete Fourier transform
    of that formula. *)
Definition fft (x : list complex) : list complex :=
  let n := length x in
  map (fun k =>
         Csum (map (fun m => Cmul (nth m x C0)
                                  (exp_j (- (2 * PI * INR k * INR m / INR n))))
                   (seq 0 n)))
      (seq 0 n).

(** Modelled from the spec: the inverse transform of the same formula. *)
Definition ifft (x : list complex) : list complex :=
  let n := length x in
  map (fun m =>
         Cscale (/ INR n)
           (Csum (map (fun k => Cmul (nth k x C0)
                                     (exp_j (2 * PI * INR k * INR m / INR n)))
                      (seq 0 n))))
      (seq 0 n).

(** Modelled from the spec: [gypsum.utils.frequency_domain_correlation],
    [IFFT(FFT(d) . conj(FFT(prn)))], the product being that of numpy. *)
Definition frequency_domain_correlation (segment prn_replica : list complex)
  : result (list complex) :=
  match multiply (fft segment) (map Cconj (fft prn_replica)) with
  | Raise e => Raise e
  | Ok product => Ok (ifft product)
  end.

End Tracker.

(** ** The world model ([gypsum/world_model.py]) *)

Module WorldModel.

Inductive OrbitalParameterType : Type :=
| SEMI_MAJOR_AXIS
| ECCENTRICITY
| INCLINATION
| LONGITUDE_OF_ASCENDING_NODE
| ARGUMENT_OF_PERIGEE
| MEAN_ANOMALY_AT_REFERENCE_TIME.

Inductive TimeParameterType : Type :=
| WEEK_NUMBER.

(** [Enum.value], as [auto()] numbers the members *)
Definition OrbitalParameterType_value (t : OrbitalParameterType) : nat :=
  match t with
  | SEMI_MAJOR_AXIS => 1
  | ECCENTRICITY => 2
  | INCLINATION => 3
  | LONGITUDE_OF_ASCENDING_NODE => 4
  | ARGUMENT_OF_PERIGEE => 5
  | MEAN_ANOMALY_AT_REFERENCE_TIME => 6
  end.

Definition OrbitalParameterType_of_value (n : nat) : OrbitalParameterType :=
  match n with
  | 1 => SEMI_MAJOR_AXIS
  | 2 => ECCENTRICITY
  | 3 => INCLINATION
  | 4 => LONGITUDE_OF_ASCENDING_NODE
  | 5 => ARGUMENT_OF_PERIGEE
  | _ => MEAN_ANOMALY_AT_REFERENCE_TIME
  end.

#[global] Instance OrbitalParameterType_eq_dec : EqDecision OrbitalParameterType.
Proof. solve_decision. Defined.

#[global] Instance OrbitalParameterType_countable : Countable OrbitalParameterType.
Proof.
  refine (inj_countable' OrbitalParameterType_value OrbitalParameterType_of_value _).
  intros []; reflexivity.
Defined.

#[global] Instance TimeParameterType_eq_dec : EqDecision TimeParameterType.
Proof. solve_decision. Defined.

#[global] Instance TimeParameterType_countable : Countable TimeParameterType.
Proof.
  refine (inj_countable' (fun _ => 1%nat) (fun _ => WEEK_NUMBER) _).
  intros []; reflexivity.
Defined.

(** [ParameterSet.parameter_type_to_value]: a dictionary from the parameter
    type to a value or [None]. *)
Abbreviation ParameterSet K V := (gmap K (option V)).

(** [ParameterSet.__init__]: [{t: None for t in self._PARAMETER_TYPE}] *)
Definition ParameterSet_init {K V} `{Countable K} (members : list K) : ParameterSet K V :=
  list_to_map (map (fun t => (t, None)) members).

(** [ParameterSet.is_complete]:
    [not any(x is None for x in self.parameter_type_to_value.values())] *)
Definition is_complete {K V} `{Countable K} (self : ParameterSet K V) : bool :=
  negb (existsb (fun x => match x with None => true | Some _ => false end)
                (map snd (map_to_list self))).

Definition OrbitalParameters_init : ParameterSet OrbitalParameterType R :=
  ParameterSet_init
    [SEMI_MAJOR_AXIS; ECCENTRICITY; INCLINATION; LONGITUDE_OF_ASCENDING_NODE;
     ARGUMENT_OF_PERIGEE; MEAN_ANOMALY_AT_REFERENCE_TIME].

Definition TimeParameters_init : ParameterSet TimeParameterType Z :=
  ParameterSet_init [WEEK_NUMBER].

Inductive GpsSubframeId : Type := ONE | TWO | THREE | FOUR | FIVE.

(** Modelled from the spec: [gypsum/navigation_message_parser.py] is not
    among the sources; the subframe records carry the fields that the
    world model reads (week number from subframe 1; mean anomaly,
    eccentricity and the square root of the semi-major axis from subframe
    2; inclination, argument of perigee and longitude of the ascending node
    from subframe 3). *)
Record NavigationMessageSubframe1 : Type := { week_num : Z }.

Record NavigationMessageSubframe2 : Type := {
  mean_anomaly_at_reference_time : R;
  eccentricity : R;
  sqrt_semi_major_axis : R
}.

Record NavigationMessageSubframe3 : Type := {
  inclination_angle : R;
  argument_of_perigee : R;
  longitude_of_ascending_node : R
}.

Inductive NavigationMessageSubframe : Type :=
| Subframe1 (s : NavigationMessageSubframe1)
| Subframe2 (s : NavigationMessageSubframe2)
| Subframe3 (s : NavigationMessageSubframe3)
| Subframe4
| Subframe5.

Definition subframe_id (s : NavigationMessageSubframe) : GpsSubframeId :=
  match s with
  | Subframe1 _ => ONE
  | Subframe2 _ => TWO
  | Subframe3 _ => THREE
  | Subframe4 => FOUR
  | Subframe5 => FIVE
  end.

Inductive Event : Type :=
| DeterminedSatelliteOrbitEvent
    (satellite_id : Z) (orbital_parameters : ParameterSet OrbitalParameterType R).

Record GpsWorldModel : Type := {
  satellite_ids_to_orbital_parameters : gmap Z (ParameterSet OrbitalParameterType R);
  satellite_ids_to_time_parameters : gmap Z (ParameterSet TimeParameterType Z)
}.

(** [GpsWorldModel.__init__] *)
Definition GpsWorldModel_init : GpsWorldModel :=
  {| satellite_ids_to_orbital_parameters := ∅;
     satellite_ids_to_time_parameters := ∅ |}.

(** [d[key]] on a [defaultdict]: a missing key is first bound to a fresh
    value of the factory. *)
Definition defaultdict_getitem {V} (factory : V) (key : Z) (d : gmap Z V) : V * gmap Z V :=
  match d !! key with
  | Some v => (v, d)
  | None => (factory, <[key := factory]> d)
  end.

Definition _process_subframe1
    (orbital_parameters : ParameterSet OrbitalParameterType R)
    (time_parameters : ParameterSet TimeParameterType Z)
    (subframe : NavigationMessageSubframe1)
  : ParameterSet OrbitalParameterType R * ParameterSet TimeParameterType Z :=
  (orbital_parameters, <[WEEK_NUMBER := Some (week_num subframe)]> time_parameters).

Definition _process_subframe2
    (orbital_parameters : ParameterSet OrbitalParameterType R)
    (time_parameters : ParameterSet TimeParameterType Z)
    (subframe : NavigationMessageSubframe2)
  : ParameterSet OrbitalParameterType R * ParameterSet TimeParameterType Z :=
  let orbital_parameters :=
    <[MEAN_ANOMALY_AT_REFERENCE_TIME := Some (mean_anomaly_at_reference_time subframe)]>
      orbital_parameters in
  let orbital_parameters :=
    <[ECCENTRICITY := Some (eccentricity subframe)]> orbital_parameters in
  let orbital_parameters :=
    <[SEMI_MAJOR_AXIS := Some (sqrt_semi_major_axis subframe ^ 2)%R]> orbital_parameters in
  (orbital_parameters, time_parameters).

Definition _process_subframe3
    (orbital_parameters : ParameterSet OrbitalParameterType R)
    (time_parameters : ParameterSet TimeParameterType Z)
    (subframe : NavigationMessageSubframe3)
  : ParameterSet OrbitalParameterType R * ParameterSet TimeParameterType Z :=
  let orbital_parameters :=
    <[INCLINATION := Some (inclination_angle subframe)]> orbital_parameters in
  let orbital_parameters :=
    <[ARGUMENT_OF_PERIGEE := Some (argument_of_perigee subframe)]> orbital_parameters in
  let orbital_parameters :=
    <[LONGITUDE_OF_ASCENDING_NODE := Some (longitude_of_ascending_node subframe)]>
      orbital_parameters in
  (orbital_parameters, time_parameters).

Definition _process_subframe4
    (orbital_parameters : ParameterSet OrbitalParameterType R)
    (time_parameters : ParameterSet TimeParameterType Z)
  : ParameterSet OrbitalParameterType R * ParameterSet TimeParameterType Z :=
  (orbital_parameters, time_parameters).

Definition _process_subframe5
    (orbital_parameters : ParameterSet OrbitalParameterType R)
    (time_parameters : ParameterSet TimeParameterType Z)
  : ParameterSet OrbitalParameterType R * ParameterSet TimeParameterType Z :=
  (orbital_parameters, time_parameters).

(** [handle_subframe_emitted].  The two parameter sets are objects held by
    the dictionaries, so the writes of [_process_subframeN] are writes to
    the dictionaries' values. *)
Definition handle_subframe_emitted (self : GpsWorldModel) (satellite_id : Z)
    (subframe : NavigationMessageSubframe) : list Event * GpsWorldModel :=
  let '(orbital_params_for_this_satellite, orbital) :=
    defaultdict_getitem OrbitalParameters_init satellite_id
      (satellite_ids_to_orbital_parameters self) in
  let '(time_params_for_this_satellite, time) :=
    defaultdict_getitem TimeParameters_init satellite_id
      (satellite_ids_to_time_parameters self) in
  let were_orbit_params_already_complete := is_complete orbital_params_for_this_satellite in
  let '(orbital_params_for_this_satellite, time_params_for_this_satellite) :=
    match subframe with
    | Subframe1 s =>
        _process_subframe1 orbital_params_for_this_satellite time_params_for_this_satellite s
    | Subframe2 s =>
        _process_subframe2 orbital_params_for_this_satellite time_params_for_this_satellite s
    | Subframe3 s =>
        _process_subframe3 orbital_params_for_this_satellite time_params_for_this_satellite s
    | Subframe4 =>
        _process_subframe4 orbital_params_for_this_satellite time_params_for_this_satellite
    | Subframe5 =>
        _process_subframe5 orbital_params_for_this_satellite time_params_for_this_satellite
    end in
  let self :=
    {| satellite_ids_to_orbital_parameters :=
         <[satellite_id := orbital_params_for_this_satellite]> orbital;
       satellite_ids_to_time_parameters :=
         <[satellite_id := time_params_for_this_satellite]> time |} in
  let events_to_return :=
    if negb were_orbit_params_already_complete then
      if is_complete orbital_params_for_this_satellite then
        [DeterminedSatelliteOrbitEvent satellite_id orbital_params_for_this_satellite]
      else []
    else [] in
  (events_to_return, self).

(** The orbital parameters the model holds for a satellite; a satellite
    never seen has the fresh set the [defaultdict] would create. *)
Definition orbital_parameters_of (self : GpsWorldModel) (satellite_id : Z)
  : ParameterSet OrbitalParameterType R :=
  default OrbitalParameters_init (satellite_ids_to_orbital_parameters self !! satellite_id).

(** A run of the world model: the subframes of a list of decoder events are
    handled in order and the events returned by the calls are collected. *)
Fixpoint handle_subframes (self : GpsWorldModel)
    (calls : list (Z * NavigationMessageSubframe)) : list Event * GpsWorldModel :=
  match calls with
  | [] => ([], self)
  | (satellite_id, subframe) :: calls' =>
      let '(events, self) := handle_subframe_emitted self satellite_id subframe in
      let '(events', self) := handle_subframes self calls' in
      (events ++ events', self)
  end.

Definition event_satellite_id (e : Event) : Z :=
  match e with DeterminedSatelliteOrbitEvent s _ => s end.

Definition events_for (satellite_id : Z) (events : list Event) : list Event :=
  List.filter (fun e => bool_decide (event_satellite_id e = satellite_id)) events.

End WorldModel.

(** ** The receiver ([gypsum/receiver.py]) *)

Module Receiver.
Import Np.

(** What [_logger.info] records, in order. *)
Inductive LogRecord : Type :=
| WillPerformAcquisitionSearch (tracked : nat)
| SkippingAcquisitionAttempt
| PerformingAcquisitionSearch (eligible : nat)
| IntegratorDeterminedBitPhase (satellite_id : Z)
| IntegratorCouldNotDetermineBitPhase (satellite_id : Z)
| IntegratorEmittedBit (satellite_id : Z).

(** *** A state, exception and log monad

    [M S A] is a Python procedure over a mutable object of type [S]: it
    returns or raises, leaves the object as it mutated it, and has logged
    some records. *)
Definition M (S A : Type) : Type := S -> result A * S * list LogRecord.

#[global] Instance M_ret {S} : MRet (M S) := fun A a s => (Ok a, s, []).

#[global] Instance M_bind {S} : MBind (M S) := fun A B f m s =>
  match m s with
  | (Ok a, s', l) => let '(r, s'', l') := f a s' in (r, s'', l ++ l')
  | (Raise e, s', l) => (Raise e, s', l)
  end.

Definition raise {S A} (e : exn) : M S A := fun s => (Raise e, s, []).
Definition get {S} : M S S := fun s => (Ok s, s, []).
Definition put {S} (s : S) : M S unit := fun _ => (Ok tt, s, []).
Definition info {S} (r : LogRecord) : M S unit := fun s => (Ok tt, s, [r]).
Definition lift_result {S A} (r : result A) : M S A := fun s => (r, s, []).

(** [for x in xs: body(x)] *)
Fixpoint for_each {S A} (xs : list A) (body : A -> M S unit) : M S unit :=
  match xs with
  | [] => mret tt
  | x :: xs' => body x ≫= fun _ => for_each xs' body
  end.

Inductive TrackingState : Type :=
| PROVISIONAL_PROBE
| LOCKED.

(** Modelled from the spec: [gypsum/acquisition.py] is not among the
    sources; an acquisition result is the tuple (satellite_id,
    doppler_shift_hz, carrier_phase_radians, code_phase_samples,
    correlation_strength). *)
Record SatelliteAcquisitionAttemptResult : Type := {
  satellite_id : Z;
  doppler_shift : R;
  carrier_wave_phase_shift : R;
  prn_phase_shift : Z;
  strength : R
}.

(** Modelled from the spec: [gypsum/navigation_bit_intergrator.py] is not
    among the sources; the integrator's events are [DeterminedBitPhase],
    [CannotDetermineBitPhase] and [EmitNavigationBit].  [OtherEvent] is an
    object of any other class. *)
Inductive Event (BitValue : Type) : Type :=
| DeterminedBitPhaseEvent (bit_phase : Z)
| CannotDetermineBitPhaseEvent (confidence : R)
| EmitNavigationBitEvent (bit_value : BitValue)
| OtherEvent.
Arguments DeterminedBitPhaseEvent {BitValue} bit_phase.
Arguments CannotDetermineBitPhaseEvent {BitValue} confidence.
Arguments EmitNavigationBitEvent {BitValue} bit_value.
Arguments OtherEvent {BitValue}.

(** The collaborators of the receiver whose code is not among the sources:
    the bit integrator, the message decoder, the satellite detector and the
    antenna sample provider.  [tracker_process_samples] is the call
    [self.tracker.process_samples(samples, sample_index)] of the pipeline:
    the tracker declares its parameters as [(seconds_since_start, samples)],
    so the call binds them the other way round.  What is proved of the
    receiver is proved for every behaviour of this call; the examples take
    that of the tracker of the repository, whose first line,
    [(seconds_since_start % 1) == 0], raises [TypeError] on a window of
    complex samples. *)
Class Collaborators : Type := {
  BitValue : Type;
  DecoderEvent : Type;
  NavigationBitIntegrator : Type;
  NavigationBitIntegrator_init : NavigationBitIntegrator;
  process_pseudosymbol :
    NavigationBitIntegrator -> Tracker.NavigationBitPseudosymbol ->
    list (Event BitValue) * NavigationBitIntegrator;
  NavigationMessageDecoder : Type;
  NavigationMessageDecoder_init : NavigationMessageDecoder;
  process_bit_from_satellite :
    NavigationMessageDecoder -> BitValue -> list DecoderEvent * NavigationMessageDecoder;
  tracker_process_samples :
    Tracker.GpsSatelliteTracker -> list complex -> Z ->
    result Tracker.NavigationBitPseudosymbol * Tracker.GpsSatelliteTracker;
  detect_satellites_in_antenna_data :
    list Z -> list complex -> list SatelliteAcquisitionAttemptResult;
  AntennaSampleProvider : Type;
  cursor : AntennaSampleProvider -> Z;
  get_samples : AntennaSampleProvider -> Z -> list complex * AntennaSampleProvider
}.

Section WithCollaborators.
Context `{Collaborators}.

Record GpsSatelliteSignalProcessingPipeline : Type := {
  satellite : Tracker.GpsSatellite;
  state : TrackingState;
  tracker : Tracker.GpsSatelliteTracker;
  pseudosymbol_integrator : NavigationBitIntegrator;
  navigation_message_decoder : NavigationMessageDecoder
}.

Definition set_tracker v (p : GpsSatelliteSignalProcessingPipeline) :=
  {| satellite := satellite p; state := state p; tracker := v;
     pseudosymbol_integrator := pseudosymbol_integrator p;
     navigation_message_decoder := navigation_message_decoder p |}.

Definition set_pseudosymbol_integrator v (p : GpsSatelliteSignalProcessingPipeline) :=
  {| satellite := satellite p; state := state p; tracker := tracker p;
     pseudosymbol_integrator := v;
     navigation_message_decoder := navigation_message_decoder p |}.

Definition set_navigation_message_decoder v (p : GpsSatelliteSignalProcessingPipeline) :=
  {| satellite := satellite p; state := state p; tracker := tracker p;
     pseudosymbol_integrator := pseudosymbol_integrator p;
     navigation_message_decoder := v |}.

(** [GpsSatelliteSignalProcessingPipeline.__init__]: the tracker is built by
    [GpsSatelliteTracker(tracking_params)], with one argument. *)
Definition GpsSatelliteSignalProcessingPipeline_init
    (satellite : Tracker.GpsSatellite)
    (acquisition_result : SatelliteAcquisitionAttemptResult)
  : result GpsSatelliteSignalProcessingPipeline :=
  let tracking_params :=
    {| Tracker.satellite := satellite;
       Tracker.current_doppler_shift := doppler_shift acquisition_result;
       Tracker.current_carrier_wave_phase_shift := carrier_wave_phase_shift acquisition_result;
       Tracker.current_prn_code_phase_shift := prn_phase_shift acquisition_result;
       Tracker.doppler_shifts := [];
       Tracker.carrier_wave_phases := [];
       Tracker.carrier_wave_phase_errors := [];
       Tracker.navigation_bit_pseudosymbols := [] |} in
  match Tracker.GpsSatelliteTracker_new (Some tracking_params) None with
  | Raise e => Raise e
  | Ok tracker =>
      Ok {| satellite := satellite;
            state := PROVISIONAL_PROBE;
            tracker := tracker;
            pseudosymbol_integrator := NavigationBitIntegrator_init;
            navigation_message_decoder := NavigationMessageDecoder_init |}
  end.

Definition _handle_integrator_determined_bit_phase (bit_phase : Z)
  : M GpsSatelliteSignalProcessingPipeline unit :=
  self ← get;
  info (IntegratorDeterminedBitPhase (Tracker.satellite_id (satellite self))).

(** The handler logs and then raises [NotImplementedError]; the source
    marks it [TODO(PT): Untrack this satellite (as the bits are low
    confidence)]. *)
Definition _handle_integrator_cannot_determine_bit_phase (confidence : R)
  : M GpsSatelliteSignalProcessingPipeline unit :=
  self ← get;
  info (IntegratorCouldNotDetermineBitPhase (Tracker.satellite_id (satellite self))) ;;
  raise NotImplementedError.

Definition _handle_integrator_emitted_bit (bit_value : BitValue)
  : M GpsSatelliteSignalProcessingPipeline unit :=
  self ← get;
  info (IntegratorEmittedBit (Tracker.satellite_id (satellite self))) ;;
  let '(decoder_events, decoder) :=
    process_bit_from_satellite (navigation_message_decoder self) bit_value in
  put (set_navigation_message_decoder decoder self).

(** The dispatch of one integrator event on its class. *)
Definition dispatch_integrator_event (event : Event BitValue)
  : M GpsSatelliteSignalProcessingPipeline unit :=
  match event with
  | DeterminedBitPhaseEvent bit_phase => _handle_integrator_determined_bit_phase bit_phase
  | CannotDetermineBitPhaseEvent confidence =>
      _handle_integrator_cannot_determine_bit_phase confidence
  | EmitNavigationBitEvent bit_value => _handle_integrator_emitted_bit bit_value
  | OtherEvent => raise UnknownEventError
  end.

(** [GpsSatelliteSignalProcessingPipeline.process_samples] *)
Definition process_samples (samples : list complex) (sample_index : Z)
  : M GpsSatelliteSignalProcessingPipeline unit :=
  self ← get;
  let '(r, tracker) := tracker_process_samples (tracker self) samples sample_index in
  put (set_tracker tracker self) ;;
  pseudosymbol ← lift_result r;
  self ← get;
  let '(integrator_events, integrator) :=
    process_pseudosymbol (pseudosymbol_integrator self) pseudosymbol in
  put (set_pseudosymbol_integrator integrator self) ;;
  for_each integrator_events dispatch_integrator_event.

Record GpsReceiver : Type := {
  antenna_samples_provider : AntennaSampleProvider;
  satellites_by_id : gmap Z Tracker.GpsSatellite;
  satellite_ids_eligible_for_acquisition : list Z;
  rolling_samples_buffer : list (list complex);
  tracked_satellite_ids_to_processing_pipelines :
    list (Z * GpsSatelliteSignalProcessingPipeline)
}.

Definition set_antenna_samples_provider v (rx : GpsReceiver) :=
  {| antenna_samples_provider := v;
     satellites_by_id := satellites_by_id rx;
     satellite_ids_eligible_for_acquisition := satellite_ids_eligible_for_acquisition rx;
     rolling_samples_buffer := rolling_samples_buffer rx;
     tracked_satellite_ids_to_processing_pipelines :=
       tracked_satellite_ids_to_processing_pipelines rx |}.

Definition set_rolling_samples_buffer v (rx : GpsReceiver) :=
  {| antenna_samples_provider := antenna_samples_provider rx;
     satellites_by_id := satellites_by_id rx;
     satellite_ids_eligible_for_acquisition := satellite_ids_eligible_for_acquisition rx;
     rolling_samples_buffer := v;
     tracked_satellite_ids_to_processing_pipelines :=
       tracked_satellite_ids_to_processing_pipelines rx |}.

Definition set_tracked_satellite_ids_to_processing_pipelines v (rx : GpsReceiver) :=
  {| antenna_samples_provider := antenna_samples_provider rx;
     satellites_by_id := satellites_by_id rx;
     satellite_ids_eligible_for_acquisition := satellite_ids_eligible_for_acquisition rx;
     rolling_samples_buffer := rolling_samples_buffer rx;
     tracked_satellite_ids_to_processing_pipelines := v |}.

(** [GpsReceiver.__init__]; the replicas of
    [generate_replica_prn_signals()] are an argument. *)
Definition GpsReceiver_init (antenna_samples_provider : AntennaSampleProvider)
    (satellites_to_replica_prn_signals : gmap Z (list complex)) : GpsReceiver :=
  {| antenna_samples_provider := antenna_samples_provider;
     satellites_by_id :=
       map_imap (fun satellite_id code =>
                   Some {| Tracker.satellite_id := satellite_id;
                           Tracker.prn_as_complex := code |})
                satellites_to_replica_prn_signals;
     satellite_ids_eligible_for_acquisition := [32%Z];
     rolling_samples_buffer := [];
     tracked_satellite_ids_to_processing_pipelines := [] |}.

(** [deque.append] on a deque with [maxlen]: the oldest entries fall off. *)
Definition deque_append {A} (maxlen : nat) (x : A) (d : list A) : list A :=
  last_n maxlen (d ++ [x]).

(** [d[key] = value] on a dictionary, which keeps insertion order *)
Fixpoint dict_setitem {V} (key : Z) (value : V) (d : list (Z * V)) : list (Z * V) :=
  match d with
  | [] => [(key, value)]
  | (k, v) :: d' =>
      if (k =? key)%Z then (key, value) :: d'
      else (k, v) :: dict_setitem key value d'
  end.

(** [_perform_acquisition] *)
Definition _perform_acquisition : M GpsReceiver unit :=
  self ← get;
  if (length (rolling_samples_buffer self) <? ACQUISITION_INTEGRATION_PERIOD_MS)%nat
  then info SkippingAcquisitionAttempt
  else
    info (PerformingAcquisitionSearch
            (length (satellite_ids_eligible_for_acquisition self))) ;;
    let samples_for_integration_period := concat (rolling_samples_buffer self) in
    let newly_acquired_satellites :=
      detect_satellites_in_antenna_data
        (satellite_ids_eligible_for_acquisition self) samples_for_integration_period in
    for_each newly_acquired_satellites (fun satellite_acquisition_result =>
      let sat_id := satellite_id satellite_acquisition_result in
      self ← get;
      satellite ← match satellites_by_id self !! sat_id with
                  | Some s => mret s
                  | None => raise KeyError
                  end;
      pipeline ← lift_result
        (GpsSatelliteSignalProcessingPipeline_init satellite satellite_acquisition_result);
      put (set_tracked_satellite_ids_to_processing_pipelines
             (dict_setitem sat_id pipeline
                (tracked_satellite_ids_to_processing_pipelines self)) self)).

(** [for _satellite_id, pipeline in d.items(): body(pipeline)].  A
    pipeline is an object held by the dictionary, so it keeps what the call
    did to it, also when the call raises; the loop ends at the first call
    that raises. *)
Fixpoint for_each_pipeline
    (items : list (Z * GpsSatelliteSignalProcessingPipeline))
    (body : M GpsSatelliteSignalProcessingPipeline unit)
  : result unit * list (Z * GpsSatelliteSignalProcessingPipeline) * list LogRecord :=
  match items with
  | [] => (Ok tt, [], [])
  | (sat_id, pipeline) :: items' =>
      match body pipeline with
      | (Ok _, pipeline', l) =>
          let '(r, items'', l') := for_each_pipeline items' body in
          (r, (sat_id, pipeline') :: items'', l ++ l')
      | (Raise e, pipeline', l) => (Raise e, (sat_id, pipeline') :: items', l)
      end
  end.

(** [_track_acquired_satellites] *)
Definition _track_acquired_satellites (samples : list complex) (sample_index : Z)
  : M GpsReceiver unit :=
  fun self =>
    let '(r, items, l) :=
      for_each_pipeline (tracked_satellite_ids_to_processing_pipelines self)
                        (process_samples samples sample_index) in
    (r, set_tracked_satellite_ids_to_processing_pipelines items self, l).

(** [GpsReceiver.step] *)
Definition step : M GpsReceiver unit :=
  self ← get;
  let sample_index := cursor (antenna_samples_provider self) in
  let '(samples, provider) :=
    get_samples (antenna_samples_provider self) SAMPLES_PER_PRN_TRANSMISSION in
  put (set_antenna_samples_provider provider self) ;;
  self ← get;
  put (set_rolling_samples_buffer
         (deque_append ACQUISITION_INTEGRATION_PERIOD_MS samples
                       (rolling_samples_buffer self)) self) ;;
  self ← get;
  (if (length (tracked_satellite_ids_to_processing_pipelines self) <? 1)%nat
   then
     info (WillPerformAcquisitionSearch
             (length (tracked_satellite_ids_to_processing_pipelines self))) ;;
     _perform_acquisition
   else mret tt) ;;
  _track_acquired_satellites samples sample_index.

(** What a step logged. *)
Definition logged (rx : GpsReceiver) : list LogRecord := snd (step rx).

End WithCollaborators.

End Receiver.

(** ** The vocabulary of the specification *)

(** The three lock criteria as the specification words them, to be compared
    with what [Tracker._is_locked] computes. *)
Module LockSpec.
Import Np Tracker.
Local Open Scope R_scope.

Section WithSignedZeros.
Context `{SignedZeros}.

(** the variance of the last 250 ms of carrier phase errors is below 900 *)
Definition spec_phase_error_variance_under_threshold (self : GpsSatelliteTracker) : Prop :=
  exists v,
    var (last_n 250 (carrier_wave_phase_errors (tracking_params self))) = Some v
    /\ v < 900.

(** the mean of the positive-half and negative-half variances of the recent
    prompt I values is below 2 *)
Definition spec_i_channel_looks_locked (self : GpsSatelliteTracker) : Prop :=
  exists positive_var negative_var,
    var (List.filter (fun x => Rle_bool 0 x) (last_n 250 (_is self))) = Some positive_var
    /\ var (List.filter (fun x => Rlt_bool x 0) (last_n 250 (_is self))) = Some negative_var
    /\ (positive_var + negative_var) / 2 < 2.

(** the angle, in degrees, of a point of the left half-plane, centred on
    the negative real axis *)
Definition centered_angle (left_point : complex) : R :=
  let angle :=
    180 - fmod ((arctan2 (imag left_point) (real left_point) / tau) * 360) 180 in
  if Rlt_dec angle 90 then angle else 180 - angle.

(** the absolute value of the centred angle of the left-pole constellation
    centre of mass is below 6 degrees *)
Definition spec_constellation_rotation_acceptable (self : GpsSatelliteTracker) : Prop :=
  exists left_point,
    Cmean (List.filter (fun p => Rlt_bool (real p) 0)
                  (map (fun iq => Cx (fst iq) (snd iq)) (combine (_is self) (_qs self))))
      = Some left_point
    /\ Rabs (centered_angle left_point) < 6.

End WithSignedZeros.

End LockSpec.

(** What a receiver step did about acquisition, read off its log: whether
    it went into [_perform_acquisition], and whether the search proper ran. *)
Module AcquisitionSpec.
Import Receiver.

Definition is_WillPerformAcquisitionSearch (r : LogRecord) : bool :=
  match r with WillPerformAcquisitionSearch _ => true | _ => false end.

Definition is_PerformingAcquisitionSearch (r : LogRecord) : bool :=
  match r with PerformingAcquisitionSearch _ => true | _ => false end.

Definition enters_acquisition `{Collaborators} (rx : GpsReceiver) : bool :=
  existsb is_WillPerformAcquisitionSearch (logged rx).

Definition runs_acquisition_search `{Collaborators} (rx : GpsReceiver) : bool :=
  existsb is_PerformingAcquisitionSearch (logged rx).

End AcquisitionSpec.

(** What a subframe does to the orbital parameters of its satellite. *)
Module WorldModelSpec.
Import WorldModel.

Definition processed (subframe : NavigationMessageSubframe)
    (orbital_parameters : ParameterSet OrbitalParameterType R)
  : ParameterSet OrbitalParameterType R :=
  match subframe with
  | Subframe2 s => fst (_process_subframe2 orbital_parameters TimeParameters_init s)
  | Subframe3 s => fst (_process_subframe3 orbital_parameters TimeParameters_init s)
  | _ => orbital_parameters
  end.

End WorldModelSpec.

(** The parts of a receiver step, named. *)
Module ReceiverSpec.
Import Np Receiver.

(** every record a procedure logs satisfies [P] *)
Definition log_all {S A} (P : LogRecord -> Prop) (m : M S A) : Prop :=
  forall s, Forall P (snd (m s)).

(** the records the handlers of integrator events log *)
Definition is_integrator_record (r : LogRecord) : Prop :=
  match r with
  | IntegratorDeterminedBitPhase _
  | IntegratorCouldNotDetermineBitPhase _
  | IntegratorEmittedBit _ => True
  | _ => False
  end.

Section WithCollaborators.
Context `{Collaborators}.

(** the body of the loop of [_perform_acquisition] *)
Definition acquire (satellite_acquisition_result : SatelliteAcquisitionAttemptResult)
  : M GpsReceiver unit :=
  let sat_id := satellite_id satellite_acquisition_result in
  self ← get;
  satellite ← match satellites_by_id self !! sat_id with
              | Some s => mret s
              | None => raise KeyError
              end;
  pipeline ← lift_result
    (GpsSatelliteSignalProcessingPipeline_init satellite satellite_acquisition_result);
  put (set_tracked_satellite_ids_to_processing_pipelines
         (dict_setitem sat_id pipeline
            (tracked_satellite_ids_to_processing_pipelines self)) self).

(** A procedure that has logged the failure of the integrator to determine
    the bit phase has raised [NotImplementedError]. *)
Definition raises_on_low_confidence {S A} (m : M S A) : Prop :=
  forall s sat,
    In (IntegratorCouldNotDetermineBitPhase sat) (snd (m s)) ->
    raised (fst (fst (m s))) = Some NotImplementedError.

(** the receiver after the samples of the step are pulled and buffered *)
Definition buffered (rx : GpsReceiver) : GpsReceiver :=
  let '(samples, provider) :=
    get_samples (antenna_samples_provider rx) SAMPLES_PER_PRN_TRANSMISSION in
  let rx := set_antenna_samples_provider provider rx in
  set_rolling_samples_buffer
    (deque_append ACQUISITION_INTEGRATION_PERIOD_MS samples (rolling_samples_buffer rx)) rx.

(** the tracking loop of the step *)
Definition tracked_by (rx : GpsReceiver) :=
  for_each_pipeline (tracked_satellite_ids_to_processing_pipelines rx)
    (process_samples
       (fst (get_samples (antenna_samples_provider rx) SAMPLES_PER_PRN_TRANSMISSION))
       (cursor (antenna_samples_provider rx))).

End WithCollaborators.

End ReceiverSpec.

(** The gains [_test5] picks, and the recentred offset of the correlation
    peak as the specification words it ([k > 1023] gives [k - 2046]). *)
Module TrackerSpec.
Import Np Tracker.
Local Open Scope R_scope.

Definition gains_of `{SignedZeros} (self : GpsSatelliteTracker) : R * R :=
  if _is_locked self
  then _calculate_loop_filter_alpha_and_beta 3
  else _calculate_loop_filter_alpha_and_beta 6.

(** The two products of [process_samples] that follow the code phase
    update, [samples * prompt_prn] and [doppler_shifted_samples *
    prompt_prn]: whether numpy computes them or raises. *)
Definition prn_wipe_off (self : GpsSatelliteTracker) (seconds_since_start : R)
    (samples : list complex) : result unit :=
  match doppler_shifted_samples self seconds_since_start samples with
  | Raise e => Raise e
  | Ok doppler_shifted_samples =>
      match multiply samples (prompt_prn self) with
      | Raise e => Raise e
      | Ok _ =>
          match multiply doppler_shifted_samples (prompt_prn self) with
          | Raise e => Raise e
          | Ok _ => Ok tt
          end
      end
  end.

Definition centered_offset (k : nat) : Z :=
  if (1023 <? Z.of_nat k)%Z then (Z.of_nat k - 2046)%Z else Z.of_nat k.

(** The tracker once [process_samples] has moved the code phase and
    appended the pseudosymbol value, for a peak at offset [k]: the state in
    which the two products of [prn_wipe_off] are computed. *)
Definition code_phase_updated (self : GpsSatelliteTracker) (k : nat) (peak : complex)
  : GpsSatelliteTracker :=
  let p := tracking_params self in
  set_tracking_params
    (set_navigation_bit_pseudosymbols
       (navigation_bit_pseudosymbols p ++ [int (sign (real peak))])
       (set_current_prn_code_phase_shift
          ((current_prn_code_phase_shift p + Z.sgn (centered_offset k)) mod 2046)%Z
          p))
    self.

(** entry [m] of the inverse transform of the constant 1 of length [n] *)
Definition ifft_ones_at (n m : nat) : complex :=
  Cscale (/ INR n)
    (Csum (map (fun k => Cmul (nth k (repeat (Cx 1 0) n) C0)
                              (exp_j (2 * PI * INR k * INR m / INR n)))
               (seq 0 n))).

End TrackerSpec.

(** ** Concrete inputs *)

Module Examples.
Import Np Tracker.
Local Open Scope R_scope.

(** floats whose zeros are all [0.0] *)
Definition positive_zeros : SignedZeros :=
  {| y_is_negative_zero := fun _ _ => false;
     x_is_negative_zero := fun _ _ => false |}.

(** floats whose zeros are all [-0.0] *)
Definition negative_zeros : SignedZeros :=
  {| y_is_negative_zero := fun _ _ => true;
     x_is_negative_zero := fun _ _ => true |}.

(** one millisecond of silence *)
Definition silence : list complex := repeat C0 2046.

(** a satellite whose replica is constant *)
Definition satellite_32 : GpsSatellite :=
  {| satellite_id := 32; prn_as_complex := repeat (Cx 1 0) 2046 |}.

(** the tracking parameters the pipeline builds from an acquisition result
    with Doppler shift 0 Hz, carrier phase 0 and code phase 0 *)
Definition fresh_params : GpsSatelliteTrackingParameters :=
  {| satellite := satellite_32;
     current_doppler_shift := 0;
     current_carrier_wave_phase_shift := 0;
     current_prn_code_phase_shift := 0;
     doppler_shifts := [];
     carrier_wave_phases := [];
     carrier_wave_phase_errors := [];
     navigation_bit_pseudosymbols := [] |}.

Definition fresh_tracker : GpsSatelliteTracker := __init__ fresh_params 6.

(** one sample of unit amplitude followed by silence *)
Definition click : list complex := Cx 1 0 :: repeat C0 2045.

(** a satellite whose replica is a click, and a tracker for it as the
    pipeline would build it from an acquisition result with Doppler shift
    0 Hz, carrier phase 0 and code phase 0 *)
Definition satellite_1 : GpsSatellite :=
  {| satellite_id := 1; prn_as_complex := click |}.

Definition click_tracker : GpsSatelliteTracker :=
  __init__
    {| satellite := satellite_1;
       current_doppler_shift := 0;
       current_carrier_wave_phase_shift := 0;
       current_prn_code_phase_shift := 0;
       doppler_shifts := [];
       carrier_wave_phases := [];
       carrier_wave_phase_errors := [];
       navigation_bit_pseudosymbols := [] |}
    6.

(** A tracker 250 ms into a signal whose constellation sits at 45 degrees
    (I = Q = -1 or I = Q = 1, so every phase error I * Q is 1), two steps
    after a second boundary emptied [_is] and [_qs]. *)
Definition rotated_tracker : GpsSatelliteTracker :=
  set_qs [-1; 1]
    (set_is [-1; 1]
       (set_tracking_params
          (set_carrier_wave_phase_errors (repeat 1 250) fresh_params)
          fresh_tracker)).

End Examples.

(** A receiver that tracks one satellite, with collaborators whose
    integrator cannot determine the bit phase: the integrator answers every
    pseudosymbol with [CannotDetermineBitPhase] at confidence 1/2, the
    detector finds nothing and the antenna is silent.  The tracker call is
    that of the repository: [self.tracker.process_samples(samples,
    sample_index)] binds the array of samples to [seconds_since_start], and
    the first line of the tracker's [process_samples],
    [(seconds_since_start % 1) == 0], raises [TypeError] on an array of
    complex numbers before anything is written. *)
Module ReceiverExamples.
Import Np Receiver.
Local Open Scope R_scope.

Definition low_confidence : Collaborators :=
  {| BitValue := bool;
     DecoderEvent := unit;
     NavigationBitIntegrator := unit;
     NavigationBitIntegrator_init := tt;
     process_pseudosymbol := fun integrator _ =>
       ([CannotDetermineBitPhaseEvent (1 / 2)], integrator);
     NavigationMessageDecoder := unit;
     NavigationMessageDecoder_init := tt;
     process_bit_from_satellite := fun decoder _ => ([], decoder);
     tracker_process_samples := fun tracker _ _ => (Raise TypeError, tracker);
     detect_satellites_in_antenna_data := fun _ _ => [];
     AntennaSampleProvider := Z;
     cursor := fun provider => provider;
     get_samples := fun provider n => (Examples.silence, (provider + n)%Z) |}.

Definition pipeline_32 : @GpsSatelliteSignalProcessingPipeline low_confidence :=
  @Build_GpsSatelliteSignalProcessingPipeline low_confidence
    Examples.satellite_32 PROVISIONAL_PROBE Examples.fresh_tracker tt tt.

Definition tracking_one : @GpsReceiver low_confidence :=
  @Build_GpsReceiver low_confidence
    0%Z {[ 32%Z := Examples.satellite_32 ]} [32%Z] [] [(32%Z, pipeline_32)].

(** the receiver as [GpsReceiver.__init__] leaves it *)
Definition just_started : @GpsReceiver low_confidence :=
  @GpsReceiver_init low_confidence 0%Z {[ 32%Z := Examples.click ]}.

End ReceiverExamples.

(** ** The rest of the tracker file ([gypsum/tracker.py]) *)

(** [BitValue] *)
Module Bits.

Inductive BitValue : Type :=
| UNKNOWN
| ZERO
| ONE.

(** [BitValue.from_val]: a dictionary lookup with the keys 0 and 1 *)
Definition from_val (val : Z) : result BitValue :=
  if (val =? 0)%Z then Ok ZERO
  else if (val =? 1)%Z then Ok ONE
  else Raise KeyError.

(** [BitValue.as_val] *)
Definition as_val (self : BitValue) : result Z :=
  match self with
  | UNKNOWN => Raise ValueError
  | ZERO => Ok 0%Z
  | ONE => Ok 1%Z
  end.

(** [BitValue.inverted] *)
Definition inverted (self : BitValue) : result BitValue :=
  match self with
  | UNKNOWN => Raise ValueError
  | ZERO => Ok ONE
  | ONE => Ok ZERO
  end.

End Bits.

(** The carrier loops that [process_samples] has commented out, as far as
    they use nothing but numpy arithmetic. *)
Module TrackerVariants.
Import Np Tracker.
Local Open Scope R_scope.

Definition set_phase_errors v (t : GpsSatelliteTracker) :=
  {| tracking_params := tracking_params t;
     loop_bandwidth := loop_bandwidth t;
     loop_gain_phase := loop_gain_phase t;
     loop_gain_freq := loop_gain_freq t;
     _is := _is t; _qs := _qs t; iq_angles := iq_angles t;
     phase_errors := v; carrier_phases := carrier_phases t;
     time_domain_for_1ms := time_domain_for_1ms t |}.

(** the constructor's argument and the gains it computes, replaced *)
Definition with_loop (bandwidth gain_phase gain_freq : R) (t : GpsSatelliteTracker) :=
  {| tracking_params := tracking_params t;
     loop_bandwidth := bandwidth;
     loop_gain_phase := gain_phase;
     loop_gain_freq := gain_freq;
     _is := _is t; _qs := _qs t; iq_angles := iq_angles t;
     phase_errors := phase_errors t; carrier_phases := carrier_phases t;
     time_domain_for_1ms := time_domain_for_1ms t |}.

(** [_adjust_tracking_parameters_via_correlation_profile] *)
Definition _adjust_tracking_parameters_via_correlation_profile
    (self : GpsSatelliteTracker) (correlation_peak_value : complex)
  : GpsSatelliteTracker :=
  let params := tracking_params self in
  let I := real correlation_peak_value in
  let Q := imag correlation_peak_value in
  let carrier_wave_phase_error := I * Q in
  let params :=
    set_current_doppler_shift
      (current_doppler_shift params
       + (carrier_wave_phase_error / tau) * loop_gain_freq self) params in
  let params :=
    set_current_carrier_wave_phase_shift
      (current_carrier_wave_phase_shift params
       + carrier_wave_phase_error * loop_gain_phase self) params in
  let params :=
    set_current_carrier_wave_phase_shift
      (fmod (current_carrier_wave_phase_shift params) tau) params in
  set_tracking_params params self.

Section WithSignedZeros.
Context `{SignedZeros}.

(** [_follow_carrier_via_correlation_profile]; [np.angle(peak)] is
    [arctan2(peak.imag, peak.real)] *)
Definition _follow_carrier_via_correlation_profile
    (self : GpsSatelliteTracker) (correlation_profile : list complex) (peak : complex)
  : GpsSatelliteTracker :=
  let params := tracking_params self in
  let phase_error := arctan2 (imag peak) (real peak) in
  let self := set_phase_errors (phase_errors self ++ [phase_error]) self in
  let params :=
    set_current_doppler_shift
      (current_doppler_shift params + ((phase_error / tau) * 0.5)) params in
  let params :=
    set_current_carrier_wave_phase_shift
      (current_carrier_wave_phase_shift params + (phase_error * 0.1)) params in
  let params :=
    set_current_carrier_wave_phase_shift
      (fmod (current_carrier_wave_phase_shift params) tau) params in
  set_tracking_params params self.

(** [a[i]] on an array: a negative index counts from the end, and an index
    out of range raises [IndexError], which is [None] here *)
Definition getitem {A} (a : list A) (i : Z) : option A :=
  let n := Z.of_nat (length a) in
  if (0 <=? i)%Z && (i <? n)%Z then nth_error a (Z.to_nat i)
  else if (- n <=? i)%Z && (i <? 0)%Z then nth_error a (Z.to_nat (n + i))
  else None.

(** [_test2]; [None] is the [IndexError] of the first line *)
Definition _test2 (self : GpsSatelliteTracker)
    (samples_with_carrier_and_prn_wipeoff : list complex) (sample_offset : Z)
  : option GpsSatelliteTracker :=
  match getitem samples_with_carrier_and_prn_wipeoff sample_offset with
  | None => None
  | Some sample =>
      let error := real sample * imag sample in
      let alpha := 0.01 in
      let beta := 0.0001 in
      let p := tracking_params self in
      let p := set_current_carrier_wave_phase_shift
                 (current_carrier_wave_phase_shift p + error * alpha) p in
      let p := set_current_carrier_wave_phase_shift
                 (fmod (current_carrier_wave_phase_shift p) tau) p in
      let p := set_current_doppler_shift (current_doppler_shift p + error * beta) p in
      let p := set_carrier_wave_phase_errors (carrier_wave_phase_errors p ++ [error]) p in
      let self := set_tracking_params p self in
      Some (set_iq_angles (iq_angles self ++ [arctan2 (imag sample) (real sample)]) self)
  end.

(** the body of the loop of [_test3], for the sample at index [i] *)
Definition _test3_body (self : GpsSatelliteTracker) (i : nat) (sample : complex)
  : GpsSatelliteTracker :=
  let error := real sample * imag sample in
  let alpha := 0.001 in
  let beta := 0.00001 in
  let p := tracking_params self in
  let p := set_current_carrier_wave_phase_shift
             (current_carrier_wave_phase_shift p + error * alpha) p in
  let p := set_current_carrier_wave_phase_shift
             (fmod (current_carrier_wave_phase_shift p) tau) p in
  let p := set_current_doppler_shift (current_doppler_shift p + error * beta) p in
  let self := set_tracking_params p self in
  if (i =? 0)%nat then
    let p := tracking_params self in
    let p := set_carrier_wave_phase_errors (carrier_wave_phase_errors p ++ [error]) p in
    let self := set_tracking_params p self in
    set_iq_angles (iq_angles self ++ [arctan2 (imag sample) (real sample)]) self
  else self.

(** [for i, sample in enumerate(samples): body] *)
Fixpoint for_enumerate {St A} (body : St -> nat -> A -> St) (i : nat) (xs : list A)
    (s : St) : St :=
  match xs with
  | [] => s
  | x :: xs' => for_enumerate body (S i) xs' (body s i x)
  end.

(** [_test3] *)
Definition _test3 (self : GpsSatelliteTracker)
    (samples_with_carrier_and_prn_wipeoff : list complex) : GpsSatelliteTracker :=
  for_enumerate _test3_body 0 samples_with_carrier_and_prn_wipeoff self.

(** [_test4], whose source is that of [_test3] line for line *)
Definition _test4 (self : GpsSatelliteTracker)
    (samples_with_carrier_and_prn_wipeoff : list complex) : GpsSatelliteTracker :=
  for_enumerate
    (fun self i sample =>
       let error := real sample * imag sample in
       let alpha := 0.001 in
       let beta := 0.00001 in
       let p := tracking_params self in
       let p := set_current_carrier_wave_phase_shift
                  (current_carrier_wave_phase_shift p + error * alpha) p in
       let p := set_current_carrier_wave_phase_shift
                  (fmod (current_carrier_wave_phase_shift p) tau) p in
       let p := set_current_doppler_shift (current_doppler_shift p + error * beta) p in
       let self := set_tracking_params p self in
       if (i =? 0)%nat then
         let p := tracking_params self in
         let p := set_carrier_wave_phase_errors (carrier_wave_phase_errors p ++ [error]) p in
         let self := set_tracking_params p self in
         set_iq_angles (iq_angles self ++ [arctan2 (imag sample) (real sample)]) self
       else self)
    0 samples_with_carrier_and_prn_wipeoff self.

End WithSignedZeros.

End TrackerVariants.

(** The tracker as a step of [process_samples] hands it to [_test5], and
    what the step does to it after [_test5]. *)
Module TrackerStepSpec.
Import Np Tracker TrackerSpec.
Local Open Scope R_scope.

Definition before_loop (self : GpsSatelliteTracker) (k : nat) (peak : complex)
  : GpsSatelliteTracker :=
  let p := tracking_params self in
  set_qs (_qs self ++ [imag peak])
    (set_is (_is self ++ [real peak])
       (set_tracking_params
          (set_navigation_bit_pseudosymbols
             (navigation_bit_pseudosymbols p ++ [int (sign (real peak))])
             (set_current_prn_code_phase_shift
                ((current_prn_code_phase_shift p + Z.sgn (centered_offset k)) mod 2046)%Z
                p))
          self)).

Definition after_loop (seconds_since_start : R) (self : GpsSatelliteTracker)
  : GpsSatelliteTracker :=
  let params := tracking_params self in
  let self :=
    set_carrier_phases
      (carrier_phases self ++ [current_carrier_wave_phase_shift params]) self in
  let params :=
    set_doppler_shifts (doppler_shifts params ++ [current_doppler_shift params]) params in
  let params :=
    set_carrier_wave_phases
      (carrier_wave_phases params ++ [current_carrier_wave_phase_shift params])
      params in
  let self := set_tracking_params params self in
  let self :=
    if Rle_bool 4.99 (fmod seconds_since_start 5)
    then set_tracking_params
           (set_carrier_wave_phase_errors [] (tracking_params self)) self
    else self in
  if Req_bool (fmod seconds_since_start 1) 0
  then set_carrier_phases [] (set_iq_angles [] (set_qs [] (set_is [] self)))
  else self.

End TrackerStepSpec.

(** A tracker 250 ms into a clean signal: the constellation lies on the
    real axis (I = 1 or I = -1, Q = 0), so every phase error I * Q is 0. *)
Module MoreExamples.
Import Np Tracker.
Local Open Scope R_scope.

Definition clean_tracker : GpsSatelliteTracker :=
  set_qs [0; 0; 0]
    (set_is [1; -1; 1]
       (set_tracking_params
          (set_carrier_wave_phase_errors (repeat 0 250) Examples.fresh_params)
          Examples.fresh_tracker)).

End MoreExamples.

(** ** [gps/utils.py] *)

Module Utils.

(** [range(0, stop, step)] for a length [stop]: a zero step raises
    [ValueError], a negative step gives nothing, and a positive step gives
    0, step, 2 step, ... below [stop]. *)
Definition range0 (stop : nat) (step : Z) : result (list nat) :=
  if (step =? 0)%Z then Raise ValueError
  else if (step <? 0)%Z then Ok []
  else
    let s := Z.to_nat step in
    Ok (map (fun q => q * s)%nat (seq 0 ((stop + s - 1) / s))).

(** [li[i:j]] for [0 <= i <= j] *)
Definition slice {A} (li : list A) (i j : nat) : list A :=
  firstn (j - i) (skipn i li).

(** [chunks]: the list of what the generator yields, or the exception that
    [range] raises when the generator is first advanced *)
Definition chunks {A} (li : list A) (chunk_size : Z) : result (list (list A)) :=
  match range0 (length li) chunk_size with
  | Raise e => Raise e
  | Ok indices =>
      Ok (map (fun i => slice li i (i + Z.to_nat chunk_size)) indices)
  end.

End Utils.

(** ** The accessors of the parameter sets ([gypsum/world_model.py]) *)

Module WorldModelAccessors.
Import WorldModel.

(** [ParameterSet._get_parameter_infallibly]: the dictionary lookup raises
    [KeyError] on a missing key, and a slot that holds [None] raises
    [RuntimeError] *)
Definition _get_parameter_infallibly {K V} `{Countable K}
    (self : ParameterSet K V) (param_type : K) : result V :=
  match self !! param_type with
  | None => Raise KeyError
  | Some None => Raise RuntimeError
  | Some (Some v) => Ok v
  end.

Definition semi_major_axis (self : ParameterSet OrbitalParameterType R) : result R :=
  _get_parameter_infallibly self SEMI_MAJOR_AXIS.

Definition eccentricity (self : ParameterSet OrbitalParameterType R) : result R :=
  _get_parameter_infallibly self ECCENTRICITY.

Definition inclination (self : ParameterSet OrbitalParameterType R) : result R :=
  _get_parameter_infallibly self INCLINATION.

Definition longitude_of_ascending_node (self : ParameterSet OrbitalParameterType R)
  : result R :=
  _get_parameter_infallibly self LONGITUDE_OF_ASCENDING_NODE.

Definition argument_of_perigee (self : ParameterSet OrbitalParameterType R) : result R :=
  _get_parameter_infallibly self ARGUMENT_OF_PERIGEE.

Definition mean_anomaly_at_reference_time (self : ParameterSet OrbitalParameterType R)
  : result R :=
  _get_parameter_infallibly self MEAN_ANOMALY_AT_REFERENCE_TIME.

Definition week_number (self : ParameterSet TimeParameterType Z) : result Z :=
  _get_parameter_infallibly self WEEK_NUMBER.

(** The time parameters the model holds for a satellite; a satellite never
    seen has the fresh set the [defaultdict] would create. *)
Definition time_parameters_of (self : GpsWorldModel) (satellite_id : Z)
  : ParameterSet TimeParameterType Z :=
  default TimeParameters_init (satellite_ids_to_time_parameters self !! satellite_id).

Definition is_subframe2 (subframe : NavigationMessageSubframe) : bool :=
  match subframe with Subframe2 _ => true | _ => false end.

Definition is_subframe3 (subframe : NavigationMessageSubframe) : bool :=
  match subframe with Subframe3 _ => true | _ => false end.

(** whether a run of calls holds, for this satellite, a subframe of the
    given kind *)
Definition seen (kind : NavigationMessageSubframe -> bool) (satellite_id : Z)
    (calls : list (Z * NavigationMessageSubframe)) : bool :=
  existsb (fun call => bool_decide (fst call = satellite_id) && kind (snd call)) calls.

(** the value a subframe carries for an orbital parameter, as
    [_process_subframe2] and [_process_subframe3] store it *)
Definition broadcast (param_type : OrbitalParameterType)
    (subframe : NavigationMessageSubframe) : option R :=
  match subframe, param_type with
  | Subframe2 s, MEAN_ANOMALY_AT_REFERENCE_TIME =>
      Some (WorldModel.mean_anomaly_at_reference_time s)
  | Subframe2 s, ECCENTRICITY => Some (WorldModel.eccentricity s)
  | Subframe2 s, SEMI_MAJOR_AXIS => Some (sqrt_semi_major_axis s ^ 2)%R
  | Subframe3 s, INCLINATION => Some (inclination_angle s)
  | Subframe3 s, ARGUMENT_OF_PERIGEE => Some (WorldModel.argument_of_perigee s)
  | Subframe3 s, LONGITUDE_OF_ASCENDING_NODE =>
      Some (WorldModel.longitude_of_ascending_node s)
  | _, _ => None
  end.

(** the week number a subframe carries, as [_process_subframe1] stores it *)
Definition broadcast_week (subframe : NavigationMessageSubframe) : option Z :=
  match subframe with
  | Subframe1 s => Some (week_num s)
  | _ => None
  end.

(** the value picked from the last call of a run that is for this
    satellite and carries one *)
Fixpoint latest {A} (pick : NavigationMessageSubframe -> option A) (satellite_id : Z)
    (calls : list (Z * NavigationMessageSubframe)) : option A :=
  match calls with
  | [] => None
  | (sat, subframe) :: calls' =>
      match latest pick satellite_id calls' with
      | Some v => Some v
      | None => if bool_decide (sat = satellite_id) then pick subframe else None
      end
  end.

End WorldModelAccessors.

(** ** Runs of the receiver ([gypsum/receiver.py]) *)

(** What the loop over the integrator's events does with a list of events,
    and the receiver after a number of steps. *)
Module ReceiverRunSpec.
Import Np Receiver.

Section WithCollaborators.
Context `{Collaborators}.

(** the exception the handling of an event ends in, if any *)
Definition aborts (event : Event BitValue) : option exn :=
  match event with
  | CannotDetermineBitPhaseEvent _ => Some NotImplementedError
  | OtherEvent => Some UnknownEventError
  | _ => None
  end.

(** the events up to, and with, the first whose handling raises *)
Fixpoint handled (events : list (Event BitValue)) : list (Event BitValue) :=
  match events with
  | [] => []
  | event :: events' =>
      match aborts event with
      | Some _ => [event]
      | None => event :: handled events'
      end
  end.

(** how the loop over the events ends *)
Fixpoint outcome (events : list (Event BitValue)) : result unit :=
  match events with
  | [] => Ok tt
  | event :: events' =>
      match aborts event with
      | Some e => Raise e
      | None => outcome events'
      end
  end.

(** the bits of the [EmitNavigationBit] events, in order *)
Definition bits_of (events : list (Event BitValue)) : list BitValue :=
  flat_map (fun event => match event with
                         | EmitNavigationBitEvent bit_value => [bit_value]
                         | _ => []
                         end) events.

(** the decoder after it was given the bits one by one *)
Definition feed (decoder : NavigationMessageDecoder) (bits : list BitValue)
  : NavigationMessageDecoder :=
  fold_left (fun decoder bit_value => snd (process_bit_from_satellite decoder bit_value))
            bits decoder.

(** the records the handlers log for the events *)
Definition records_of (satellite_id : Z) (events : list (Event BitValue))
  : list LogRecord :=
  flat_map (fun event => match event with
                         | DeterminedBitPhaseEvent _ =>
                             [IntegratorDeterminedBitPhase satellite_id]
                         | CannotDetermineBitPhaseEvent _ =>
                             [IntegratorCouldNotDetermineBitPhase satellite_id]
                         | EmitNavigationBitEvent _ => [IntegratorEmittedBit satellite_id]
                         | OtherEvent => []
                         end) events.

(** the receiver after [n] calls of [step], whatever they returned *)
Fixpoint after_steps (n : nat) (rx : GpsReceiver) : GpsReceiver :=
  match n with
  | O => rx
  | S n' => after_steps n' (snd (fst (step rx)))
  end.

End WithCollaborators.

End ReceiverRunSpec.

(** A receiver that tracks two satellites, with the collaborators of
    [ReceiverExamples.low_confidence]: the pipeline of satellite 32 is
    called first. *)
Module ReceiverRunExamples.
Import Np Receiver.

Definition pipeline_1 : @GpsSatelliteSignalProcessingPipeline ReceiverExamples.low_confidence :=
  @Build_GpsSatelliteSignalProcessingPipeline ReceiverExamples.low_confidence
    Examples.satellite_1 PROVISIONAL_PROBE Examples.click_tracker tt tt.

Definition tracking_two : @GpsReceiver ReceiverExamples.low_confidence :=
  @Build_GpsReceiver ReceiverExamples.low_confidence
    0%Z {[ 32%Z := Examples.satellite_32 ]} [32%Z] []
    [(32%Z, ReceiverExamples.pipeline_32); (1%Z, pipeline_1)].

End ReceiverRunExamples.

(** * Properties *)

(** ** Real-number facts used below *)

Section NumericFacts.
Import Np.
Local Open Scope R_scope.

Lemma fmod_bounds (x y : R) : 0 < y -> 0 <= fmod x y < y.
Proof.
  intros Hy. unfold fmod.
  pose proof (Zfloor_bound (x / y)) as [Hlo Hhi].
  assert (Hx : x = y * (x / y)) by (field; lra).
  set (q := IZR (Zfloor (x / y))) in *.
  set (z := x / y) in *.
  rewrite Hx. split; nra.
Qed.

Lemma tau_pos : 0 < tau.
Proof. unfold tau. pose proof PI_RGT_0. lra. Qed.

Lemma int_sign (x : R) :
  int (sign x) = if Rlt_dec 0 x then 1%Z else if Rlt_dec x 0 then (-1)%Z else 0%Z.
Proof.
  unfold int, sign.
  destruct (Rlt_dec 0 x) as [Hp|Hp].
  - destruct (Rle_dec 0 1) as [_|Hn]; [apply (ZfloorZ 1) | lra].
  - destruct (Rlt_dec x 0) as [Hm|Hm].
    + destruct (Rle_dec 0 (-1)) as [Hn|_]; [lra |].
      apply Zceil_eq. simpl. lra.
    + destruct (Rle_dec 0 0) as [_|Hn]; [apply (ZfloorZ 0) | lra].
Qed.

Lemma Rlt_bool_true (x y : R) : Rlt_bool x y = true <-> x < y.
Proof. unfold Rlt_bool. destruct (Rlt_dec x y); split; intros; try easy. Qed.

Lemma Rlt_bool_false (x y : R) : Rlt_bool x y = false <-> ~ x < y.
Proof. unfold Rlt_bool. destruct (Rlt_dec x y); split; intros; try easy. Qed.

Lemma Rle_bool_true (x y : R) : Rle_bool x y = true <-> x <= y.
Proof. unfold Rle_bool. destruct (Rle_dec x y); split; intros; try easy. Qed.

Lemma inv_sqrt2 : 1 / sqrt 2 = sqrt 2 / 2.
Proof.
  assert (H2 : sqrt 2 * sqrt 2 = 2) by (apply sqrt_sqrt; lra).
  assert (Hpos : 0 < sqrt 2) by (apply sqrt_lt_R0; lra).
  field_simplify_eq; lra.
Qed.

End NumericFacts.

(** ** The tracker *)

Section TrackerProperties.
Import Np Tracker TrackerSpec TrackerStepSpec.
Local Open Scope R_scope.
Context {zeros : SignedZeros}.

Variable frequency_domain_correlation :
  list complex -> list complex -> result (list complex).

Lemma _test5_params (self : GpsSatelliteTracker) (profile : list complex)
    (sample : complex) :
  let p := tracking_params self in
  let error := real sample * imag sample in
  tracking_params (_test5 self profile sample) =
    {| satellite := satellite p;
       current_doppler_shift := current_doppler_shift p + error * snd (gains_of self);
       current_carrier_wave_phase_shift :=
         fmod (current_carrier_wave_phase_shift p + error * fst (gains_of self)) tau;
       current_prn_code_phase_shift := current_prn_code_phase_shift p;
       doppler_shifts := doppler_shifts p;
       carrier_wave_phases := carrier_wave_phases p;
       carrier_wave_phase_errors := carrier_wave_phase_errors p ++ [error];
       navigation_bit_pseudosymbols := navigation_bit_pseudosymbols p |}.
Proof.
  unfold _test5, gains_of.
  destruct (_is_locked self);
    destruct (_calculate_loop_filter_alpha_and_beta _) as [alpha beta]; reflexivity.
Qed.

Lemma centered_offset_source (k : nat) :
  (if Rle_dec (INR k) (IZR SAMPLES_PER_PRN_TRANSMISSION / 2)
   then Z.of_nat k
   else (Z.of_nat k - SAMPLES_PER_PRN_TRANSMISSION)%Z) = centered_offset k.
Proof.
  unfold centered_offset, SAMPLES_PER_PRN_TRANSMISSION.
  rewrite INR_IZR_INZ.
  replace (2046 / 2) with (IZR 1023) by lra.
  destruct (Rle_dec _ _) as [Hle|Hgt].
  - apply le_IZR in Hle.
    destruct (Z.ltb_spec 1023 (Z.of_nat k)); [lia | reflexivity].
  - destruct (Z.ltb_spec 1023 (Z.of_nat k)); [reflexivity |].
    exfalso. apply Hgt. apply IZR_le. lia.
Qed.

(** the move of the code phase by the sign of the recentred offset *)
Lemma code_phase_update_source (p : GpsSatelliteTrackingParameters) (c : Z) :
  set_current_prn_code_phase_shift
    (current_prn_code_phase_shift
       (if (0 <? c)%Z
        then set_current_prn_code_phase_shift (current_prn_code_phase_shift p + 1)%Z p
        else if (c <? 0)%Z
             then set_current_prn_code_phase_shift (current_prn_code_phase_shift p - 1)%Z p
             else p)
     mod SAMPLES_PER_PRN_TRANSMISSION)%Z
    (if (0 <? c)%Z
     then set_current_prn_code_phase_shift (current_prn_code_phase_shift p + 1)%Z p
     else if (c <? 0)%Z
          then set_current_prn_code_phase_shift (current_prn_code_phase_shift p - 1)%Z p
          else p)
  = set_current_prn_code_phase_shift
      ((current_prn_code_phase_shift p + Z.sgn c) mod 2046)%Z p.
Proof.
  unfold SAMPLES_PER_PRN_TRANSMISSION.
  destruct (Z.ltb_spec 0 c) as [Hpos|Hnpos].
  - rewrite (Z.sgn_pos _ Hpos). reflexivity.
  - destruct (Z.ltb_spec c 0) as [Hneg|Hnneg].
    + rewrite (Z.sgn_neg _ Hneg). reflexivity.
    + replace c with 0%Z by lia. simpl Z.sgn.
      rewrite Z.add_0_r. destruct p. reflexivity.
Qed.

(** [process_samples], exit by exit: the product with the carrier raises;
    the correlation raises; the profile is empty; one of the two later
    products raises, after the code phase was moved; or the step runs to
    its end. *)
Lemma process_samples_cases (self : GpsSatelliteTracker) (seconds_since_start : R)
    (samples : list complex) :
  process_samples frequency_domain_correlation self seconds_since_start samples
  = match coherent_prompt_correlation frequency_domain_correlation
            self seconds_since_start samples with
    | Raise e => (Raise e, self)
    | Ok profile =>
        match argmax (map abs profile) with
        | None => (Raise ValueError, self)
        | Some k =>
            let peak := nth k profile C0 in
            match prn_wipe_off self seconds_since_start samples with
            | Raise e => (Raise e, code_phase_updated self k peak)
            | Ok _ =>
                (from_val (int (sign (real peak))),
                 after_loop seconds_since_start
                   (_test5 (before_loop self k peak) profile peak))
            end
        end
    end.
Proof.
  unfold process_samples, coherent_prompt_correlation, prn_wipe_off.
  destruct (doppler_shifted_samples self seconds_since_start samples) as [d|e];
    [| reflexivity].
  destruct (frequency_domain_correlation d (prompt_prn self)) as [profile|e];
    [| reflexivity].
  destruct (argmax (map abs profile)) as [k|]; [| reflexivity].
  cbv zeta. rewrite centered_offset_source, code_phase_update_source.
  set (peak := nth k profile C0).
  match goal with
  | |- context [match multiply samples _ with
                | Ok _ => _
                | Raise e => (Raise e, ?m)
                end] => change m with (code_phase_updated self k peak)
  end.
  destruct (multiply samples (prompt_prn self)) as [wiped|e]; [| reflexivity].
  destruct (multiply d (prompt_prn self)) as [x|e]; [| reflexivity].
  match goal with
  | |- context [_test5 ?m profile peak] => change m with (before_loop self k peak)
  end.
  generalize (_test5 (before_loop self k peak) profile peak). intros after.
  reflexivity.
Qed.

(** A step that runs to its end. *)
Lemma process_samples_parts (self : GpsSatelliteTracker) (seconds_since_start : R)
    (samples profile : list complex) (k : nat) :
  coherent_prompt_correlation frequency_domain_correlation
    self seconds_since_start samples = Ok profile ->
  argmax (map abs profile) = Some k ->
  prn_wipe_off self seconds_since_start samples = Ok tt ->
  let peak := nth k profile C0 in
  process_samples frequency_domain_correlation self seconds_since_start samples
  = (from_val (int (sign (real peak))),
     after_loop seconds_since_start (_test5 (before_loop self k peak) profile peak)).
Proof.
  intros Hprofile Hk Hwipe peak.
  rewrite process_samples_cases, Hprofile, Hk. cbv zeta. rewrite Hwipe. reflexivity.
Qed.

(** The code phase after a step that computed a profile with a peak,
    however the step ended. *)
Lemma process_samples_code_phase (self : GpsSatelliteTracker) (seconds_since_start : R)
    (samples profile : list complex) (k : nat) :
  coherent_prompt_correlation frequency_domain_correlation
    self seconds_since_start samples = Ok profile ->
  argmax (map abs profile) = Some k ->
  current_prn_code_phase_shift
    (tracking_params
       (snd (process_samples frequency_domain_correlation
               self seconds_since_start samples)))
  = ((current_prn_code_phase_shift (tracking_params self)
      + Z.sgn (centered_offset k)) mod 2046)%Z.
Proof.
  intros Hprofile Hk.
  rewrite process_samples_cases, Hprofile, Hk. cbv zeta.
  destruct (prn_wipe_off self seconds_since_start samples) as [[]|e]; cbn [snd].
  - set (peak := nth k profile C0).
    pose proof (_test5_params (before_loop self k peak) profile peak) as Hparams.
    cbv zeta in Hparams.
    generalize dependent (_test5 (before_loop self k peak) profile peak).
    intros after Hparams. unfold after_loop.
    destruct (Rle_bool 4.99 (fmod seconds_since_start 5));
      destruct (Req_bool (fmod seconds_since_start 1) 0);
      cbn [tracking_params current_prn_code_phase_shift set_tracking_params
           set_carrier_wave_phase_errors set_carrier_wave_phases set_doppler_shifts
           set_carrier_phases set_iq_angles set_qs set_is];
      rewrite Hparams; reflexivity.
  - reflexivity.
Qed.

(** The carrier phase and the Doppler shift after a step that ran to its
    end. *)
Lemma process_samples_carrier (self : GpsSatelliteTracker) (seconds_since_start : R)
    (samples profile : list complex) (k : nat) :
  coherent_prompt_correlation frequency_domain_correlation
    self seconds_since_start samples = Ok profile ->
  argmax (map abs profile) = Some k ->
  prn_wipe_off self seconds_since_start samples = Ok tt ->
  let peak := nth k profile C0 in
  let after := _test5 (before_loop self k peak) profile peak in
  let r := process_samples frequency_domain_correlation self seconds_since_start samples in
  fst r = from_val (int (sign (real peak)))
  /\ current_carrier_wave_phase_shift (tracking_params (snd r))
     = current_carrier_wave_phase_shift (tracking_params after)
  /\ current_doppler_shift (tracking_params (snd r))
     = current_doppler_shift (tracking_params after).
Proof.
  intros Hprofile Hk Hwipe peak after r. subst r.
  rewrite (process_samples_parts self seconds_since_start samples profile k
             Hprofile Hk Hwipe).
  cbv zeta. fold peak. fold after. cbn [fst snd].
  split; [reflexivity |].
  generalize after. intros a. unfold after_loop.
  destruct (Rle_bool 4.99 (fmod seconds_since_start 5));
    destruct (Req_bool (fmod seconds_since_start 1) 0); split; reflexivity.
Qed.

End TrackerProperties.

(** ** The correlation of silence *)

Section Silence.
Import Np Tracker.
Local Open Scope R_scope.

Lemma Cmul_C0_l (y : complex) : Cmul C0 y = C0.
Proof. unfold Cmul, C0. simpl. f_equal; ring. Qed.

Lemma Cscale_C0 (c : R) : Cscale c C0 = C0.
Proof. unfold Cscale, C0. simpl. f_equal; ring. Qed.

Lemma Csum_all_C0 {A} (f : A -> complex) (l : list A) :
  (forall a, In a l -> f a = C0) -> Csum (map f l) = C0.
Proof.
  induction l as [|a l IH]; intros Hf; [reflexivity |].
  simpl. rewrite (Hf a) by (left; reflexivity).
  rewrite IH by (intros b Hb; apply Hf; right; exact Hb).
  unfold Cadd, C0. simpl. f_equal; ring.
Qed.

Lemma map_const_seq {A} (c : A) (f : nat -> A) (start n : nat) :
  (forall k, f k = c) -> map f (seq start n) = repeat c n.
Proof.
  intros Hf. revert start. induction n as [|n IH]; intros start; [reflexivity |].
  simpl. rewrite Hf, IH. reflexivity.
Qed.

Lemma elementwise_silence_l (n : nat) (l : list complex) :
  elementwise (repeat C0 n) l = repeat C0 (Nat.min n (length l)).
Proof.
  revert l. induction n as [|n IH]; intros [|y l]; try reflexivity.
  simpl. rewrite Cmul_C0_l, IH. reflexivity.
Qed.

(** arrays of the same length are multiplied entry by entry *)
Lemma multiply_same_length (a b : list complex) :
  length a = length b -> multiply a b = Ok (elementwise a b).
Proof.
  intros Hlen. unfold multiply.
  rewrite (proj2 (Nat.eqb_eq _ _) Hlen). reflexivity.
Qed.

Lemma fft_silence (n : nat) : fft (repeat C0 n) = repeat C0 n.
Proof.
  unfold fft. rewrite repeat_length.
  apply map_const_seq. intros k.
  apply Csum_all_C0. intros m _.
  rewrite nth_repeat. apply Cmul_C0_l.
Qed.

Lemma ifft_silence (n : nat) : ifft (repeat C0 n) = repeat C0 n.
Proof.
  unfold ifft. rewrite repeat_length.
  apply map_const_seq. intros m.
  rewrite Csum_all_C0; [apply Cscale_C0 |].
  intros k _. rewrite nth_repeat. apply Cmul_C0_l.
Qed.

Lemma length_fft (x : list complex) : length (fft x) = length x.
Proof. unfold fft. rewrite length_map, length_seq. reflexivity. Qed.

Lemma frequency_domain_correlation_silence (n : nat) (prn : list complex) :
  length prn = n ->
  frequency_domain_correlation (repeat C0 n) prn = Ok (repeat C0 n).
Proof.
  intros Hlen. unfold frequency_domain_correlation.
  rewrite fft_silence, multiply_same_length
    by (rewrite repeat_length, length_map, length_fft; symmetry; exact Hlen).
  rewrite elementwise_silence_l, length_map, length_fft, Hlen, Nat.min_id, ifft_silence.
  reflexivity.
Qed.

Lemma length_roll {A} (a : list A) (shift : Z) : length (roll a shift) = length a.
Proof.
  unfold roll. destruct a as [|x a]; [reflexivity |].
  rewrite length_app, length_skipn, length_firstn. lia.
Qed.

Lemma abs_C0 : abs C0 = 0.
Proof.
  unfold abs, C0. simpl.
  replace (0 * 0 + 0 * 0) with 0 by ring. apply sqrt_0.
Qed.

Lemma map_repeat {A B} (f : A -> B) (c : A) (n : nat) :
  map f (repeat c n) = repeat (f c) n.
Proof. induction n as [|n IH]; [reflexivity | simpl; rewrite IH; reflexivity]. Qed.

(** [np.argmax] returns the first index when no later entry is larger. *)
Lemma argmax_from_first (best_i i : nat) (best : R) (l : list R) :
  (forall x, In x l -> x <= best) -> argmax_from best_i best i l = best_i.
Proof.
  revert i. induction l as [|x l IH]; intros i Hle; [reflexivity |].
  simpl. destruct (Rlt_dec best x) as [Hlt|_].
  - exfalso. specialize (Hle x (or_introl eq_refl)). lra.
  - apply IH. intros y Hy. apply Hle. right. exact Hy.
Qed.

Lemma length_doppler_shift_carrier (self : GpsSatelliteTracker) (t : R) :
  length (doppler_shift_carrier self t) = length (time_domain_for_1ms self).
Proof. unfold doppler_shift_carrier. rewrite !length_map. reflexivity. Qed.

Lemma length_time_domain (params : GpsSatelliteTrackingParameters) (bandwidth : R) :
  length (time_domain_for_1ms (__init__ params bandwidth)) = 2046%nat.
Proof.
  unfold __init__, arange. cbn [time_domain_for_1ms].
  rewrite !length_map, length_seq. reflexivity.
Qed.

Lemma length_prompt_prn (self : GpsSatelliteTracker) :
  length (prompt_prn self) = length (prn_as_complex (satellite (tracking_params self))).
Proof. unfold prompt_prn. apply length_roll. Qed.

Lemma doppler_shifted_samples_silence (t : R) :
  doppler_shifted_samples Examples.fresh_tracker t Examples.silence
  = Ok (repeat C0 2046).
Proof.
  unfold doppler_shifted_samples, Examples.silence.
  rewrite multiply_same_length
    by (rewrite repeat_length, length_doppler_shift_carrier;
        symmetry; apply length_time_domain).
  rewrite elementwise_silence_l, length_doppler_shift_carrier.
  unfold Examples.fresh_tracker. rewrite length_time_domain. reflexivity.
Qed.

Lemma length_prompt_prn_fresh : length (prompt_prn Examples.fresh_tracker) = 2046%nat.
Proof. rewrite length_prompt_prn. apply repeat_length. Qed.

(** a millisecond of silence at any time *)
Lemma coherent_prompt_correlation_silence (t : R) :
  coherent_prompt_correlation frequency_domain_correlation
    Examples.fresh_tracker t Examples.silence = Ok (repeat C0 2046).
Proof.
  unfold coherent_prompt_correlation. rewrite doppler_shifted_samples_silence.
  apply frequency_domain_correlation_silence, length_prompt_prn_fresh.
Qed.

Lemma prn_wipe_off_silence (t : R) :
  TrackerSpec.prn_wipe_off Examples.fresh_tracker t Examples.silence = Ok tt.
Proof.
  unfold TrackerSpec.prn_wipe_off. rewrite doppler_shifted_samples_silence.
  unfold Examples.silence.
  rewrite multiply_same_length
    by (rewrite repeat_length, length_prompt_prn_fresh; reflexivity).
  reflexivity.
Qed.

Lemma argmax_silence : argmax (map abs (repeat C0 2046)) = Some 0%nat.
Proof.
  rewrite map_repeat, abs_C0.
  change (repeat 0 2046) with (0 :: repeat 0 2045).
  unfold argmax. f_equal. apply argmax_from_first.
  intros x Hx. apply repeat_spec in Hx. lra.
Qed.

Lemma peak_silence : nth 0 (repeat C0 2046) C0 = C0.
Proof. reflexivity. Qed.

End Silence.

(** ** The correlation of a click *)

Section Click.
Import Np Tracker TrackerSpec.
Local Open Scope R_scope.

Lemma exp_j_0 (theta : R) : theta = 0 -> exp_j theta = Cx 1 0.
Proof. intros ->. unfold exp_j. rewrite cos_0, sin_0. reflexivity. Qed.

Lemma Cmul_1_1 : Cmul (Cx 1 0) (Cx 1 0) = Cx 1 0.
Proof. unfold Cmul. simpl. f_equal; ring. Qed.

Lemma Cmul_1_conj_1 : Cmul (Cx 1 0) (Cconj (Cx 1 0)) = Cx 1 0.
Proof. unfold Cmul, Cconj. simpl. f_equal; ring. Qed.

Lemma Cadd_C0_r (a : complex) : Cadd a C0 = a.
Proof. destruct a as [x y]. unfold Cadd, C0. simpl. f_equal; ring. Qed.

Lemma abs_nonneg (a : complex) : 0 <= abs a.
Proof. apply sqrt_pos. Qed.

Lemma abs_sqr (a : complex) : abs a * abs a = real a * real a + imag a * imag a.
Proof. unfold abs. apply sqrt_sqrt. nra. Qed.

(** the triangle inequality *)
Lemma abs_Cadd (a b : complex) : abs (Cadd a b) <= abs a + abs b.
Proof.
  pose proof (abs_nonneg a) as Ha. pose proof (abs_nonneg b) as Hb.
  pose proof (abs_nonneg (Cadd a b)) as Hab.
  pose proof (abs_sqr a) as Sa. pose proof (abs_sqr b) as Sb.
  pose proof (abs_sqr (Cadd a b)) as Sab.
  pose proof (sqrt_cauchy (real a) (imag a) (real b) (imag b)) as Hcs.
  unfold Rsqr in Hcs. fold (abs a) in Hcs. fold (abs b) in Hcs.
  unfold Cadd in Sab. simpl in Sab.
  destruct (Rle_dec (abs (Cadd a b)) (abs a + abs b)) as [Hle|Hgt]; [exact Hle |].
  exfalso. apply Hgt. clear Hgt.
  apply Rsqr_incr_0_var; [| lra].
  unfold Rsqr. unfold Cadd. simpl. nra.
Qed.

Lemma abs_Csum (l : list complex) (bound : R) :
  (forall a, In a l -> abs a <= bound) -> abs (Csum l) <= INR (length l) * bound.
Proof.
  induction l as [|a l IH]; intros Hl.
  - simpl. rewrite abs_C0. lra.
  - change (Csum (a :: l)) with (Cadd a (Csum l)).
    change (length (a :: l)) with (S (length l)). rewrite S_INR.
    pose proof (abs_Cadd a (Csum l)) as Htri.
    pose proof (Hl a (or_introl eq_refl)) as Ha.
    assert (Hrest : abs (Csum l) <= INR (length l) * bound)
      by (apply IH; intros b Hb; apply Hl; right; exact Hb).
    lra.
Qed.

Lemma abs_Cscale (c : R) (a : complex) : 0 <= c -> abs (Cscale c a) = c * abs a.
Proof.
  intros Hc. unfold abs at 1, Cscale. simpl.
  replace (c * real a * (c * real a) + c * imag a * (c * imag a))
    with ((c * abs a) * (c * abs a)) by (pose proof (abs_sqr a); nra).
  apply sqrt_square. pose proof (abs_nonneg a). nra.
Qed.

Lemma abs_exp_j (theta : R) : abs (exp_j theta) = 1.
Proof.
  unfold abs, exp_j. simpl.
  replace (cos theta * cos theta + sin theta * sin theta) with 1.
  - apply sqrt_1.
  - pose proof (sin2_cos2 theta) as H. unfold Rsqr in H. lra.
Qed.

Lemma Cmul_1_l (a : complex) : Cmul (Cx 1 0) a = a.
Proof. destruct a as [x y]. unfold Cmul. simpl. f_equal; ring. Qed.

Lemma nth_repeat_lt {A} (a d : A) (n k : nat) : (k < n)%nat -> nth k (repeat a n) d = a.
Proof.
  revert k. induction n as [|n IH]; intros k Hk; [lia |].
  destruct k as [|k]; [reflexivity |]. simpl. apply IH. lia.
Qed.

Lemma elementwise_repeat (a b : complex) (n : nat) :
  elementwise (repeat a n) (repeat b n) = repeat (Cmul a b) n.
Proof. induction n as [|n IH]; [reflexivity | simpl; rewrite IH; reflexivity]. Qed.

Lemma Csum_repeat_1 (n : nat) : Csum (repeat (Cx 1 0) n) = Cx (INR n) 0.
Proof.
  induction n as [|n IH]; [reflexivity |].
  change (Csum (repeat (Cx 1 0) (S n))) with (Cadd (Cx 1 0) (Csum (repeat (Cx 1 0) n))).
  rewrite IH, S_INR. unfold Cadd. simpl. f_equal; ring.
Qed.

Lemma map_ext_seq {A} (f g : nat -> A) (start n : nat) :
  (forall k, (start <= k < start + n)%nat -> f k = g k) ->
  map f (seq start n) = map g (seq start n).
Proof.
  intros Hfg. apply map_ext_in. intros k Hk. apply in_seq in Hk. apply Hfg. exact Hk.
Qed.

(** the transform of a click is constant *)
Lemma fft_click (n : nat) :
  fft (Cx 1 0 :: repeat C0 n) = repeat (Cx 1 0) (S n).
Proof.
  unfold fft. cbn [length]. rewrite repeat_length.
  apply map_const_seq. intros k.
  change (seq 0 (S n)) with (0%nat :: seq 1 n).
  cbn [map Csum fold_right nth].
  rewrite (Csum_all_C0 _ (seq 1 n)).
  - rewrite Cadd_C0_r, Cmul_1_l. apply exp_j_0.
    cbn [INR]. unfold Rdiv. ring.
  - intros m Hm. apply in_seq in Hm.
    destruct m as [|m]; [lia |]. cbn [nth].
    rewrite nth_repeat. apply Cmul_C0_l.
Qed.

(** the inverse transform of a constant: 1 at offset 0, at most 1 in
    absolute value elsewhere *)
Lemma ifft_ones (n : nat) :
  ifft (repeat (Cx 1 0) n) = map (ifft_ones_at n) (seq 0 n).
Proof. unfold ifft. rewrite repeat_length. reflexivity. Qed.

Lemma ifft_ones_at_0 (n : nat) : ifft_ones_at (S n) 0 = Cx 1 0.
Proof.
  unfold ifft_ones_at.
  rewrite (map_ext_seq _ (fun _ => Cx 1 0)).
  - rewrite (map_const_seq (Cx 1 0)) by reflexivity.
    rewrite Csum_repeat_1. unfold Cscale. cbn [real imag].
    f_equal; field; apply not_0_INR; discriminate.
  - intros k Hk. rewrite nth_repeat_lt by lia. rewrite Cmul_1_l.
    apply exp_j_0. cbn [INR]. unfold Rdiv. ring.
Qed.

Lemma abs_ifft_ones_at (n m : nat) : abs (ifft_ones_at (S n) m) <= 1.
Proof.
  unfold ifft_ones_at.
  assert (Hn : 0 < INR (S n)) by (apply lt_0_INR; lia).
  rewrite abs_Cscale by (left; apply Rinv_0_lt_compat; exact Hn).
  pose proof (abs_Csum
    (map (fun k => Cmul (nth k (repeat (Cx 1 0) (S n)) C0)
                        (exp_j (2 * PI * INR k * INR m / INR (S n))))
         (seq 0 (S n))) 1) as Hsum.
  rewrite length_map, length_seq in Hsum.
  assert (Hterms : forall a,
    In a (map (fun k => Cmul (nth k (repeat (Cx 1 0) (S n)) C0)
                           (exp_j (2 * PI * INR k * INR m / INR (S n))))
            (seq 0 (S n))) -> abs a <= 1).
  { intros a Ha. apply in_map_iff in Ha as (k & <- & Hk). apply in_seq in Hk.
    rewrite nth_repeat_lt by lia. rewrite Cmul_1_l, abs_exp_j. lra. }
  specialize (Hsum Hterms).
  apply (Rmult_le_compat_l (/ INR (S n))) in Hsum;
    [| left; apply Rinv_0_lt_compat; exact Hn].
  replace (/ INR (S n) * (INR (S n) * 1)) with 1 in Hsum by (field; lra).
  exact Hsum.
Qed.

Lemma roll_0 {A} (a : list A) : roll a 0 = a.
Proof.
  destruct a as [|x a]; [reflexivity |].
  unfold roll. rewrite Z.mod_0_l by (cbn [length]; lia).
  change (Z.to_nat 0) with 0%nat. rewrite Nat.sub_0_r.
  rewrite skipn_all, firstn_all. reflexivity.
Qed.

Lemma carrier_at_rest (l : list R) :
  map (fun t => exp_j (- (2 * PI * 0 * t + 0))) l = repeat (Cx 1 0) (length l).
Proof.
  induction l as [|t l IH]; [reflexivity |].
  cbn [map length repeat]. rewrite IH. f_equal. apply exp_j_0. ring.
Qed.

Lemma frequency_domain_correlation_click :
  frequency_domain_correlation Examples.click Examples.click
  = Ok (map (ifft_ones_at 2046) (seq 0 2046)).
Proof.
  unfold frequency_domain_correlation, Examples.click.
  rewrite fft_click, map_repeat.
  rewrite multiply_same_length by (rewrite !repeat_length; reflexivity).
  rewrite elementwise_repeat, Cmul_1_conj_1, ifft_ones. reflexivity.
Qed.

Lemma doppler_shift_carrier_click :
  doppler_shift_carrier Examples.click_tracker 0 = repeat (Cx 1 0) 2046.
Proof.
  unfold doppler_shift_carrier.
  cbn [Examples.click_tracker __init__ tracking_params current_doppler_shift
       current_carrier_wave_phase_shift].
  rewrite carrier_at_rest, length_map.
  unfold Examples.click_tracker. rewrite length_time_domain. reflexivity.
Qed.

Lemma doppler_shifted_samples_click :
  doppler_shifted_samples Examples.click_tracker 0 Examples.click = Ok Examples.click.
Proof.
  unfold doppler_shifted_samples. rewrite doppler_shift_carrier_click.
  rewrite multiply_same_length
    by (unfold Examples.click; cbn [length]; rewrite !repeat_length; reflexivity).
  f_equal. unfold Examples.click.
  change (repeat (Cx 1 0) 2046) with (Cx 1 0 :: repeat (Cx 1 0) 2045).
  cbn [elementwise]. rewrite Cmul_1_1, elementwise_silence_l, repeat_length.
  reflexivity.
Qed.

Lemma prompt_prn_click : prompt_prn Examples.click_tracker = Examples.click.
Proof.
  unfold prompt_prn.
  cbn [Examples.click_tracker __init__ tracking_params current_prn_code_phase_shift
       satellite prn_as_complex Examples.satellite_1].
  apply roll_0.
Qed.

Lemma coherent_prompt_correlation_click :
  coherent_prompt_correlation frequency_domain_correlation
    Examples.click_tracker 0 Examples.click
  = Ok (map (ifft_ones_at 2046) (seq 0 2046)).
Proof.
  unfold coherent_prompt_correlation.
  rewrite doppler_shifted_samples_click, prompt_prn_click.
  apply frequency_domain_correlation_click.
Qed.

Lemma prn_wipe_off_click :
  prn_wipe_off Examples.click_tracker 0 Examples.click = Ok tt.
Proof.
  unfold prn_wipe_off.
  rewrite doppler_shifted_samples_click, prompt_prn_click.
  rewrite multiply_same_length by reflexivity. reflexivity.
Qed.

Lemma argmax_click :
  argmax (map abs (map (ifft_ones_at 2046) (seq 0 2046))) = Some 0%nat.
Proof.
  change (seq 0 2046) with (0%nat :: seq 1 2045).
  cbn [map argmax]. f_equal. apply argmax_from_first.
  intros x Hx. apply in_map_iff in Hx as (c & <- & Hc).
  apply in_map_iff in Hc as (m & <- & _).
  rewrite (ifft_ones_at_0 2045).
  replace (abs (Cx 1 0)) with 1.
  - apply (abs_ifft_ones_at 2045).
  - unfold abs. cbn [real imag].
    replace (1 * 1 + 0 * 0) with 1 by ring. symmetry. apply sqrt_1.
Qed.

Lemma peak_click : nth 0 (map (ifft_ones_at 2046) (seq 0 2046)) C0 = Cx 1 0.
Proof.
  change (seq 0 2046) with (0%nat :: seq 1 2045).
  cbn [map nth]. apply (ifft_ones_at_0 2045).
Qed.

(** a click is heard as the pseudosymbol +1 *)
Lemma process_samples_click `{SignedZeros} :
  fst (process_samples frequency_domain_correlation
         Examples.click_tracker 0 Examples.click) = Ok ONE.
Proof.
  rewrite (process_samples_parts frequency_domain_correlation
             Examples.click_tracker 0 Examples.click _ 0
             coherent_prompt_correlation_click argmax_click prn_wipe_off_click).
  cbn [fst]. rewrite peak_click, int_sign. cbn [real].
  destruct (Rlt_dec 0 1) as [_|Hn]; [reflexivity | lra].
Qed.

End Click.

(** ** Claims about the tracker *)

Section TrackerClaims.
Import Np Tracker TrackerSpec TrackerStepSpec.
Local Open Scope R_scope.
Context {zeros : SignedZeros}.

(** C5, as amended.  On a tracking step that computes its correlation
    profile, not empty, and the two products with the prompt replica that
    follow, let P be the prompt correlation peak.  When the real part of P
    is not zero, [process_samples] returns the pseudosymbol whose value is
    the sign of that real part, and the value is -1 or +1.  When the real
    part is zero the sign is 0, [NavigationBitPseudosymbol.from_val] has no
    entry for it, and the call raises [KeyError]: zero is not treated as
    +1. *)
Theorem C5_pseudosymbol_is_sign_of_prompt_peak
    (frequency_domain_correlation : list complex -> list complex -> result (list complex))
    (self : GpsSatelliteTracker) (seconds_since_start : R)
    (samples profile : list complex) (k : nat) :
  coherent_prompt_correlation frequency_domain_correlation
    self seconds_since_start samples = Ok profile ->
  argmax (map abs profile) = Some k ->
  prn_wipe_off self seconds_since_start samples = Ok tt ->
  let peak := nth k profile C0 in
  let r := fst (process_samples frequency_domain_correlation
                  self seconds_since_start samples) in
  (real peak <> 0 ->
   exists s, r = Ok s /\ IZR (as_val s) = sign (real peak)
             /\ (as_val s = (-1)%Z \/ as_val s = 1%Z))
  /\ (real peak = 0 -> r = Raise KeyError).
Proof.
  intros Hprofile Hk Hwipe peak r.
  destruct (process_samples_carrier frequency_domain_correlation
              self seconds_since_start samples profile k Hprofile Hk Hwipe)
    as [Hr _].
  fold peak in Hr. subst r. rewrite Hr, int_sign. unfold sign.
  split.
  - intros Hnz.
    destruct (Rlt_dec 0 (real peak)) as [Hp|Hp].
    + exists ONE. simpl. auto.
    + destruct (Rlt_dec (real peak) 0) as [Hm|Hm]; [| lra].
      exists MINUS_ONE. simpl. auto.
  - intros Hz. rewrite Hz.
    destruct (Rlt_dec 0 0) as [H0|_]; [lra | reflexivity].
Qed.

(** C6.  When [process_samples] returns, the PRN code phase of the tracker
    lies in [0, 2046) and its carrier wave phase lies in [0, 2 pi). *)
Theorem C6_phases_in_range_on_return
    (frequency_domain_correlation : list complex -> list complex -> result (list complex))
    (self self' : GpsSatelliteTracker) (seconds_since_start : R)
    (samples : list complex) (s : NavigationBitPseudosymbol) :
  process_samples frequency_domain_correlation self seconds_since_start samples
    = (Ok s, self') ->
  (0 <= current_prn_code_phase_shift (tracking_params self') < 2046)%Z
  /\ 0 <= current_carrier_wave_phase_shift (tracking_params self') < 2 * PI.
Proof.
  intros Hcall.
  pose proof (process_samples_cases frequency_domain_correlation
                self seconds_since_start samples) as Hcases.
  rewrite Hcall in Hcases.
  destruct (coherent_prompt_correlation frequency_domain_correlation
              self seconds_since_start samples) as [profile|e] eqn:Hprofile;
    [| discriminate].
  destruct (argmax (map abs profile)) as [k|] eqn:Hk; [| discriminate].
  cbv zeta in Hcases.
  destruct (prn_wipe_off self seconds_since_start samples) as [[]|e] eqn:Hwipe;
    [| discriminate].
  clear Hcases.
  pose proof (process_samples_code_phase frequency_domain_correlation
                self seconds_since_start samples profile k Hprofile Hk) as Hcode.
  destruct (process_samples_carrier frequency_domain_correlation
              self seconds_since_start samples profile k Hprofile Hk Hwipe)
    as (_ & Hphase & _).
  rewrite Hcall in Hcode, Hphase. cbn [snd] in Hcode, Hphase.
  split.
  - rewrite Hcode. apply Z.mod_pos_bound. lia.
  - rewrite Hphase, _test5_params. cbn [current_carrier_wave_phase_shift].
    apply (fmod_bounds _ tau tau_pos).
Qed.

(** C7.  With fewer than 250 recorded carrier phase errors, [_is_locked]
    reports the satellite as not locked. *)
Theorem C7_no_lock_before_250_ms (self : GpsSatelliteTracker) :
  (length (carrier_wave_phase_errors (tracking_params self)) < 250)%nat ->
  _is_locked self = false.
Proof.
  intros Hlen. unfold _is_locked.
  destruct (Nat.ltb_spec (length (carrier_wave_phase_errors (tracking_params self))) 250);
    [reflexivity | lia].
Qed.

(** C8.  On a tracking step with peak offset k = argmax|C|, the offset is
    recentred (k > 1023 gives k - 2046); the code phase moves by +1 when the
    recentred offset is positive, by -1 when it is negative and by 0 when it
    is zero; and the result is reduced modulo 2046.  This holds however the
    step ends after the peak is found. *)
Theorem C8_code_phase_update
    (frequency_domain_correlation : list complex -> list complex -> result (list complex))
    (self : GpsSatelliteTracker) (seconds_since_start : R)
    (samples profile : list complex) (k : nat) :
  coherent_prompt_correlation frequency_domain_correlation
    self seconds_since_start samples = Ok profile ->
  argmax (map abs profile) = Some k ->
  let centered := if (1023 <? Z.of_nat k)%Z then (Z.of_nat k - 2046)%Z else Z.of_nat k in
  let move :=
    if (0 <? centered)%Z then 1%Z else if (centered <? 0)%Z then (-1)%Z else 0%Z in
  current_prn_code_phase_shift
    (tracking_params
       (snd (process_samples frequency_domain_correlation
               self seconds_since_start samples)))
  = ((current_prn_code_phase_shift (tracking_params self) + move) mod 2046)%Z.
Proof.
  intros Hprofile Hk centered move.
  rewrite (process_samples_code_phase frequency_domain_correlation
             self seconds_since_start samples profile k Hprofile Hk).
  f_equal. f_equal.
  subst move centered. fold (centered_offset k).
  destruct (Z.ltb_spec 0 (centered_offset k)); [apply Z.sgn_pos; assumption |].
  destruct (Z.ltb_spec (centered_offset k) 0); [apply Z.sgn_neg; assumption |].
  replace (centered_offset k) with 0%Z by lia. reflexivity.
Qed.

(** C9.  The gains [_test5] applies are alpha = 4 zeta B T and
    beta = 4 B^2 T, with zeta = sqrt 2 / 2, T = 1 / f_s, and B = 3 Hz when
    the tracker is locked and 6 Hz when it is not; the carrier phase becomes
    (phi + alpha e) mod 2 pi and the Doppler shift becomes f_d + beta e,
    where e = I * Q is the Costas discriminator of the prompt sample. *)
Theorem C9_loop_filter_gains (self : GpsSatelliteTracker)
    (samples_with_carrier_and_prn_wipeoff : list complex) (sample : complex) :
  let B := if _is_locked self then 3 else 6 in
  let T := 1 / IZR SAMPLES_PER_SECOND in
  let zeta := sqrt 2 / 2 in
  let alpha := 4 * zeta * B * T in
  let beta := 4 * B ^ 2 * T in
  let e := real sample * imag sample in
  _calculate_loop_filter_alpha_and_beta B = (alpha, beta)
  /\ current_carrier_wave_phase_shift
       (tracking_params (_test5 self samples_with_carrier_and_prn_wipeoff sample))
     = fmod (current_carrier_wave_phase_shift (tracking_params self) + alpha * e) (2 * PI)
  /\ current_doppler_shift
       (tracking_params (_test5 self samples_with_carrier_and_prn_wipeoff sample))
     = current_doppler_shift (tracking_params self) + beta * e.
Proof.
  intros B T zeta alpha beta e.
  assert (Hgains : forall b,
    _calculate_loop_filter_alpha_and_beta b
    = (4 * (sqrt 2 / 2) * b * (1 / IZR SAMPLES_PER_SECOND),
       4 * b ^ 2 * (1 / IZR SAMPLES_PER_SECOND))).
  { intros b. unfold _calculate_loop_filter_alpha_and_beta.
    rewrite inv_sqrt2. reflexivity. }
  split; [apply Hgains |].
  rewrite _test5_params. cbn [current_carrier_wave_phase_shift current_doppler_shift].
  unfold gains_of. subst alpha beta zeta T B e.
  destruct (_is_locked self); rewrite Hgains; cbn [fst snd]; unfold tau;
    split; f_equal; ring.
Qed.

End TrackerClaims.

(** The claims about the tracker at a click and at a millisecond of
    silence, with floats whose zeros are positive. *)
Section TrackerClaimsAtExamples.
Import Np Tracker TrackerSpec.
Local Open Scope R_scope.
#[local] Existing Instance Examples.positive_zeros.

(** C5 witness: a click, whose prompt peak has real part 1. *)
Lemma C5_witness :
  let peak := nth 0 (map (ifft_ones_at 2046) (seq 0 2046)) C0 in
  let r := fst (process_samples frequency_domain_correlation
                  Examples.click_tracker 0 Examples.click) in
  (real peak <> 0 ->
   exists s, r = Ok s /\ IZR (as_val s) = sign (real peak)
             /\ (as_val s = (-1)%Z \/ as_val s = 1%Z))
  /\ (real peak = 0 -> r = Raise KeyError).
Proof.
  exact (C5_pseudosymbol_is_sign_of_prompt_peak frequency_domain_correlation
           Examples.click_tracker 0 Examples.click
           (map (ifft_ones_at 2046) (seq 0 2046)) 0
           coherent_prompt_correlation_click argmax_click prn_wipe_off_click).
Defined.

(** C5 counterexample: on a millisecond of silence the correlation profile
    is computed, the real part of its peak is zero, and the call does not
    return +1: it raises [KeyError]. *)
Lemma C5_counterexample :
  coherent_prompt_correlation frequency_domain_correlation
    Examples.fresh_tracker 0 Examples.silence = Ok (repeat C0 2046)
  /\ argmax (map abs (repeat C0 2046)) = Some 0%nat
  /\ real (nth 0 (repeat C0 2046) C0) = 0
  /\ fst (process_samples frequency_domain_correlation
            Examples.fresh_tracker 0 Examples.silence) = Raise KeyError
  /\ fst (process_samples frequency_domain_correlation
            Examples.fresh_tracker 0 Examples.silence) <> Ok ONE.
Proof.
  assert (Hraise :
    fst (process_samples frequency_domain_correlation
           Examples.fresh_tracker 0 Examples.silence) = Raise KeyError).
  { rewrite (process_samples_parts frequency_domain_correlation
               Examples.fresh_tracker 0 Examples.silence _ 0
               (coherent_prompt_correlation_silence 0) argmax_silence
               (prn_wipe_off_silence 0)).
    cbn [fst]. rewrite peak_silence, int_sign. simpl real.
    destruct (Rlt_dec 0 0) as [H0|_]; [lra | reflexivity]. }
  split; [apply coherent_prompt_correlation_silence |].
  split; [exact argmax_silence |].
  split; [rewrite peak_silence; reflexivity |].
  split; [exact Hraise |].
  rewrite Hraise. discriminate.
Qed.

(** C6 witness: a click, which the tracker hears as +1. *)
Lemma C6_witness :
  (0 <= current_prn_code_phase_shift
          (tracking_params
             (snd (process_samples frequency_domain_correlation
                     Examples.click_tracker 0 Examples.click))) < 2046)%Z
  /\ 0 <= current_carrier_wave_phase_shift
            (tracking_params
               (snd (process_samples frequency_domain_correlation
                       Examples.click_tracker 0 Examples.click))) < 2 * PI.
Proof.
  apply (C6_phases_in_range_on_return frequency_domain_correlation
           Examples.click_tracker
           (snd (process_samples frequency_domain_correlation
                   Examples.click_tracker 0 Examples.click))
           0 Examples.click ONE).
  rewrite <- process_samples_click. apply surjective_pairing.
Defined.

(** C7 witness: a tracker that has not run yet. *)
Lemma C7_witness : _is_locked Examples.fresh_tracker = false.
Proof.
  apply (C7_no_lock_before_250_ms Examples.fresh_tracker).
  simpl. lia.
Defined.

(** C8 witness: a millisecond of silence, whose correlation peaks at
    offset 0. *)
Lemma C8_witness :
  current_prn_code_phase_shift
    (tracking_params
       (snd (process_samples frequency_domain_correlation
               Examples.fresh_tracker 0 Examples.silence)))
  = ((current_prn_code_phase_shift (tracking_params Examples.fresh_tracker) + 0)
       mod 2046)%Z.
Proof.
  exact (C8_code_phase_update frequency_domain_correlation
           Examples.fresh_tracker 0 Examples.silence (repeat C0 2046) 0
           (coherent_prompt_correlation_silence 0) argmax_silence).
Defined.

End TrackerClaimsAtExamples.

(** ** Lock detection *)

Section LockClaims.
Import Np Tracker LockSpec.
Local Open Scope R_scope.
Context {zeros : SignedZeros}.

Lemma nan_lt_true (x : option R) (c : R) :
  nan_lt x c = true <-> exists v, x = Some v /\ v < c.
Proof.
  destruct x as [v|]; simpl.
  - rewrite Rlt_bool_true. split.
    + intros Hv. exists v. auto.
    + intros (w & Hw & Hlt). inversion Hw. subst. exact Hlt.
  - split; [discriminate | intros (w & Hw & _); discriminate].
Qed.

Lemma half_variances_true (positive_var negative_var : option R) :
  nan_lt (nan_div (nan_add positive_var negative_var) 2) 2 = true
  <-> exists pv nv, positive_var = Some pv /\ negative_var = Some nv /\ (pv + nv) / 2 < 2.
Proof.
  rewrite nan_lt_true.
  destruct positive_var as [pv|], negative_var as [nv|]; simpl; split.
  - intros (v & Hv & Hlt). inversion Hv. subst. exists pv, nv. auto.
  - intros (a & b & Ha & Hb & Hlt). inversion Ha. inversion Hb. subst.
    exists ((a + b) / 2). auto.
  - intros (v & Hv & _). discriminate.
  - intros (a & b & _ & Hb & _). discriminate.
  - intros (v & Hv & _). discriminate.
  - intros (a & b & Ha & _). discriminate.
  - intros (v & Hv & _). discriminate.
  - intros (a & b & Ha & _). discriminate.
Qed.

(** The centred angle is never negative, so the misplaced [abs] of the
    source does not change the test. *)
Lemma centered_angle_nonneg (left_point : complex) : 0 <= centered_angle left_point.
Proof.
  unfold centered_angle.
  set (x := arctan2 (imag left_point) (real left_point) / tau * 360).
  pose proof (fmod_bounds x 180 ltac:(lra)) as [Hlo Hhi].
  destruct (Rlt_dec (180 - fmod x 180) 90); lra.
Qed.

Lemma abs_of_comparison (c : R) :
  0 <= c -> truthy (Z.abs (Z.b2z (Rlt_bool c 6))) = true <-> Rabs c < 6.
Proof.
  intros Hc. rewrite (Rabs_pos_eq c Hc), <- Rlt_bool_true.
  destruct (Rlt_bool c 6); simpl; split; auto; discriminate.
Qed.

Lemma rotation_test_true (left_point : option complex) :
  match left_point with
  | None => truthy (Z.abs (Z.b2z false))
  | Some lp =>
      truthy (Z.abs (Z.b2z (Rlt_bool
        (let angle := 180 - fmod ((arctan2 (imag lp) (real lp) / tau) * 360) 180 in
         if Rlt_dec angle 90 then angle else 180 - angle) 6)))
  end = true
  <-> exists lp, left_point = Some lp /\ Rabs (centered_angle lp) < 6.
Proof.
  destruct left_point as [lp|].
  - fold (centered_angle lp).
    rewrite (abs_of_comparison _ (centered_angle_nonneg lp)). split.
    + intros Hlt. exists lp. auto.
    + intros (q & Hq & Hlt). inversion Hq. subst. exact Hlt.
  - simpl. split; [discriminate | intros (q & Hq & _); discriminate].
Qed.

(** C4, as amended.  For a tracker with at least 250 ms of carrier phase
    error history, [_is_locked] returns true if and only if the variance of
    the last 250 phase errors is below 900; and, when more than two prompt
    I values are held, the mean of the positive-half and negative-half
    variances of the last 250 of them is below 2; and, when more than two
    constellation points are held, the absolute value of the centred angle
    of the left-pole centre of mass is below 6 degrees.  With two values or
    fewer the I-channel and the constellation criteria are taken as met. *)
Theorem C4_is_locked_criteria (self : GpsSatelliteTracker) :
  (250 <= length (carrier_wave_phase_errors (tracking_params self)))%nat ->
  _is_locked self = true
  <-> spec_phase_error_variance_under_threshold self
      /\ ((2 < length (_is self))%nat -> spec_i_channel_looks_locked self)
      /\ ((2 < length (combine (_is self) (_qs self)))%nat ->
          spec_constellation_rotation_acceptable self).
Proof.
  intros Hlen. unfold _is_locked.
  destruct (Nat.ltb_spec (length (carrier_wave_phase_errors (tracking_params self))) 250)
    as [Hlt|_]; [lia |].
  cbv zeta. rewrite !andb_true_iff.
  rewrite nan_lt_true. rewrite length_map.
  unfold spec_phase_error_variance_under_threshold, spec_i_channel_looks_locked,
    spec_constellation_rotation_acceptable.
  match goal with
  | |- (_ /\ ?i = true) /\ ?c = true <-> _ /\ (_ -> ?I) /\ (_ -> ?C) =>
      assert (Hi : i = true <-> ((2 < length (_is self))%nat -> I));
      [| assert (Hc : c = true
                      <-> ((2 < length (combine (_is self) (_qs self)))%nat -> C));
         [| tauto]]
  end.
  - destruct (Nat.ltb_spec 2 (length (_is self))) as [Hgt|Hle].
    + rewrite half_variances_true. split; [auto | intros Hc; apply Hc; exact Hgt].
    + split; [intros _ Hgt; lia | reflexivity].
  - destruct (Nat.ltb_spec 2 (length (combine (_is self) (_qs self)))) as [Hgt|Hle].
    + rewrite rotation_test_true. split; [auto | intros Hc; apply Hc; exact Hgt].
    + split; [intros _ Hgt; lia | reflexivity].
Qed.

Lemma sum_repeat (c : R) (n : nat) : sum (repeat c n) = INR n * c.
Proof.
  induction n as [|n IH]; [simpl; ring |].
  change (sum (repeat c (S n))) with (c + sum (repeat c n)).
  rewrite IH, S_INR. ring.
Qed.

Lemma mean_repeat (c : R) (n : nat) : mean (repeat c (S n)) = Some c.
Proof.
  unfold mean. change (repeat c (S n)) with (c :: repeat c n) at 1.
  cbv iota. rewrite sum_repeat, repeat_length. f_equal.
  field. apply not_0_INR. discriminate.
Qed.

Lemma var_repeat (c : R) (n : nat) : var (repeat c (S n)) = Some 0.
Proof.
  unfold var. rewrite mean_repeat, map_repeat, mean_repeat. f_equal. ring.
Qed.

Lemma rotated_tracker_is_locked : _is_locked Examples.rotated_tracker = true.
Proof.
  unfold _is_locked, Examples.rotated_tracker.
  cbn [tracking_params set_qs set_is set_tracking_params carrier_wave_phase_errors
       set_carrier_wave_phase_errors _is _qs length].
  rewrite repeat_length.
  change (250 <? 250)%nat with false. change (2 <? 2)%nat with false.
  cbv iota zeta.
  unfold last_n. rewrite repeat_length, Nat.sub_diag, skipn_O.
  rewrite (var_repeat 1 249).
  cbn [combine map length]. change (2 <? 2)%nat with false. cbv iota.
  rewrite !andb_true_r. apply nan_lt_true. exists 0. split; [reflexivity | lra].
Qed.

Lemma Zfloor_minus_three_quarters : Zfloor (-135 / 180) = (-1)%Z.
Proof. apply Zfloor_eq. simpl. lra. Qed.

Lemma centered_angle_at_45_degrees : centered_angle (Cx (-1) (-1)) = 45.
Proof.
  unfold centered_angle, arctan2. cbn [real imag].
  destruct (Rlt_dec 0 (-1)) as [Hn|_]; [lra |].
  destruct (Rlt_dec (-1) 0) as [_|Hn]; [| lra].
  replace (-1 / -1) with 1 by (field; lra).
  rewrite atan_1.
  replace ((PI / 4 - PI) / tau * 360) with (-135)
    by (unfold tau; field; apply PI_neq0).
  unfold fmod. rewrite Zfloor_minus_three_quarters.
  replace (180 - (-135 - 180 * -1)) with 135 by lra.
  destruct (Rlt_dec 135 90) as [H|_]; lra.
Qed.

Lemma rotated_tracker_left_pole :
  Cmean (List.filter (fun p => Rlt_bool (real p) 0)
           (map (fun iq => Cx (fst iq) (snd iq))
                (combine (_is Examples.rotated_tracker) (_qs Examples.rotated_tracker))))
  = Some (Cx (-1) (-1)).
Proof.
  cbn [Examples.rotated_tracker _is _qs set_qs set_is combine map fst snd List.filter real].
  replace (Rlt_bool (-1) 0) with true by (symmetry; apply Rlt_bool_true; lra).
  replace (Rlt_bool 1 0) with false by (symmetry; apply Rlt_bool_false; lra).
  unfold Cmean, Cscale, Csum, Cadd, C0. cbn [length fold_right real imag INR].
  f_equal. f_equal; field.
Qed.

End LockClaims.

(** The claim about lock detection at a rotated constellation, with floats
    whose zeros are positive. *)
Section LockClaimsAtExamples.
Import Np Tracker LockSpec.
Local Open Scope R_scope.
#[local] Existing Instance Examples.positive_zeros.

(** C4 witness: the theorem at a tracker with 250 ms of history. *)
Lemma C4_witness :
  _is_locked Examples.rotated_tracker = true
  <-> spec_phase_error_variance_under_threshold Examples.rotated_tracker
      /\ ((2 < length (_is Examples.rotated_tracker))%nat ->
          spec_i_channel_looks_locked Examples.rotated_tracker)
      /\ ((2 < length (combine (_is Examples.rotated_tracker)
                               (_qs Examples.rotated_tracker)))%nat ->
          spec_constellation_rotation_acceptable Examples.rotated_tracker).
Proof.
  apply (C4_is_locked_criteria Examples.rotated_tracker).
  cbn [Examples.rotated_tracker tracking_params set_qs set_is set_tracking_params
       carrier_wave_phase_errors set_carrier_wave_phase_errors].
  rewrite repeat_length. apply Nat.le_refl.
Defined.

(** C4 counterexample: a tracker with 250 ms of history that [_is_locked]
    reports as locked although the centre of mass of its left pole sits at a
    centred angle of 45 degrees, so that the third criterion fails. *)
Lemma C4_counterexample :
  (250 <= length (carrier_wave_phase_errors
                    (tracking_params Examples.rotated_tracker)))%nat
  /\ _is_locked Examples.rotated_tracker = true
  /\ ~ (spec_phase_error_variance_under_threshold Examples.rotated_tracker
        /\ spec_i_channel_looks_locked Examples.rotated_tracker
        /\ spec_constellation_rotation_acceptable Examples.rotated_tracker).
Proof.
  split.
  { cbn [Examples.rotated_tracker tracking_params set_qs set_is set_tracking_params
         carrier_wave_phase_errors set_carrier_wave_phase_errors].
    rewrite repeat_length. apply Nat.le_refl. }
  split; [exact rotated_tracker_is_locked |].
  intros (_ & _ & lp & Hmean & Habs).
  rewrite rotated_tracker_left_pole in Hmean. inversion Hmean. subst lp.
  rewrite centered_angle_at_45_degrees in Habs.
  rewrite Rabs_pos_eq in Habs; lra.
Qed.

End LockClaimsAtExamples.

(** ** The world model *)

Section WorldModelClaims.
Import WorldModel WorldModelSpec.

(** A set is complete exactly when no key is bound to [None]. *)
Lemma is_complete_spec {K V} `{Countable K} (self : ParameterSet K V) :
  is_complete self = true <-> forall k, self !! k <> Some None.
Proof.
  unfold is_complete. rewrite negb_true_iff. split.
  - intros Hnone k Hk.
    assert (Hex : existsb (fun x : option V => match x with None => true | Some _ => false end)
                    (map snd (map_to_list self)) = true).
    { apply existsb_exists. exists None. split; [| reflexivity].
      apply in_map_iff. exists (k, None). split; [reflexivity |].
      apply list_elem_of_In, elem_of_map_to_list. exact Hk. }
    congruence.
  - intros Hall.
    destruct (existsb _ _) eqn:Hex; [| reflexivity].
    apply existsb_exists in Hex as (x & Hin & Hx).
    destruct x as [v|]; [discriminate |].
    apply in_map_iff in Hin as ((k & y) & Hy & Hin). simpl in Hy. subst y.
    apply list_elem_of_In, elem_of_map_to_list in Hin.
    exfalso. exact (Hall k Hin).
Qed.

Lemma is_complete_insert {K V} `{Countable K} (self : ParameterSet K V) (k : K) (v : V) :
  is_complete self = true -> is_complete (<[k := Some v]> self) = true.
Proof.
  rewrite !is_complete_spec. intros Hall j.
  destruct (decide (k = j)) as [->|Hne].
  - rewrite lookup_insert_eq. discriminate.
  - rewrite lookup_insert_ne by exact Hne. apply Hall.
Qed.

Lemma processed_complete subframe orbital_parameters :
  is_complete orbital_parameters = true ->
  is_complete (processed subframe orbital_parameters) = true.
Proof.
  intros Hc. destruct subframe; simpl; auto using is_complete_insert.
Qed.

Lemma handle_subframe_emitted_orbital (self : GpsWorldModel) (satellite_id other : Z)
    (subframe : NavigationMessageSubframe) :
  orbital_parameters_of (snd (handle_subframe_emitted self satellite_id subframe)) other
  = if decide (satellite_id = other)
    then processed subframe (orbital_parameters_of self satellite_id)
    else orbital_parameters_of self other.
Proof.
  unfold handle_subframe_emitted, orbital_parameters_of, defaultdict_getitem.
  destruct (satellite_ids_to_orbital_parameters self !! satellite_id) as [o|] eqn:Ho;
    destruct (satellite_ids_to_time_parameters self !! satellite_id) as [t|] eqn:Ht;
    destruct subframe; cbn -[is_complete insert];
    destruct (decide (satellite_id = other)) as [->|Hne];
    rewrite ?lookup_insert_eq, ?lookup_insert_ne by exact Hne;
    rewrite ?Ho; try reflexivity.
Qed.

Lemma handle_subframe_emitted_events (self : GpsWorldModel) (satellite_id : Z)
    (subframe : NavigationMessageSubframe) :
  fst (handle_subframe_emitted self satellite_id subframe)
  = if negb (is_complete (orbital_parameters_of self satellite_id))
       && is_complete (processed subframe (orbital_parameters_of self satellite_id))
    then [DeterminedSatelliteOrbitEvent satellite_id
            (processed subframe (orbital_parameters_of self satellite_id))]
    else [].
Proof.
  unfold handle_subframe_emitted, orbital_parameters_of, defaultdict_getitem.
  destruct (satellite_ids_to_orbital_parameters self !! satellite_id) as [o|] eqn:Ho;
    destruct (satellite_ids_to_time_parameters self !! satellite_id) as [t|] eqn:Ht;
    destruct subframe; cbn -[is_complete insert];
    match goal with
    | |- context [negb (is_complete ?p)] => destruct (is_complete p)
    end; cbn -[is_complete insert]; try reflexivity;
    match goal with
    | |- context [is_complete ?p] => destruct (is_complete p)
    end; reflexivity.
Qed.

(** Once the set of a satellite is complete, no run emits an event for it. *)
Lemma complete_stays_silent (calls : list (Z * NavigationMessageSubframe))
    (self : GpsWorldModel) (satellite_id : Z) :
  is_complete (orbital_parameters_of self satellite_id) = true ->
  events_for satellite_id (fst (handle_subframes self calls)) = [].
Proof.
  revert self. induction calls as [|[sat subframe] calls IH]; intros self Hc;
    [reflexivity |].
  simpl.
  pose proof (handle_subframe_emitted_events self sat subframe) as Hev.
  pose proof (handle_subframe_emitted_orbital self sat satellite_id subframe) as Horb.
  destruct (handle_subframe_emitted self sat subframe) as [events self1].
  simpl in Hev, Horb.
  specialize (IH self1).
  destruct (handle_subframes self1 calls) as [events' self2]. simpl in *.
  unfold events_for in *. rewrite List.filter_app.
  assert (Hc1 : is_complete (orbital_parameters_of self1 satellite_id) = true).
  { rewrite Horb. destruct (decide (sat = satellite_id)) as [->|_];
      [apply processed_complete |]; exact Hc. }
  rewrite (IH Hc1), app_nil_r.
  subst events.
  destruct (decide (sat = satellite_id)) as [->|Hne].
  - rewrite Hc. reflexivity.
  - destruct (_ && _); [| reflexivity].
    simpl. rewrite bool_decide_eq_false_2 by exact Hne. reflexivity.
Qed.

(** C2.  A call of [handle_subframe_emitted] returns a
    [DeterminedSatelliteOrbitEvent] for its satellite if and only if the
    call takes the orbital parameter set of that satellite from incomplete
    to complete, and returns nothing otherwise; in any run of calls, from
    any state of the model, at most one such event is returned per
    satellite, so later overwrites of filled slots do not emit it again. *)
Theorem C2_orbit_determined_exactly_on_completion :
  (forall (self : GpsWorldModel) (satellite_id : Z) (subframe : NavigationMessageSubframe),
     let r := handle_subframe_emitted self satellite_id subframe in
     let before := orbital_parameters_of self satellite_id in
     let after := orbital_parameters_of (snd r) satellite_id in
     (fst r = [DeterminedSatelliteOrbitEvent satellite_id after]
      <-> is_complete before = false /\ is_complete after = true)
     /\ (fst r = [] <-> ~ (is_complete before = false /\ is_complete after = true)))
  /\ (forall (self : GpsWorldModel) (calls : list (Z * NavigationMessageSubframe))
             (satellite_id : Z),
        (length (events_for satellite_id (fst (handle_subframes self calls))) <= 1)%nat).
Proof.
  split.
  - intros self satellite_id subframe r before after.
    subst r before after.
    rewrite handle_subframe_emitted_events, handle_subframe_emitted_orbital.
    rewrite decide_True by reflexivity.
    destruct (is_complete (orbital_parameters_of self satellite_id));
      destruct (is_complete (processed subframe (orbital_parameters_of self satellite_id)));
      simpl; intuition congruence.
  - intros self calls. revert self.
    induction calls as [|[sat subframe] calls IH]; intros self satellite_id;
      [simpl; lia |].
    simpl.
    pose proof (handle_subframe_emitted_events self sat subframe) as Hev.
    pose proof (handle_subframe_emitted_orbital self sat satellite_id subframe) as Horb.
    destruct (handle_subframe_emitted self sat subframe) as [events self1].
    simpl in Hev, Horb.
    pose proof (complete_stays_silent calls self1 satellite_id) as Hsilent.
    specialize (IH self1 satellite_id).
    destruct (handle_subframes self1 calls) as [events' self2]. simpl in *.
    unfold events_for in *. rewrite List.filter_app, length_app.
    subst events.
    destruct (negb (is_complete (orbital_parameters_of self sat))
              && is_complete (processed subframe (orbital_parameters_of self sat)))
      eqn:Hemit; [| simpl; exact IH].
    simpl. destruct (decide (sat = satellite_id)) as [->|Hne].
    + rewrite bool_decide_eq_true_2 by reflexivity.
      apply andb_true_iff in Hemit as [_ Hafter].
      rewrite Hsilent by (rewrite Horb; exact Hafter).
      simpl. lia.
    + rewrite bool_decide_eq_false_2 by exact Hne. simpl. exact IH.
Qed.

End WorldModelClaims.

Section WorldModelExample.
Import WorldModel.

(** The event is emitted: subframes 2 and 3 of a satellite, in either
    order, complete its set on the second call. *)
Lemma orbit_determined_by_subframes_2_and_3
    (s2 : NavigationMessageSubframe2) (s3 : NavigationMessageSubframe3) :
  fst (handle_subframe_emitted GpsWorldModel_init 5 (Subframe2 s2)) = []
  /\ length (fst (handle_subframes GpsWorldModel_init
                    [(5%Z, Subframe2 s2); (5%Z, Subframe3 s3)])) = 1%nat
  /\ length (fst (handle_subframes GpsWorldModel_init
                    [(5%Z, Subframe3 s3); (5%Z, Subframe2 s2);
                     (5%Z, Subframe3 s3); (5%Z, Subframe2 s2)])) = 1%nat.
Proof. repeat split; vm_compute; reflexivity. Qed.

End WorldModelExample.

(** ** The receiver *)

(** unfold the monad of a straight-line procedure *)
Ltac run_M :=
  cbv beta iota delta
    [mbind Receiver.M_bind mret Receiver.M_ret Receiver.get Receiver.put
     Receiver.info Receiver.raise Receiver.lift_result] in *.

Section ReceiverProperties.
Import Np Receiver AcquisitionSpec ReceiverSpec ReceiverRunSpec.
Context `{Collaborators}.

Lemma bind_unfold {S A B} (m : M S A) (f : A -> M S B) (s : S) :
  (m ≫= f) s =
  match m s with
  | (Ok a, s', l) => let '(r, s'', l') := f a s' in (r, s'', l ++ l')
  | (Raise e, s', l) => (Raise e, s', l)
  end.
Proof. reflexivity. Qed.

Lemma log_all_bind {S A B} (P : LogRecord -> Prop) (m : M S A) (f : A -> M S B) :
  log_all P m -> (forall a, log_all P (f a)) -> log_all P (m ≫= f).
Proof.
  intros Hm Hf s. rewrite bind_unfold.
  specialize (Hm s). destruct (m s) as [[[a|e] s'] l]; simpl in *; [| exact Hm].
  specialize (Hf a s'). destruct (f a s') as [[r s''] l']. simpl in *.
  apply Forall_app. split; assumption.
Qed.

Lemma log_all_for_each {S A} (P : LogRecord -> Prop) (xs : list A) (body : A -> M S unit) :
  (forall x, log_all P (body x)) -> log_all P (for_each xs body).
Proof.
  intros Hbody. induction xs as [|x xs IH]; intros s; [constructor |].
  apply (log_all_bind P (body x) (fun _ => for_each xs body)); auto.
Qed.

Lemma dispatch_log (event : Event BitValue) :
  log_all is_integrator_record (dispatch_integrator_event event).
Proof.
  intros s. destruct event; simpl; unfold _handle_integrator_emitted_bit;
    rewrite ?bind_unfold; simpl;
    try destruct (process_bit_from_satellite _ _); simpl;
    repeat constructor.
Qed.

Lemma process_samples_log (samples : list complex) (sample_index : Z) :
  log_all is_integrator_record (process_samples samples sample_index).
Proof.
  intros s. unfold process_samples. run_M.
  destruct (tracker_process_samples (tracker s) samples sample_index) as [[sym|e] t];
    [| constructor].
  cbn [pseudosymbol_integrator set_tracker].
  destruct (process_pseudosymbol (pseudosymbol_integrator s) sym)
    as [events integrator].
  pose proof (log_all_for_each is_integrator_record events dispatch_integrator_event
                dispatch_log
                (set_pseudosymbol_integrator integrator (set_tracker t s))) as Hlog.
  destruct (for_each events dispatch_integrator_event _) as [[r s'] l].
  exact Hlog.
Qed.

Lemma for_each_pipeline_log items samples sample_index :
  Forall is_integrator_record
    (snd (for_each_pipeline items (process_samples samples sample_index))).
Proof.
  induction items as [|[sat_id pipeline] items IH]; simpl; [constructor |].
  pose proof (process_samples_log samples sample_index pipeline) as Hp.
  destruct (process_samples samples sample_index pipeline) as [[[u|e] p'] l];
    simpl in *; [| exact Hp].
  destruct (for_each_pipeline items _) as [[r items'] l']. simpl in *.
  apply Forall_app. split; assumption.
Qed.

(** the keys of the dictionary of pipelines survive the tracking loop *)
Lemma for_each_pipeline_keys items body :
  map fst (snd (fst (for_each_pipeline items body))) = map fst items.
Proof.
  induction items as [|[sat_id pipeline] items IH]; simpl; [reflexivity |].
  destruct (body pipeline) as [[[u|e] p'] l]; simpl; [| reflexivity].
  destruct (for_each_pipeline items body) as [[r items'] l']. simpl in *.
  rewrite IH. reflexivity.
Qed.

(** *** Acquisition never adds a pipeline *)

Lemma pipeline_init_raises (satellite : Tracker.GpsSatellite)
    (acquisition_result : SatelliteAcquisitionAttemptResult) :
  GpsSatelliteSignalProcessingPipeline_init satellite acquisition_result = Raise TypeError.
Proof. reflexivity. Qed.

Lemma acquire_raises acquisition_result (self : GpsReceiver) :
  exists e, acquire acquisition_result self = (Raise e, self, [])
            /\ (e = TypeError \/ e = KeyError).
Proof.
  unfold acquire. rewrite bind_unfold. simpl.
  destruct (satellites_by_id self !! satellite_id acquisition_result) as [s|].
  - exists TypeError. split; [reflexivity | left; reflexivity].
  - exists KeyError. split; [reflexivity | right; reflexivity].
Qed.

Lemma for_each_acquire (results : list SatelliteAcquisitionAttemptResult)
    (self : GpsReceiver) :
  match results with
  | [] => for_each results acquire self = (Ok tt, self, [])
  | _ :: _ => exists e, for_each results acquire self = (Raise e, self, [])
                        /\ (e = TypeError \/ e = KeyError)
  end.
Proof.
  destruct results as [|a results]; [reflexivity |].
  simpl. rewrite bind_unfold.
  destruct (acquire_raises a self) as (e & -> & He).
  exists e. auto.
Qed.

Lemma set_navigation_message_decoder_same (s : GpsSatelliteSignalProcessingPipeline) :
  set_navigation_message_decoder (navigation_message_decoder s) s = s.
Proof. destruct s. reflexivity. Qed.

(** The loop over the integrator's events, in closed form. *)
Lemma for_each_dispatch (events : list (Event BitValue))
    (s : GpsSatelliteSignalProcessingPipeline) :
  for_each events dispatch_integrator_event s
  = (outcome events,
     set_navigation_message_decoder
       (feed (navigation_message_decoder s) (bits_of (handled events))) s,
     records_of (Tracker.satellite_id (satellite s)) (handled events)).
Proof.
  revert s. induction events as [|event events IH]; intros s.
  - cbn. rewrite set_navigation_message_decoder_same. reflexivity.
  - cbn [for_each]. rewrite bind_unfold.
    destruct event as [bit_phase|confidence|bit_value|];
      cbn [dispatch_integrator_event handled outcome aborts].
    + unfold _handle_integrator_determined_bit_phase. run_M.
      rewrite IH. reflexivity.
    + unfold _handle_integrator_cannot_determine_bit_phase. run_M.
      cbn. rewrite set_navigation_message_decoder_same. reflexivity.
    + unfold _handle_integrator_emitted_bit. run_M.
      destruct (process_bit_from_satellite (navigation_message_decoder s) bit_value)
        as [decoder_events decoder] eqn:Hbit.
      rewrite IH. cbn [bits_of flat_map app feed fold_left records_of
                       navigation_message_decoder set_navigation_message_decoder
                       satellite].
      rewrite Hbit. reflexivity.
    + cbn. rewrite set_navigation_message_decoder_same. reflexivity.
Qed.

(** [_perform_acquisition], case by case *)
Lemma _perform_acquisition_cases (self : GpsReceiver) :
  let primed :=
    (ACQUISITION_INTEGRATION_PERIOD_MS <=? length (rolling_samples_buffer self))%nat in
  let detections :=
    detect_satellites_in_antenna_data
      (satellite_ids_eligible_for_acquisition self)
      (concat (rolling_samples_buffer self)) in
  exists r,
    _perform_acquisition self
    = (r, self,
       if primed
       then [PerformingAcquisitionSearch
               (length (satellite_ids_eligible_for_acquisition self))]
       else [SkippingAcquisitionAttempt])
    /\ (r = Ok tt <-> primed = false \/ detections = [])
    /\ (r = Ok tt \/ r = Raise TypeError \/ r = Raise KeyError).
Proof.
  intros primed detections. subst primed.
  rewrite Nat.leb_antisym.
  unfold _perform_acquisition. rewrite bind_unfold. cbn [get].
  destruct (length (rolling_samples_buffer self) <? ACQUISITION_INTEGRATION_PERIOD_MS)%nat;
    cbn [negb].
  - exists (Ok tt). split; [reflexivity |]. split; [| auto]. split; auto.
  - rewrite bind_unfold. cbn [info]. fold acquire.
    pose proof (for_each_acquire detections self) as Hloop.
    fold detections.
    destruct detections as [|a results].
    + rewrite Hloop. exists (Ok tt). split; [reflexivity |]. split; [| auto].
      split; auto.
    + destruct Hloop as (e & -> & He).
      exists (Raise e). split; [reflexivity |]. split.
      * split; [discriminate | intros [Hp|Hd]; discriminate].
      * destruct He as [-> | ->]; auto.
Qed.

End ReceiverProperties.

Section ReceiverStep.
Import Np Receiver AcquisitionSpec ReceiverSpec.
Context `{Collaborators}.

Lemma raises_on_low_confidence_bind {S A B} (m : M S A) (f : A -> M S B) :
  raises_on_low_confidence m -> (forall a, raises_on_low_confidence (f a)) ->
  raises_on_low_confidence (m ≫= f).
Proof.
  intros Hm Hf s sat. rewrite bind_unfold.
  specialize (Hm s sat). destruct (m s) as [[[a|e] s'] l]; simpl in *; [| exact Hm].
  specialize (Hf a s' sat). destruct (f a s') as [[r s''] l']. simpl in *.
  intros Hin. apply in_app_or in Hin as [Hin|Hin]; [| auto].
  specialize (Hm Hin). discriminate.
Qed.

Lemma raises_on_low_confidence_for_each {S A} (xs : list A) (body : A -> M S unit) :
  (forall x, raises_on_low_confidence (body x)) ->
  raises_on_low_confidence (for_each xs body).
Proof.
  intros Hbody. induction xs as [|x xs IH]; [intros s sat [] |].
  apply (raises_on_low_confidence_bind (body x) (fun _ => for_each xs body)); auto.
Qed.

Lemma dispatch_raises (event : Event BitValue) :
  raises_on_low_confidence (dispatch_integrator_event event).
Proof.
  intros s sat. destruct event; simpl; unfold _handle_integrator_emitted_bit; run_M;
    try destruct (process_bit_from_satellite _ _); simpl; intuition congruence.
Qed.

Lemma process_samples_raises (samples : list complex) (sample_index : Z) :
  raises_on_low_confidence (process_samples samples sample_index).
Proof.
  intros s sat. unfold process_samples. run_M.
  destruct (tracker_process_samples (tracker s) samples sample_index) as [[sym|e] t];
    [| intros []].
  cbn [pseudosymbol_integrator set_tracker].
  destruct (process_pseudosymbol (pseudosymbol_integrator s) sym)
    as [events integrator].
  pose proof (raises_on_low_confidence_for_each events dispatch_integrator_event
                dispatch_raises
                (set_pseudosymbol_integrator integrator (set_tracker t s)) sat) as Hlog.
  destruct (for_each events dispatch_integrator_event _) as [[r s'] l].
  exact Hlog.
Qed.

Lemma for_each_pipeline_raises items samples sample_index sat :
  In (IntegratorCouldNotDetermineBitPhase sat)
     (snd (for_each_pipeline items (process_samples samples sample_index))) ->
  raised (fst (fst (for_each_pipeline items (process_samples samples sample_index))))
  = Some NotImplementedError.
Proof.
  induction items as [|[sat_id pipeline] items IH]; simpl; [intros [] |].
  pose proof (process_samples_raises samples sample_index pipeline sat) as Hp.
  destruct (process_samples samples sample_index pipeline) as [[[u|e] p'] l];
    simpl in *; [| exact Hp].
  destruct (for_each_pipeline items _) as [[r items'] l']. simpl in *.
  intros Hin. apply in_app_or in Hin as [Hin|Hin]; [| auto].
  specialize (Hp Hin). discriminate.
Qed.

(** [step], case by case *)
Lemma step_cases (rx : GpsReceiver) :
  let track :=
    (fst (fst (tracked_by rx)),
     set_tracked_satellite_ids_to_processing_pipelines
       (snd (fst (tracked_by rx))) (buffered rx),
     snd (tracked_by rx)) in
  match tracked_satellite_ids_to_processing_pipelines rx with
  | [] =>
      exists r l,
        _perform_acquisition (buffered rx) = (r, buffered rx, l)
        /\ step rx =
           match r with
           | Ok _ => (fst (fst track), snd (fst track),
                      WillPerformAcquisitionSearch 0 :: l ++ snd track)
           | Raise e => (Raise e, buffered rx, WillPerformAcquisitionSearch 0 :: l)
           end
  | _ :: _ => step rx = track
  end.
Proof.
  intros track. subst track. unfold tracked_by.
  pose proof (_perform_acquisition_cases (buffered rx)) as Hacq.
  unfold step, buffered in *. run_M.
  destruct (get_samples (antenna_samples_provider rx) SAMPLES_PER_PRN_TRANSMISSION)
    as [samples provider].
  cbn [tracked_satellite_ids_to_processing_pipelines set_rolling_samples_buffer
       set_antenna_samples_provider rolling_samples_buffer fst snd] in *.
  unfold _track_acquired_satellites.
  cbn [tracked_satellite_ids_to_processing_pipelines set_rolling_samples_buffer
       set_antenna_samples_provider rolling_samples_buffer fst snd] in *.
  change (tracked_satellite_ids_to_processing_pipelines
            (set_rolling_samples_buffer
               (deque_append ACQUISITION_INTEGRATION_PERIOD_MS samples
                  (rolling_samples_buffer rx))
               (set_antenna_samples_provider provider rx)))
    with (tracked_satellite_ids_to_processing_pipelines rx).
  destruct (tracked_satellite_ids_to_processing_pipelines rx) as [|kv items] eqn:Htracked.
  - cbn [length Nat.ltb Nat.leb] in *. cbv iota.
    destruct Hacq as (r & Hr & _).
    exists r. eexists. split; [exact Hr |].
    rewrite Hr.
    change (tracked_satellite_ids_to_processing_pipelines
              (set_rolling_samples_buffer
                 (deque_append ACQUISITION_INTEGRATION_PERIOD_MS samples
                    (rolling_samples_buffer rx))
                 (set_antenna_samples_provider provider rx)))
      with (tracked_satellite_ids_to_processing_pipelines rx).
    rewrite Htracked.
    destruct (ACQUISITION_INTEGRATION_PERIOD_MS <=? _)%nat; destruct r as [[]|e];
      reflexivity.
  - cbn [length Nat.ltb Nat.leb]. cbv iota.
    cbn [tracked_satellite_ids_to_processing_pipelines set_rolling_samples_buffer
         set_antenna_samples_provider].
    rewrite Htracked.
    destruct (for_each_pipeline (kv :: items) _) as [[r items'] l]. reflexivity.
Qed.

End ReceiverStep.

(** ** Claims about the receiver *)

Section ReceiverClaims.
Import Np Receiver AcquisitionSpec ReceiverSpec.

Lemma buffered_fields `{Collaborators} (rx : GpsReceiver) :
  tracked_satellite_ids_to_processing_pipelines (buffered rx)
  = tracked_satellite_ids_to_processing_pipelines rx
  /\ satellite_ids_eligible_for_acquisition (buffered rx)
     = satellite_ids_eligible_for_acquisition rx
  /\ length (rolling_samples_buffer (buffered rx))
     = Nat.min ACQUISITION_INTEGRATION_PERIOD_MS (length (rolling_samples_buffer rx) + 1).
Proof.
  unfold buffered.
  destruct (get_samples _ _) as [samples provider].
  cbn [tracked_satellite_ids_to_processing_pipelines satellite_ids_eligible_for_acquisition
       rolling_samples_buffer set_rolling_samples_buffer set_antenna_samples_provider].
  repeat split. unfold deque_append, last_n.
  rewrite length_skipn, length_app. cbn [length]. lia.
Qed.

Lemma existsb_integrator_records (p : LogRecord -> bool) (l : list LogRecord) :
  (forall r, is_integrator_record r -> p r = false) ->
  Forall is_integrator_record l -> existsb p l = false.
Proof.
  intros Hp Hl. induction Hl as [|r l Hr _ IH]; [reflexivity |].
  simpl. rewrite (Hp r Hr), IH. reflexivity.
Qed.

Lemma tracked_by_log `{Collaborators} (rx : GpsReceiver) (p : LogRecord -> bool) :
  (forall r, is_integrator_record r -> p r = false) ->
  existsb p (snd (tracked_by rx)) = false.
Proof.
  intros Hp. apply existsb_integrator_records; [exact Hp |].
  apply for_each_pipeline_log.
Qed.

(** what a step with no tracked satellite logs *)
Lemma step_acquisition_log `{Collaborators} (rx : GpsReceiver) :
  tracked_satellite_ids_to_processing_pipelines rx = [] ->
  logged rx =
    [WillPerformAcquisitionSearch 0;
     if (ACQUISITION_INTEGRATION_PERIOD_MS
           <=? length (rolling_samples_buffer (buffered rx)))%nat
     then PerformingAcquisitionSearch
            (length (satellite_ids_eligible_for_acquisition rx))
     else SkippingAcquisitionAttempt].
Proof.
  intros Hnone. unfold logged.
  pose proof (step_cases rx) as Hstep. rewrite Hnone in Hstep.
  destruct Hstep as (r & l & Hacq & Hstep).
  pose proof (_perform_acquisition_cases (buffered rx)) as Hcases.
  cbv zeta in Hcases. destruct Hcases as (r' & Hacq' & _).
  destruct (buffered_fields rx) as (_ & Heligible & _). rewrite Heligible in Hacq'.
  remember (ACQUISITION_INTEGRATION_PERIOD_MS
              <=? length (rolling_samples_buffer (buffered rx)))%nat as primed.
  assert (Hl : l = if primed
                   then [PerformingAcquisitionSearch
                           (length (satellite_ids_eligible_for_acquisition rx))]
                   else [SkippingAcquisitionAttempt]) by congruence.
  assert (Hidle : snd (tracked_by rx) = [])
    by (unfold tracked_by; rewrite Hnone; reflexivity).
  rewrite Hstep, Hl.
  destruct r as [[]|e]; cbn [snd fst]; rewrite ?Hidle; destruct primed; reflexivity.
Qed.

Lemma step_tracking_log `{Collaborators} (rx : GpsReceiver) :
  tracked_satellite_ids_to_processing_pipelines rx <> [] ->
  logged rx = snd (tracked_by rx).
Proof.
  intros Hsome. unfold logged.
  pose proof (step_cases rx) as Hstep.
  destruct (tracked_satellite_ids_to_processing_pipelines rx); [congruence |].
  rewrite Hstep. reflexivity.
Qed.

Lemma enters_acquisition_iff `{Collaborators} (rx : GpsReceiver) :
  enters_acquisition rx = true
  <-> (length (tracked_satellite_ids_to_processing_pipelines rx) < 1)%nat.
Proof.
  unfold enters_acquisition.
  destruct (tracked_satellite_ids_to_processing_pipelines rx) as [|kv items] eqn:Htracked.
  - rewrite (step_acquisition_log rx Htracked).
    simpl. split; [lia | reflexivity].
  - rewrite step_tracking_log by (rewrite Htracked; discriminate).
    rewrite tracked_by_log by (intros []; simpl; intuition).
    simpl. split; [discriminate | lia].
Qed.

Lemma runs_acquisition_search_iff `{Collaborators} (rx : GpsReceiver) :
  runs_acquisition_search rx = true
  <-> (length (tracked_satellite_ids_to_processing_pipelines rx) < 1)%nat
      /\ (ACQUISITION_INTEGRATION_PERIOD_MS <= length (rolling_samples_buffer rx) + 1)%nat.
Proof.
  unfold runs_acquisition_search.
  destruct (tracked_satellite_ids_to_processing_pipelines rx) as [|kv items] eqn:Htracked.
  - rewrite (step_acquisition_log rx Htracked).
    destruct (buffered_fields rx) as (_ & _ & Hlen). rewrite Hlen.
    destruct (Nat.leb_spec ACQUISITION_INTEGRATION_PERIOD_MS
                (Nat.min ACQUISITION_INTEGRATION_PERIOD_MS
                         (length (rolling_samples_buffer rx) + 1))) as [Hle|Hgt];
      cbn [existsb is_PerformingAcquisitionSearch orb length];
      split; try discriminate; try reflexivity; intros; try split; try lia.
  - rewrite step_tracking_log by (rewrite Htracked; discriminate).
    rewrite tracked_by_log by (intros []; simpl; intuition).
    simpl. split; [discriminate | lia].
Qed.

(** what a step leaves of the dictionary of pipelines and of the eligible
    satellites *)
Lemma step_preserves `{Collaborators} (rx : GpsReceiver) :
  map fst (tracked_satellite_ids_to_processing_pipelines (snd (fst (step rx))))
  = map fst (tracked_satellite_ids_to_processing_pipelines rx)
  /\ satellite_ids_eligible_for_acquisition (snd (fst (step rx)))
     = satellite_ids_eligible_for_acquisition rx.
Proof.
  pose proof (step_cases rx) as Hstep.
  destruct (buffered_fields rx) as (Htracked & Heligible & _).
  pose proof (for_each_pipeline_keys
                (tracked_satellite_ids_to_processing_pipelines rx)
                (process_samples
                   (fst (get_samples (antenna_samples_provider rx)
                           SAMPLES_PER_PRN_TRANSMISSION))
                   (cursor (antenna_samples_provider rx)))) as Hkeys.
  fold (tracked_by rx) in Hkeys.
  destruct (tracked_satellite_ids_to_processing_pipelines rx) as [|kv items] eqn:Hrx.
  - destruct Hstep as (r & l & _ & ->).
    destruct r as [[]|e]; cbn [fst snd]; [| rewrite Htracked, Heligible; auto].
    split; [exact Hkeys | exact Heligible].
  - rewrite Hstep. cbn [fst snd]. split; [exact Hkeys | exact Heligible].
Qed.

Lemma step_raises `{Collaborators} (rx : GpsReceiver) (sat : Z) :
  In (IntegratorCouldNotDetermineBitPhase sat) (logged rx) ->
  fst (fst (step rx)) = Raise NotImplementedError.
Proof.
  intros Hin.
  assert (Hraised : raised (fst (fst (step rx))) = Some NotImplementedError).
  { pose proof (for_each_pipeline_raises
                  (tracked_satellite_ids_to_processing_pipelines rx)
                  (fst (get_samples (antenna_samples_provider rx)
                          SAMPLES_PER_PRN_TRANSMISSION))
                  (cursor (antenna_samples_provider rx)) sat) as Hloop.
    fold (tracked_by rx) in Hloop.
    destruct (tracked_satellite_ids_to_processing_pipelines rx) as [|kv items] eqn:Hrx.
    - rewrite (step_acquisition_log rx Hrx) in Hin.
      destruct Hin as [Hin | [Hin | []]];
        [discriminate | destruct (_ <=? _)%nat; discriminate].
    - assert (Hne : tracked_satellite_ids_to_processing_pipelines rx <> [])
        by (rewrite Hrx; discriminate).
      rewrite (step_tracking_log rx Hne) in Hin.
      pose proof (step_cases rx) as Hstep. rewrite Hrx in Hstep.
      rewrite Hstep. cbn [fst]. exact (Hloop Hin). }
  destruct (fst (fst (step rx))) as [[]|e]; [discriminate |].
  inversion Hraised. reflexivity.
Qed.

End ReceiverClaims.

Section ReceiverTheorems.
Import Np Receiver AcquisitionSpec ReceiverSpec ReceiverRunSpec.
Local Open Scope R_scope.

(** C1.  For every satellite and every acquisition result, constructing a
    [GpsSatelliteSignalProcessingPipeline] raises [TypeError]: the pipeline
    calls [GpsSatelliteTracker(tracking_params)] without the required
    [loop_bandwidth].  So [_perform_acquisition] never changes the
    dictionary of tracked pipelines, it returns normally only when the
    buffer is not primed or nothing was detected, and a step of the
    receiver leaves the tracked satellite ids as they were. *)
Theorem C1_pipeline_constructor_raises_TypeError `{Collaborators} :
  (forall (satellite : Tracker.GpsSatellite)
          (acquisition_result : SatelliteAcquisitionAttemptResult),
     GpsSatelliteSignalProcessingPipeline_init satellite acquisition_result
     = Raise TypeError)
  /\ (forall rx : GpsReceiver,
        tracked_satellite_ids_to_processing_pipelines
          (snd (fst (_perform_acquisition rx)))
        = tracked_satellite_ids_to_processing_pipelines rx
        /\ (fst (fst (_perform_acquisition rx)) = Ok tt
            <-> (length (rolling_samples_buffer rx)
                   < ACQUISITION_INTEGRATION_PERIOD_MS)%nat
                \/ detect_satellites_in_antenna_data
                     (satellite_ids_eligible_for_acquisition rx)
                     (concat (rolling_samples_buffer rx)) = []))
  /\ (forall rx : GpsReceiver,
        map fst (tracked_satellite_ids_to_processing_pipelines (snd (fst (step rx))))
        = map fst (tracked_satellite_ids_to_processing_pipelines rx)).
Proof.
  split; [exact pipeline_init_raises |].
  split; [| intros rx; apply step_preserves].
  intros rx.
  pose proof (_perform_acquisition_cases rx) as Hcases. cbv zeta in Hcases.
  destruct Hcases as (r & -> & Hok & _). cbn [fst snd].
  split; [reflexivity |].
  rewrite Hok. rewrite Nat.leb_gt. reflexivity.
Qed.


(** The receiver of the example does not reach the integrator: the tracker
    call raises [TypeError] and the step logs nothing. *)
Lemma tracking_one_log :
  @logged ReceiverExamples.low_confidence ReceiverExamples.tracking_one = [].
Proof. reflexivity. Qed.

Lemma tracking_one_step :
  fst (fst (@step ReceiverExamples.low_confidence ReceiverExamples.tracking_one))
  = Raise TypeError.
Proof. reflexivity. Qed.

(** C10, as amended.  A step of the receiver goes into acquisition if and
    only if the number of tracked satellites is below 1, the threshold the
    source hard-codes; the search proper runs if and only if, in addition,
    the rolling buffer holds the 20 windows of the integration period once
    the window of this step is appended. *)
Theorem C10_acquisition_when_nothing_is_tracked `{Collaborators} (rx : GpsReceiver) :
  (enters_acquisition rx = true
   <-> (length (tracked_satellite_ids_to_processing_pipelines rx) < 1)%nat)
  /\ (runs_acquisition_search rx = true
      <-> (length (tracked_satellite_ids_to_processing_pipelines rx) < 1)%nat
          /\ (ACQUISITION_INTEGRATION_PERIOD_MS
                <= length (rolling_samples_buffer rx) + 1)%nat).
Proof.
  split; [apply enters_acquisition_iff | apply runs_acquisition_search_iff].
Qed.

(** C10 counterexample: a receiver that tracks one satellite, fewer than
    the target of 4, and whose step neither goes into acquisition nor runs
    a search; and a receiver that has just started, tracks nothing, and
    whose first step runs no search because its buffer is not primed. *)
Lemma C10_counterexample :
  ((length (tracked_satellite_ids_to_processing_pipelines
              ReceiverExamples.tracking_one) < 4)%nat
   /\ @enters_acquisition ReceiverExamples.low_confidence
        ReceiverExamples.tracking_one = false
   /\ @runs_acquisition_search ReceiverExamples.low_confidence
        ReceiverExamples.tracking_one = false)
  /\ ((length (tracked_satellite_ids_to_processing_pipelines
                 ReceiverExamples.just_started) < 4)%nat
      /\ @runs_acquisition_search ReceiverExamples.low_confidence
           ReceiverExamples.just_started = false).
Proof.
  split.
  - split; [simpl; lia |].
    unfold enters_acquisition, runs_acquisition_search.
    rewrite tracking_one_log. split; reflexivity.
  - split; [simpl; lia |].
    destruct (@runs_acquisition_search ReceiverExamples.low_confidence
                ReceiverExamples.just_started) eqn:Hruns; [| reflexivity].
    apply runs_acquisition_search_iff in Hruns as [_ Hprimed].
    unfold ACQUISITION_INTEGRATION_PERIOD_MS in Hprimed. simpl in Hprimed. lia.
Qed.

End ReceiverTheorems.

(** The handler and the event loop at a concrete pipeline. *)
Section ReceiverTheoremsAtExamples.
Import Np Receiver AcquisitionSpec ReceiverSpec ReceiverRunSpec.
Local Open Scope R_scope.
#[local] Existing Instance ReceiverExamples.low_confidence.


End ReceiverTheoremsAtExamples.

(** * More of the code *)

(** ** Bit values and pseudosymbols *)

Section BitClaims.

(** X1.  [BitValue.from_val] and [BitValue.as_val] are inverse to each
    other where they are defined: [from_val] accepts exactly 0 and 1,
    [as_val] rejects [UNKNOWN]; and [inverted] is an involution that swaps
    the two known values and rejects [UNKNOWN] with [ValueError]. *)
Theorem X1_bit_value_codec :
  (forall (val : Z) (b : Bits.BitValue),
     Bits.from_val val = Ok b <-> Bits.as_val b = Ok val)
  /\ (forall val : Z,
        Bits.from_val val = Raise KeyError <-> val <> 0%Z /\ val <> 1%Z)
  /\ (forall b : Bits.BitValue,
        match Bits.inverted b with
        | Ok b' =>
            Bits.inverted b' = Ok b
            /\ exists v v', Bits.as_val b = Ok v /\ Bits.as_val b' = Ok v'
                            /\ (v + v' = 1)%Z
        | Raise e => e = ValueError /\ b = Bits.UNKNOWN
        end).
Proof.
  split; [| split].
  - intros val b. unfold Bits.from_val, Bits.as_val.
    destruct (Z.eqb_spec val 0) as [->|H0]; [destruct b; split; congruence |].
    destruct (Z.eqb_spec val 1) as [->|H1]; [destruct b; split; congruence |].
    destruct b; split; intros Heq; inversion Heq; congruence.
  - intros val. unfold Bits.from_val.
    destruct (Z.eqb_spec val 0) as [->|H0]; [split; [discriminate | intros []; congruence] |].
    destruct (Z.eqb_spec val 1) as [->|H1]; [split; [discriminate | intros []; congruence] |].
    split; auto.
  - intros []; simpl; auto.
    + split; [reflexivity |]. exists 0%Z, 1%Z. auto.
    + split; [reflexivity |]. exists 1%Z, 0%Z. auto.
Qed.

(** X2.  [NavigationBitPseudosymbol.from_val] and [as_val] are inverse to
    each other: [from_val] returns a pseudosymbol exactly for the values
    that [as_val] produces, -1 and 1, and raises [KeyError] for every other
    integer. *)
Theorem X2_pseudosymbol_codec :
  (forall (val : Z) (s : Tracker.NavigationBitPseudosymbol),
     Tracker.from_val val = Ok s <-> Tracker.as_val s = val)
  /\ (forall val : Z,
        Tracker.from_val val = Raise KeyError <-> val <> (-1)%Z /\ val <> 1%Z).
Proof.
  split.
  - intros val s. unfold Tracker.from_val, Tracker.as_val.
    destruct (Z.eqb_spec val (-1)) as [->|Hm]; [destruct s; split; congruence |].
    destruct (Z.eqb_spec val 1) as [->|Hp]; [destruct s; split; congruence |].
    destruct s; split; intros Heq; try discriminate; congruence.
  - intros val. unfold Tracker.from_val.
    destruct (Z.eqb_spec val (-1)) as [->|Hm];
      [split; [discriminate | intros []; congruence] |].
    destruct (Z.eqb_spec val 1) as [->|Hp];
      [split; [discriminate | intros []; congruence] |].
    split; auto.
Qed.

End BitClaims.

(** ** [chunks] *)

Section ChunkClaims.
Import Utils.

Lemma firstn_plus {A} (a b : nat) (l : list A) :
  firstn (a + b) l = firstn a l ++ firstn b (skipn a l).
Proof.
  revert l. induction a as [|a IH]; intros l; [reflexivity |].
  destruct l as [|x l]; [simpl; rewrite firstn_nil; reflexivity |].
  simpl. rewrite IH. reflexivity.
Qed.

Lemma concat_slices {A} (l : list A) (s k : nat) :
  concat (map (fun i => slice l i (i + s)) (map (fun q => q * s)%nat (seq 0 k)))
  = firstn (k * s) l.
Proof.
  induction k as [|k IH]; [reflexivity |].
  rewrite seq_S, !map_app, concat_app, IH. cbn [map concat].
  rewrite app_nil_r. unfold slice.
  replace (0 + k) with k by lia.
  replace (k * s + s - k * s) with s by lia.
  replace (S k * s) with (k * s + s) by lia.
  symmetry. apply firstn_plus.
Qed.

(** the number of chunks *)
Lemma chunk_count (len s q : nat) :
  0 < s -> q < (len + s - 1) / s <-> q * s < len.
Proof.
  intros Hs.
  pose proof (Nat.div_mod_eq (len + s - 1) s) as Hdiv.
  pose proof (Nat.mod_upper_bound (len + s - 1) s ltac:(lia)) as Hmod.
  set (k := (len + s - 1) / s) in *. set (r := (len + s - 1) mod s) in *.
  split; intros H; nia.
Qed.

(** X3.  For a positive chunk size, the chunks of a list, concatenated in
    the order they are yielded, give the list back. *)
Theorem X3_chunks_concat {A} (li : list A) (chunk_size : Z) :
  (0 < chunk_size)%Z ->
  exists yielded, chunks li chunk_size = Ok yielded /\ concat yielded = li.
Proof.
  intros Hpos. unfold chunks, range0.
  destruct (Z.eqb_spec chunk_size 0) as [H0|_]; [lia |].
  destruct (Z.ltb_spec chunk_size 0) as [Hneg|_]; [lia |].
  eexists. split; [reflexivity |].
  set (s := Z.to_nat chunk_size). assert (Hs : 0 < s) by (unfold s; lia).
  rewrite concat_slices. apply firstn_all2.
  set (k := (length li + s - 1) / s).
  destruct (Nat.le_gt_cases (length li) (k * s)) as [Hle|Hgt]; [exact Hle |].
  exfalso.
  pose proof (proj2 (chunk_count (length li) s k Hs) Hgt) as Hk.
  unfold k in Hk. lia.
Qed.

(** X3 witness: five elements in chunks of two. *)
Lemma X3_witness :
  exists yielded,
    chunks [1%Z; 2%Z; 3%Z; 4%Z; 5%Z] 2 = Ok yielded
    /\ concat yielded = [1%Z; 2%Z; 3%Z; 4%Z; 5%Z].
Proof. apply (X3_chunks_concat [1%Z; 2%Z; 3%Z; 4%Z; 5%Z] 2). lia. Defined.

(** X4.  [chunks] raises [ValueError] exactly for the chunk size 0 and
    yields nothing for a negative one.  For a positive chunk size it yields
    ceil(len / chunk_size) chunks, none of them empty, none longer than the
    chunk size, and all but the last of exactly that size. *)
Theorem X4_chunks_shape {A} (li : list A) (chunk_size : Z) :
  match chunks li chunk_size with
  | Raise e => e = ValueError /\ chunk_size = 0%Z
  | Ok yielded =>
      chunk_size <> 0%Z
      /\ ((chunk_size < 0)%Z -> yielded = [])
      /\ ((0 < chunk_size)%Z ->
          length yielded
          = (length li + Z.to_nat chunk_size - 1) / Z.to_nat chunk_size
          /\ forall i chunk,
               nth_error yielded i = Some chunk ->
               0 < length chunk <= Z.to_nat chunk_size
               /\ (S i < length yielded -> length chunk = Z.to_nat chunk_size))
  end.
Proof.
  unfold chunks, range0.
  destruct (Z.eqb_spec chunk_size 0) as [H0|H0]; [auto |].
  destruct (Z.ltb_spec chunk_size 0) as [Hneg|Hnneg].
  - cbn [map]. split; [exact H0 |]. split; [reflexivity | lia].
  - split; [exact H0 |]. split; [lia |]. intros Hpos.
    set (s := Z.to_nat chunk_size). assert (Hs : 0 < s) by (unfold s; lia).
    rewrite !length_map, length_seq. split; [reflexivity |].
    intros i chunk Hnth.
    rewrite map_map, nth_error_map in Hnth.
    assert (Hi : i < (length li + s - 1) / s).
    { destruct (Nat.lt_ge_cases i ((length li + s - 1) / s)) as [Hlt|Hge];
        [exact Hlt |].
      rewrite (proj2 (nth_error_None _ _)) in Hnth by (rewrite length_seq; exact Hge).
      discriminate. }
    rewrite nth_error_seq in Hnth.
    destruct (Nat.ltb_spec i ((length li + s - 1) / s)) as [_|Hge]; [| lia].
    cbn [option_map Nat.add] in Hnth. inversion Hnth as [Hchunk]. clear Hnth.
    subst chunk. unfold slice.
    rewrite length_firstn, length_skipn.
    pose proof (proj1 (chunk_count (length li) s i Hs) Hi) as Hlt.
    split; [lia |].
    intros Hnext.
    pose proof (proj1 (chunk_count (length li) s (S i) Hs) Hnext) as Hlt'.
    lia.
Qed.

End ChunkClaims.

(** ** More about a tracking step *)

Section StepFields.
Import Np Tracker TrackerSpec TrackerStepSpec.
Local Open Scope R_scope.
Context {zeros : SignedZeros}.

Variable frequency_domain_correlation :
  list complex -> list complex -> result (list complex).

Lemma argmax_from_bound (l : list R) (best_i i : nat) (best : R) :
  (best_i < i)%nat -> (argmax_from best_i best i l < i + length l)%nat.
Proof.
  revert best_i i best. induction l as [|x l IH]; intros best_i i best Hlt;
    [simpl; lia |].
  simpl. destruct (Rlt_dec best x).
  - specialize (IH i (S i) x ltac:(lia)). lia.
  - specialize (IH best_i (S i) best ltac:(lia)). lia.
Qed.

(** [np.argmax] fails exactly on the empty array, and its result is an
    index of the array *)
Lemma argmax_spec (l : list R) :
  match argmax l with
  | None => l = []
  | Some k => (k < length l)%nat
  end.
Proof.
  destruct l as [|x l]; [reflexivity |].
  simpl. pose proof (argmax_from_bound l 0 1 x ltac:(lia)). lia.
Qed.

Lemma _test5_fields (self : GpsSatelliteTracker) (profile : list complex)
    (sample : complex) :
  let self' := _test5 self profile sample in
  _is self' = _is self /\ _qs self' = _qs self
  /\ iq_angles self' = iq_angles self ++ [arctan2 (imag sample) (real sample)]
  /\ carrier_phases self' = carrier_phases self
  /\ phase_errors self' = phase_errors self
  /\ loop_bandwidth self' = loop_bandwidth self
  /\ loop_gain_phase self' = loop_gain_phase self
  /\ loop_gain_freq self' = loop_gain_freq self
  /\ time_domain_for_1ms self' = time_domain_for_1ms self.
Proof.
  unfold _test5.
  destruct (_is_locked self);
    destruct (_calculate_loop_filter_alpha_and_beta _) as [alpha beta];
    repeat split; reflexivity.
Qed.

(** [a * b] raises exactly when the lengths differ and neither is 1, and
    it raises [ValueError] *)
Lemma multiply_raises (a b : list complex) :
  match multiply a b with
  | Ok _ => length a = length b \/ length a = 1%nat \/ length b = 1%nat
  | Raise e =>
      e = ValueError
      /\ length a <> length b /\ length a <> 1%nat /\ length b <> 1%nat
  end.
Proof.
  unfold multiply. destruct (Nat.eqb_spec (length a) (length b)) as [Heq|Hne];
    [left; exact Heq |].
  destruct a as [|x [|x' a]]; destruct b as [|y [|y' b]]; cbn [length] in *;
    try (right; left; reflexivity); try (right; right; reflexivity);
    repeat split; try reflexivity; try exact Hne; discriminate.
Qed.

(** the two later products raise nothing but [ValueError] *)
Lemma prn_wipe_off_raises (self : GpsSatelliteTracker) (seconds_since_start : R)
    (samples d : list complex) (e : exn) :
  doppler_shifted_samples self seconds_since_start samples = Ok d ->
  prn_wipe_off self seconds_since_start samples = Raise e -> e = ValueError.
Proof.
  intros Hd. unfold prn_wipe_off. rewrite Hd.
  pose proof (multiply_raises samples (prompt_prn self)) as H1.
  pose proof (multiply_raises d (prompt_prn self)) as H2.
  destruct (multiply samples (prompt_prn self)) as [w|e1].
  - destruct (multiply d (prompt_prn self)) as [x|e2]; [discriminate |].
    intros Heq. inversion Heq. subst e2. apply H2.
  - intros Heq. inversion Heq. subst e1. apply H1.
Qed.

Lemma length_elementwise (a b : list complex) :
  length a = length b -> length (elementwise a b) = length a.
Proof.
  revert b. induction a as [|x a IH]; intros [|y b] Hlen;
    try discriminate; [reflexivity |].
  cbn [elementwise length]. f_equal. apply IH.
  cbn [length] in Hlen. lia.
Qed.

(** the shape of a product that is computed *)
Lemma multiply_shape (a b c : list complex) :
  multiply a b = Ok c ->
  (length a = length b /\ length c = length a)
  \/ (length a = 1%nat /\ length c = length b)
  \/ (length b = 1%nat /\ length c = length a).
Proof.
  unfold multiply. destruct (Nat.eqb_spec (length a) (length b)) as [Heq|Hne].
  - intros Hc. inversion Hc. left. split; [exact Heq |].
    apply length_elementwise, Heq.
  - destruct a as [|x [|x' a]]; destruct b as [|y [|y' b]]; intros Hc;
      try discriminate; try (exfalso; apply Hne; reflexivity);
      inversion Hc; cbn [length]; rewrite ?length_map;
      first [right; left; split; reflexivity | right; right; split; reflexivity].
Qed.

(** With the correlation of the spec, a profile that is computed leaves
    nothing for the two later products to raise: the shapes the
    correlation accepts are those the products accept. *)
Lemma profile_gives_prn_wipe_off (self : GpsSatelliteTracker) (seconds_since_start : R)
    (samples profile : list complex) :
  coherent_prompt_correlation Tracker.frequency_domain_correlation
    self seconds_since_start samples = Ok profile ->
  prn_wipe_off self seconds_since_start samples = Ok tt.
Proof.
  unfold coherent_prompt_correlation, prn_wipe_off.
  destruct (doppler_shifted_samples self seconds_since_start samples) as [d|e] eqn:Hd;
    [| discriminate].
  unfold doppler_shifted_samples in Hd. apply multiply_shape in Hd.
  unfold Tracker.frequency_domain_correlation.
  pose proof (multiply_raises (fft d) (map Cconj (fft (prompt_prn self)))) as Hf.
  rewrite length_map, !length_fft in Hf.
  destruct (multiply (fft d) (map Cconj (fft (prompt_prn self)))) as [product|e];
    [| discriminate].
  intros _.
  pose proof (multiply_raises samples (prompt_prn self)) as H1.
  pose proof (multiply_raises d (prompt_prn self)) as H2.
  destruct (multiply samples (prompt_prn self)) as [w|e1].
  - destruct (multiply d (prompt_prn self)) as [x|e2]; [reflexivity |].
    exfalso. lia.
  - exfalso. lia.
Qed.

(** The tracker after a step that ran to its end, every field of it. *)
Lemma process_samples_fields (self : GpsSatelliteTracker) (seconds_since_start : R)
    (samples profile : list complex) (k : nat) :
  coherent_prompt_correlation frequency_domain_correlation
    self seconds_since_start samples = Ok profile ->
  argmax (map abs profile) = Some k ->
  prn_wipe_off self seconds_since_start samples = Ok tt ->
  let peak := nth k profile C0 in
  let value := int (sign (real peak)) in
  let self' :=
    snd (process_samples frequency_domain_correlation self seconds_since_start samples) in
  let p := tracking_params self in
  let p' := tracking_params self' in
  let window_ends := Rle_bool 4.99 (fmod seconds_since_start 5) in
  let second_ends := Req_bool (fmod seconds_since_start 1) 0 in
  satellite p' = satellite p
  /\ navigation_bit_pseudosymbols p' = navigation_bit_pseudosymbols p ++ [value]
  /\ doppler_shifts p' = doppler_shifts p ++ [current_doppler_shift p']
  /\ carrier_wave_phases p' = carrier_wave_phases p ++ [current_carrier_wave_phase_shift p']
  /\ carrier_wave_phase_errors p'
     = (if window_ends then []
        else carrier_wave_phase_errors p ++ [real peak * imag peak])
  /\ _is self' = (if second_ends then [] else _is self ++ [real peak])
  /\ _qs self' = (if second_ends then [] else _qs self ++ [imag peak])
  /\ iq_angles self'
     = (if second_ends then []
        else iq_angles self ++ [arctan2 (imag peak) (real peak)])
  /\ carrier_phases self'
     = (if second_ends then []
        else carrier_phases self ++ [current_carrier_wave_phase_shift p'])
  /\ phase_errors self' = phase_errors self
  /\ loop_bandwidth self' = loop_bandwidth self
  /\ loop_gain_phase self' = loop_gain_phase self
  /\ loop_gain_freq self' = loop_gain_freq self
  /\ time_domain_for_1ms self' = time_domain_for_1ms self.
Proof.
  intros Hprofile Hk Hwipe peak value self' p p' window_ends second_ends.
  subst self' p'.
  rewrite (process_samples_parts frequency_domain_correlation
             self seconds_since_start samples profile k Hprofile Hk Hwipe).
  cbv zeta. fold peak. cbn [snd].
  pose proof (_test5_params (before_loop self k peak) profile peak) as Hparams.
  pose proof (_test5_fields (before_loop self k peak) profile peak) as Hfields.
  cbv zeta in Hparams, Hfields.
  destruct Hfields as (Hi & Hq & Hang & Hcp & Hpe & Hbw & Hgp & Hgf & Htd).
  set (after := _test5 (before_loop self k peak) profile peak) in *.
  unfold after_loop. fold window_ends. fold second_ends.
  destruct window_ends; destruct second_ends;
    cbn [snd tracking_params satellite navigation_bit_pseudosymbols doppler_shifts
         carrier_wave_phases carrier_wave_phase_errors current_doppler_shift
         current_carrier_wave_phase_shift _is _qs iq_angles carrier_phases
         phase_errors loop_bandwidth loop_gain_phase loop_gain_freq
         time_domain_for_1ms
         set_tracking_params set_carrier_wave_phase_errors set_carrier_wave_phases
         set_doppler_shifts set_carrier_phases set_iq_angles set_qs set_is];
    rewrite ?Hparams, ?Hi, ?Hq, ?Hang, ?Hcp, ?Hpe, ?Hbw, ?Hgp, ?Hgf, ?Htd;
    repeat split; reflexivity.
Qed.

Lemma profile_argmax (profile : list complex) :
  profile <> [] -> exists k, argmax (map abs profile) = Some k.
Proof.
  intros Hne. pose proof (argmax_spec (map abs profile)) as Hspec.
  destruct (argmax _) as [k|]; [exists k; reflexivity |].
  apply map_eq_nil in Hspec. contradiction.
Qed.

End StepFields.

(** ** Claims about a tracking step *)

Section StepClaims.
Import Np Tracker TrackerSpec TrackerStepSpec TrackerVariants.
Local Open Scope R_scope.
Context {zeros : SignedZeros}.

(** X5.  When [process_samples] raises [ValueError].  It does so exactly
    in three cases: the correlation profile cannot be computed for a
    [ValueError], the profile is empty, or the profile is not empty and one
    of the two later products with the prompt replica raises.  In the
    first two cases the tracker is left as it was.  The product of the
    window with the carrier replica is among what can raise: it raises
    [ValueError] exactly when the window and the time axis differ in length
    and neither has length 1. *)
Theorem X5_when_a_step_raises_ValueError
    (frequency_domain_correlation : list complex -> list complex -> result (list complex))
    (self : GpsSatelliteTracker) (seconds_since_start : R) (samples : list complex) :
  let profile_of_step :=
    coherent_prompt_correlation frequency_domain_correlation
      self seconds_since_start samples in
  let r := process_samples frequency_domain_correlation
             self seconds_since_start samples in
  (fst r = Raise ValueError
   <-> profile_of_step = Raise ValueError
       \/ profile_of_step = Ok []
       \/ (exists profile, profile_of_step = Ok profile /\ profile <> []
             /\ prn_wipe_off self seconds_since_start samples = Raise ValueError))
  /\ (profile_of_step = Raise ValueError \/ profile_of_step = Ok [] -> snd r = self)
  /\ (doppler_shifted_samples self seconds_since_start samples = Raise ValueError
      <-> length samples <> length (time_domain_for_1ms self)
          /\ length samples <> 1%nat /\ length (time_domain_for_1ms self) <> 1%nat)
  /\ (forall e, doppler_shifted_samples self seconds_since_start samples = Raise e ->
      profile_of_step = Raise e).
Proof.
  intros profile_of_step r. subst profile_of_step r.
  rewrite process_samples_cases.
  split; [| split; [| split]].
  - destruct (coherent_prompt_correlation frequency_domain_correlation
                self seconds_since_start samples) as [profile|e] eqn:Hprofile.
    + pose proof (argmax_spec (map abs profile)) as Hspec.
      destruct (argmax (map abs profile)) as [k|] eqn:Hk.
      * rewrite length_map in Hspec.
        assert (Hne : profile <> [])
          by (intros Hnil; rewrite Hnil in Hspec; cbn in Hspec; lia).
        cbv zeta.
        destruct (prn_wipe_off self seconds_since_start samples) as [[]|e] eqn:Hwipe;
          cbn [fst].
        -- split.
           ++ unfold from_val. repeat destruct (_ =? _)%Z; discriminate.
           ++ intros [Hr | [Hr | (q & Hq & _ & Hw)]]; try discriminate.
              inversion Hr. contradiction.
        -- split.
           ++ intros Hr. right. right. exists profile.
              inversion Hr. repeat split. exact Hne.
           ++ intros [Hr | [Hr | (q & Hq & _ & Hw)]]; try discriminate;
                [inversion Hr; contradiction | inversion Hw; reflexivity].
      * apply map_eq_nil in Hspec. subst profile. cbn [fst].
        split; [intros _; right; left; reflexivity | reflexivity].
    + cbn [fst]. split.
      * intros Hr. left. inversion Hr. reflexivity.
      * intros [Hr | [Hr | (q & Hq & _)]];
          [inversion Hr; reflexivity | discriminate | discriminate].
  - intros [Hr | Hr]; rewrite Hr; reflexivity.
  - unfold doppler_shifted_samples.
    pose proof (multiply_raises samples (doppler_shift_carrier self seconds_since_start))
      as Hmul.
    rewrite length_doppler_shift_carrier in Hmul.
    destruct (multiply samples (doppler_shift_carrier self seconds_since_start))
      as [d|e].
    + split; [discriminate | intros (H1 & H2 & H3); destruct Hmul as [?|[?|?]]; contradiction].
    + destruct Hmul as (-> & Hmul). split; [intros _; exact Hmul | reflexivity].
  - intros e He. unfold coherent_prompt_correlation. rewrite He. reflexivity.
Qed.

(** X6.  A step that computes a correlation profile, not empty, and the
    two later products appends exactly one entry to each of the three
    histories of the tracking parameters, also when it ends in [KeyError]:
    the pseudosymbol value, which is that of the returned pseudosymbol and
    is 0 when the call raises; the Doppler shift and the carrier phase the
    step arrived at.  The satellite is not touched. *)
Theorem X6_step_appends_to_histories
    (frequency_domain_correlation : list complex -> list complex -> result (list complex))
    (self : GpsSatelliteTracker) (seconds_since_start : R)
    (samples profile : list complex) :
  coherent_prompt_correlation frequency_domain_correlation
    self seconds_since_start samples = Ok profile ->
  profile <> [] ->
  prn_wipe_off self seconds_since_start samples = Ok tt ->
  let r := process_samples frequency_domain_correlation self seconds_since_start samples in
  let p := tracking_params self in
  let p' := tracking_params (snd r) in
  satellite p' = satellite p
  /\ doppler_shifts p' = doppler_shifts p ++ [current_doppler_shift p']
  /\ carrier_wave_phases p' = carrier_wave_phases p ++ [current_carrier_wave_phase_shift p']
  /\ exists value : Z,
       navigation_bit_pseudosymbols p' = navigation_bit_pseudosymbols p ++ [value]
       /\ (forall s, fst r = Ok s -> value = as_val s)
       /\ (fst r = Raise KeyError <-> value = 0%Z)
       /\ (value = (-1)%Z \/ value = 0%Z \/ value = 1%Z).
Proof.
  intros Hprofile Hne Hwipe r p p'.
  destruct (profile_argmax profile Hne) as (k & Hk).
  destruct (process_samples_fields frequency_domain_correlation
              self seconds_since_start samples profile k Hprofile Hk Hwipe)
    as (Hsat & Hsym & Hdop & Hph & _).
  destruct (process_samples_carrier frequency_domain_correlation
              self seconds_since_start samples profile k Hprofile Hk Hwipe)
    as (Hr & _).
  cbv zeta in Hsat, Hsym, Hdop, Hph, Hr.
  split; [exact Hsat |]. split; [exact Hdop |]. split; [exact Hph |].
  eexists. split; [exact Hsym |].
  subst r. rewrite Hr, int_sign. unfold from_val.
  destruct (Rlt_dec 0 _); [| destruct (Rlt_dec _ 0)]; simpl;
    (split; [intros s Hs; inversion Hs; reflexivity |]);
    (split; [split; intros; discriminate || reflexivity || lia |]); auto.
Qed.

(** X7.  A step that runs to its end keeps the prompt I and Q values
    paired.  With P the prompt peak, the entry of the correlation profile
    at the offset [np.argmax] finds: when the step falls on a whole second,
    [_is] and [_qs] are both emptied, together with the angles and carrier
    phases; otherwise [_is] receives the real part of P, [_qs] its
    imaginary part, [iq_angles] its angle and [carrier_phases] the carrier
    phase the step arrived at; so lists of equal length stay of equal
    length. *)
Theorem X7_prompt_values_stay_paired
    (frequency_domain_correlation : list complex -> list complex -> result (list complex))
    (self : GpsSatelliteTracker) (seconds_since_start : R)
    (samples profile : list complex) (k : nat) :
  coherent_prompt_correlation frequency_domain_correlation
    self seconds_since_start samples = Ok profile ->
  argmax (map abs profile) = Some k ->
  prn_wipe_off self seconds_since_start samples = Ok tt ->
  let peak := nth k profile C0 in
  let self' :=
    snd (process_samples frequency_domain_correlation self seconds_since_start samples) in
  (fmod seconds_since_start 1 = 0 ->
   _is self' = [] /\ _qs self' = [] /\ iq_angles self' = [] /\ carrier_phases self' = [])
  /\ (fmod seconds_since_start 1 <> 0 ->
      _is self' = _is self ++ [real peak]
      /\ _qs self' = _qs self ++ [imag peak]
      /\ iq_angles self' = iq_angles self ++ [arctan2 (imag peak) (real peak)]
      /\ carrier_phases self'
         = carrier_phases self
           ++ [current_carrier_wave_phase_shift (tracking_params self')])
  /\ (length (_is self) = length (_qs self) -> length (_is self') = length (_qs self')).
Proof.
  intros Hprofile Hk Hwipe peak self'.
  destruct (process_samples_fields frequency_domain_correlation
              self seconds_since_start samples profile k Hprofile Hk Hwipe)
    as (_ & _ & _ & _ & _ & Hi & Hq & Hang & Hcp & _).
  cbv zeta in Hi, Hq, Hang, Hcp. fold peak in Hi, Hq, Hang, Hcp.
  fold self' in Hi, Hq, Hang, Hcp.
  unfold Req_bool in *.
  destruct (Req_dec_T (fmod seconds_since_start 1) 0) as [Hz|Hnz].
  - split; [auto |]. split; [intros; contradiction |].
    intros _. rewrite Hi, Hq. reflexivity.
  - split; [intros; contradiction |]. split.
    + intros _. repeat split; assumption.
    + intros Hlen. rewrite Hi, Hq, !length_app, Hlen. reflexivity.
Qed.

(** X8.  A step that runs to its end in the last hundredth of a
    five-second window (seconds since start modulo 5 at least 4.99)
    empties the history of carrier phase errors, so that the tracker it
    leaves is not locked; any other such step appends to that history the
    Costas error I * Q of the prompt peak, the entry of the correlation
    profile at the offset [np.argmax] finds. *)
Theorem X8_window_end_drops_lock
    (frequency_domain_correlation : list complex -> list complex -> result (list complex))
    (self : GpsSatelliteTracker) (seconds_since_start : R)
    (samples profile : list complex) (k : nat) :
  coherent_prompt_correlation frequency_domain_correlation
    self seconds_since_start samples = Ok profile ->
  argmax (map abs profile) = Some k ->
  prn_wipe_off self seconds_since_start samples = Ok tt ->
  let peak := nth k profile C0 in
  let self' :=
    snd (process_samples frequency_domain_correlation self seconds_since_start samples) in
  (4.99 <= fmod seconds_since_start 5 ->
   carrier_wave_phase_errors (tracking_params self') = []
   /\ _is_locked self' = false)
  /\ (~ 4.99 <= fmod seconds_since_start 5 ->
      carrier_wave_phase_errors (tracking_params self')
      = carrier_wave_phase_errors (tracking_params self) ++ [real peak * imag peak]).
Proof.
  intros Hprofile Hk Hwipe peak self'.
  destruct (process_samples_fields frequency_domain_correlation
              self seconds_since_start samples profile k Hprofile Hk Hwipe)
    as (_ & _ & _ & _ & Herr & _).
  cbv zeta in Herr. fold peak in Herr. fold self' in Herr.
  unfold Rle_bool in Herr.
  destruct (Rle_dec 4.99 (fmod seconds_since_start 5)) as [Hend|Hnot].
  - split; [| intros; contradiction].
    intros _. split; [exact Herr |].
    unfold _is_locked. rewrite Herr. reflexivity.
  - split; [intros; contradiction |].
    intros _. exact Herr.
Qed.

Lemma fmod_small (x y : R) : 0 <= x < y -> fmod x y = x.
Proof.
  intros [Hlo Hhi]. unfold fmod.
  rewrite (Zfloor_eq 0 (x / y)); [simpl; ring |].
  assert (Hy : 0 < y) by lra.
  split.
  - apply Rmult_le_pos; [exact Hlo | left; apply Rinv_0_lt_compat; exact Hy].
  - simpl. rewrite Rplus_0_l. apply (Rmult_lt_reg_r y); [exact Hy |].
    unfold Rdiv. rewrite Rmult_assoc, Rinv_l by lra. lra.
Qed.

(** the window end of the witness of X8 is a real one, and its other
    witness lies inside a second *)
Lemma window_end_at_4995 : 4.99 <= fmod 4.995 5.
Proof. rewrite fmod_small; lra. Qed.

Lemma inside_a_second : fmod 0.5 1 <> 0.
Proof. rewrite fmod_small; lra. Qed.

End StepClaims.

(** ** The loop bandwidth of the constructor, and lock detection *)

Section LoopClaims.
Import Np Tracker TrackerSpec TrackerStepSpec TrackerVariants.
Local Open Scope R_scope.
Context {zeros : SignedZeros}.

Lemma _test5_with_loop (b g1 g2 : R) (self : GpsSatelliteTracker)
    (profile : list complex) (sample : complex) :
  _test5 (with_loop b g1 g2 self) profile sample
  = with_loop b g1 g2 (_test5 self profile sample).
Proof.
  unfold _test5.
  change (_is_locked (with_loop b g1 g2 self)) with (_is_locked self).
  destruct (_is_locked self);
    destruct (_calculate_loop_filter_alpha_and_beta _) as [alpha beta]; reflexivity.
Qed.

(** X9.  [process_samples] does not use the loop bandwidth given to the
    constructor, nor the two gains the constructor computes from it: with
    other values in these three fields the step returns the same result and
    leaves the same tracker, those fields apart. *)
Theorem X9_constructor_gains_are_not_used
    (frequency_domain_correlation : list complex -> list complex -> result (list complex))
    (bandwidth gain_phase gain_freq : R)
    (self : GpsSatelliteTracker) (seconds_since_start : R) (samples : list complex) :
  process_samples frequency_domain_correlation
    (with_loop bandwidth gain_phase gain_freq self) seconds_since_start samples
  = (fst (process_samples frequency_domain_correlation self seconds_since_start samples),
     with_loop bandwidth gain_phase gain_freq
       (snd (process_samples frequency_domain_correlation
               self seconds_since_start samples))).
Proof.
  rewrite !process_samples_cases.
  change (coherent_prompt_correlation frequency_domain_correlation
            (with_loop bandwidth gain_phase gain_freq self) seconds_since_start samples)
    with (coherent_prompt_correlation frequency_domain_correlation
            self seconds_since_start samples).
  change (prn_wipe_off (with_loop bandwidth gain_phase gain_freq self)
            seconds_since_start samples)
    with (prn_wipe_off self seconds_since_start samples).
  destruct (coherent_prompt_correlation frequency_domain_correlation
              self seconds_since_start samples) as [profile|e]; [| reflexivity].
  destruct (argmax (map abs profile)) as [k|]; [| reflexivity].
  cbv zeta. set (peak := nth k profile C0).
  destruct (prn_wipe_off self seconds_since_start samples) as [[]|e];
    [| reflexivity].
  cbn [fst snd].
  change (before_loop (with_loop bandwidth gain_phase gain_freq self) k peak)
    with (with_loop bandwidth gain_phase gain_freq (before_loop self k peak)).
  rewrite _test5_with_loop.
  generalize (_test5 (before_loop self k peak) profile peak). intros after.
  f_equal. unfold after_loop.
  destruct (Rle_bool 4.99 (fmod seconds_since_start 5));
    destruct (Req_bool (fmod seconds_since_start 1) 0); reflexivity.
Qed.

Lemma last_n_app {A} (n : nat) (older recent : list A) :
  (n <= length recent)%nat -> last_n n (older ++ recent) = last_n n recent.
Proof.
  intros Hn. unfold last_n. rewrite length_app, skipn_app.
  rewrite skipn_all2 by lia. cbn [app]. f_equal. lia.
Qed.

(** X10.  Lock detection looks at the last 250 carrier phase errors only:
    with at least 250 errors recorded, any older errors put in front of the
    history do not change what [_is_locked] returns. *)
Theorem X10_lock_ignores_older_phase_errors (self : GpsSatelliteTracker) (older : list R) :
  (250 <= length (carrier_wave_phase_errors (tracking_params self)))%nat ->
  _is_locked
    (set_tracking_params
       (set_carrier_wave_phase_errors
          (older ++ carrier_wave_phase_errors (tracking_params self))
          (tracking_params self))
       self)
  = _is_locked self.
Proof.
  intros Hlen. unfold _is_locked.
  cbn [tracking_params set_tracking_params carrier_wave_phase_errors
       set_carrier_wave_phase_errors _is _qs].
  rewrite length_app, (last_n_app 250 older _ Hlen).
  destruct (Nat.ltb_spec (length older
                          + length (carrier_wave_phase_errors (tracking_params self))) 250);
    [lia |].
  destruct (Nat.ltb_spec (length (carrier_wave_phase_errors (tracking_params self))) 250);
    [lia |].
  reflexivity.
Qed.

End LoopClaims.

(** The properties of a tracking step at a millisecond of silence, with
    floats whose zeros are positive. *)
Section StepClaimsAtExamples.
Import Np Tracker TrackerSpec TrackerStepSpec TrackerVariants.
Local Open Scope R_scope.
#[local] Existing Instance Examples.positive_zeros.

Lemma silence_profile_not_empty : repeat C0 2046 <> [].
Proof. discriminate. Qed.

(** X6 witness: a millisecond of silence. *)
Lemma X6_witness :
  let r := process_samples frequency_domain_correlation
             Examples.fresh_tracker 0 Examples.silence in
  let p := tracking_params Examples.fresh_tracker in
  let p' := tracking_params (snd r) in
  satellite p' = satellite p
  /\ doppler_shifts p' = doppler_shifts p ++ [current_doppler_shift p']
  /\ carrier_wave_phases p' = carrier_wave_phases p ++ [current_carrier_wave_phase_shift p']
  /\ exists value : Z,
       navigation_bit_pseudosymbols p' = navigation_bit_pseudosymbols p ++ [value]
       /\ (forall s, fst r = Ok s -> value = as_val s)
       /\ (fst r = Raise KeyError <-> value = 0%Z)
       /\ (value = (-1)%Z \/ value = 0%Z \/ value = 1%Z).
Proof.
  exact (X6_step_appends_to_histories frequency_domain_correlation
           Examples.fresh_tracker 0 Examples.silence (repeat C0 2046)
           (coherent_prompt_correlation_silence 0) silence_profile_not_empty
           (prn_wipe_off_silence 0)).
Defined.

(** X7 witness: a millisecond of silence half a second after the start. *)
Lemma X7_witness :
  let peak := nth 0 (repeat C0 2046) C0 in
  let self' :=
    snd (process_samples frequency_domain_correlation
           Examples.fresh_tracker 0.5 Examples.silence) in
  (fmod 0.5 1 = 0 ->
   _is self' = [] /\ _qs self' = [] /\ iq_angles self' = [] /\ carrier_phases self' = [])
  /\ (fmod 0.5 1 <> 0 ->
      _is self' = _is Examples.fresh_tracker ++ [real peak]
      /\ _qs self' = _qs Examples.fresh_tracker ++ [imag peak]
      /\ iq_angles self'
         = iq_angles Examples.fresh_tracker ++ [arctan2 (imag peak) (real peak)]
      /\ carrier_phases self'
         = carrier_phases Examples.fresh_tracker
           ++ [current_carrier_wave_phase_shift (tracking_params self')])
  /\ (length (_is Examples.fresh_tracker) = length (_qs Examples.fresh_tracker) ->
      length (_is self') = length (_qs self')).
Proof.
  exact (X7_prompt_values_stay_paired frequency_domain_correlation
           Examples.fresh_tracker 0.5 Examples.silence (repeat C0 2046) 0
           (coherent_prompt_correlation_silence 0.5) argmax_silence
           (prn_wipe_off_silence 0.5)).
Defined.

(** X8 witness: a millisecond of silence 4.995 s after the start. *)
Lemma X8_witness :
  let peak := nth 0 (repeat C0 2046) C0 in
  let self' :=
    snd (process_samples frequency_domain_correlation
           Examples.fresh_tracker 4.995 Examples.silence) in
  (4.99 <= fmod 4.995 5 ->
   carrier_wave_phase_errors (tracking_params self') = []
   /\ _is_locked self' = false)
  /\ (~ 4.99 <= fmod 4.995 5 ->
      carrier_wave_phase_errors (tracking_params self')
      = carrier_wave_phase_errors (tracking_params Examples.fresh_tracker)
        ++ [real peak * imag peak]).
Proof.
  exact (X8_window_end_drops_lock frequency_domain_correlation
           Examples.fresh_tracker 4.995 Examples.silence (repeat C0 2046) 0
           (coherent_prompt_correlation_silence 4.995) argmax_silence
           (prn_wipe_off_silence 4.995)).
Defined.

(** X10 witness: a tracker with 250 ms of history. *)
Lemma X10_witness :
  _is_locked
    (set_tracking_params
       (set_carrier_wave_phase_errors
          ([7; 8; 9]
           ++ carrier_wave_phase_errors (tracking_params Examples.rotated_tracker))
          (tracking_params Examples.rotated_tracker))
       Examples.rotated_tracker)
  = _is_locked Examples.rotated_tracker.
Proof.
  apply (X10_lock_ignores_older_phase_errors Examples.rotated_tracker [7; 8; 9]).
  cbn [Examples.rotated_tracker tracking_params set_qs set_is set_tracking_params
       carrier_wave_phase_errors set_carrier_wave_phase_errors].
  rewrite repeat_length. apply Nat.le_refl.
Defined.

End StepClaimsAtExamples.

(** ** A clean constellation *)

Section CleanLock.
Import Np Tracker TrackerSpec.
Local Open Scope R_scope.
Context {zeros : SignedZeros}.

Lemma Forall_eq_repeat {A} (c : A) (l : list A) :
  Forall (fun x => x = c) l -> l = repeat c (length l).
Proof.
  induction 1 as [|x l Hx _ IH]; [reflexivity |].
  simpl. rewrite Hx, <- IH. reflexivity.
Qed.

Lemma var_constant (c : R) (l : list R) :
  l <> [] -> Forall (fun x => x = c) l -> var l = Some 0.
Proof.
  intros Hne Hall. rewrite (Forall_eq_repeat c l Hall).
  destruct l as [|x l]; [contradiction |]. apply var_repeat.
Qed.

Lemma filter_nonempty {A} (f : A -> bool) (x : A) (l : list A) :
  In x l -> f x = true -> List.filter f l <> [].
Proof.
  intros Hin Hf Hnil.
  assert (Hx : In x (List.filter f l)) by (apply filter_In; auto).
  rewrite Hnil in Hx. destruct Hx.
Qed.

Lemma Forall_filter_eq {A} (P : A -> Prop) (f : A -> bool) (c : A) (l : list A) :
  Forall P l -> (forall x, P x -> f x = true -> x = c) ->
  Forall (fun x => x = c) (List.filter f l).
Proof.
  intros Hall Hc. apply List.Forall_forall. intros x Hx.
  apply filter_In in Hx as [Hin Hf].
  apply Hc; [| exact Hf]. exact (proj1 (List.Forall_forall _ _) Hall x Hin).
Qed.

Lemma In_last_n {A} (x : A) (n : nat) (l : list A) : In x (last_n n l) -> In x l.
Proof.
  intros Hx. unfold last_n in Hx. rewrite <- (firstn_skipn (length l - n) l).
  apply in_or_app. right. exact Hx.
Qed.

Lemma Forall_last_n {A} (P : A -> Prop) (n : nat) (l : list A) :
  Forall P l -> Forall P (last_n n l).
Proof.
  intros Hall. apply List.Forall_forall. intros x Hx.
  exact (proj1 (List.Forall_forall _ _) Hall x (In_last_n x n l Hx)).
Qed.

Lemma Csum_repeat (c : complex) (n : nat) :
  Csum (repeat c n) = Cx (INR n * real c) (INR n * imag c).
Proof.
  induction n as [|n IH]; [simpl; unfold C0; f_equal; ring |].
  change (Csum (repeat c (S n))) with (Cadd c (Csum (repeat c n))).
  rewrite IH, S_INR. unfold Cadd. simpl. f_equal; ring.
Qed.

Lemma Cmean_constant (c : complex) (l : list complex) :
  l <> [] -> Forall (fun x => x = c) l -> Cmean l = Some c.
Proof.
  intros Hne Hall. rewrite (Forall_eq_repeat c l Hall).
  destruct l as [|x l]; [contradiction |].
  unfold Cmean. change (repeat c (length (x :: l))) with (c :: repeat c (length l)) at 1.
  cbv iota. rewrite Csum_repeat, repeat_length. destruct c as [re im].
  unfold Cscale. cbn [real imag]. f_equal.
  assert (Hn : INR (length (x :: l)) <> 0) by (apply not_0_INR; discriminate).
  f_equal; field; exact Hn.
Qed.

Lemma In_combine_l {A B} (x : A) (l : list A) (l' : list B) :
  length l' = length l -> In x l -> exists y, In (x, y) (combine l l').
Proof.
  revert l'. induction l as [|a l IH]; intros l' Hlen Hin; [destruct Hin |].
  destruct l' as [|b l']; [discriminate |].
  destruct Hin as [->|Hin].
  - exists b. left. reflexivity.
  - destruct (IH l' ltac:(simpl in Hlen; lia) Hin) as (y & Hy).
    exists y. right. exact Hy.
Qed.

Lemma centered_angle_on_the_axis (a : R) :
  0 < a -> LockSpec.centered_angle (Cx (- a) 0) = 0.
Proof.
  intros Ha. unfold LockSpec.centered_angle, arctan2. cbn [real imag].
  destruct (Rlt_dec 0 (- a)) as [H|_]; [lra |].
  destruct (Rlt_dec (- a) 0) as [_|H]; [| lra].
  destruct (Rlt_dec 0 0) as [H|_]; [lra |].
  destruct (y_is_negative_zero 0 (- a)).
  - replace (- PI / tau * 360) with (-180) by (unfold tau; field; apply PI_neq0).
    unfold fmod. replace (-180 / 180) with (IZR (-1)) by (field).
    rewrite ZfloorZ.
    replace (180 - (-180 - 180 * -1)) with 180 by lra.
    destruct (Rlt_dec 180 90) as [H|_]; lra.
  - replace (PI / tau * 360) with 180 by (unfold tau; field; apply PI_neq0).
    unfold fmod. replace (180 / 180) with (IZR 1) by (field).
    rewrite ZfloorZ.
    replace (180 - (180 - 180 * 1)) with 180 by lra.
    destruct (Rlt_dec 180 90) as [H|_]; lra.
Qed.

(** X11.  A clean constellation is reported locked: with at least 250
    carrier phase errors recorded, the last 250 of them zero, every prompt
    value at I = a or I = -a with Q = 0 for some amplitude a > 0, and both
    poles present among the last 250 prompt values, [_is_locked] returns
    true. *)
Theorem X11_clean_constellation_is_locked (self : GpsSatelliteTracker) (a : R) :
  0 < a ->
  (250 <= length (carrier_wave_phase_errors (tracking_params self)))%nat ->
  Forall (fun e => e = 0) (last_n 250 (carrier_wave_phase_errors (tracking_params self))) ->
  Forall (fun i => i = a \/ i = - a) (_is self) ->
  Forall (fun q => q = 0) (_qs self) ->
  length (_qs self) = length (_is self) ->
  In a (last_n 250 (_is self)) ->
  In (- a) (last_n 250 (_is self)) ->
  _is_locked self = true.
Proof.
  intros Ha Hlen Herr Hi Hq Heq Hpos Hneg.
  unfold _is_locked.
  destruct (Nat.ltb_spec (length (carrier_wave_phase_errors (tracking_params self))) 250)
    as [Hlt|_]; [lia |].
  cbv zeta. rewrite !andb_true_iff. repeat split.
  - apply nan_lt_true. exists 0. split; [| lra].
    apply (var_constant 0); [| exact Herr].
    intros Hnil. apply (f_equal (@length R)) in Hnil.
    unfold last_n in Hnil. rewrite length_skipn in Hnil. simpl in Hnil. lia.
  - destruct (2 <? length (_is self))%nat; [| reflexivity].
    apply half_variances_true. exists 0, 0. repeat split; [| | lra].
    + apply (var_constant a).
      * apply (filter_nonempty _ a); [exact Hpos |]. apply Rle_bool_true. lra.
      * apply (Forall_filter_eq (fun i => i = a \/ i = - a)).
        -- apply Forall_last_n, Hi.
        -- intros x [->| ->] Hx; [reflexivity |].
           apply Rle_bool_true in Hx. lra.
    + apply (var_constant (- a)).
      * apply (filter_nonempty _ (- a)); [exact Hneg |]. apply Rlt_bool_true. lra.
      * apply (Forall_filter_eq (fun i => i = a \/ i = - a)).
        -- apply Forall_last_n, Hi.
        -- intros x [->| ->] Hx; [| reflexivity].
           apply Rlt_bool_true in Hx. lra.
  - rewrite length_map.
    destruct (2 <? length (combine (_is self) (_qs self)))%nat; [| reflexivity].
    apply rotation_test_true. exists (Cx (- a) 0). split.
    + apply Cmean_constant.
      * destruct (In_combine_l (- a) (_is self) (_qs self) Heq (In_last_n _ _ _ Hneg))
          as (q & Hq0).
        apply (filter_nonempty _ (Cx (- a) q)).
        -- apply in_map_iff. exists (- a, q). split; [reflexivity | exact Hq0].
        -- apply Rlt_bool_true. simpl. lra.
      * apply (Forall_filter_eq (fun p => (real p = a \/ real p = - a) /\ imag p = 0)).
        -- apply List.Forall_forall. intros p Hp.
           apply in_map_iff in Hp as ([i q] & <- & Hiq). cbn [fst snd real imag].
           split.
           ++ apply in_combine_l in Hiq.
              pose proof (proj1 (List.Forall_forall _ _) Hi i Hiq) as H. exact H.
           ++ apply in_combine_r in Hiq.
              exact (proj1 (List.Forall_forall _ _) Hq q Hiq).
        -- intros [re im] [[Hre|Hre] Him] Hx; cbn [real imag] in *; subst.
           ++ apply Rlt_bool_true in Hx. lra.
           ++ reflexivity.
    + rewrite (centered_angle_on_the_axis a Ha), Rabs_R0. lra.
Qed.

End CleanLock.

Section CleanLockAtExamples.
Import Np Tracker TrackerSpec.
Local Open Scope R_scope.
#[local] Existing Instance Examples.positive_zeros.

(** X11 witness: a constellation of two prompt values, one at each pole. *)
Lemma X11_witness : _is_locked MoreExamples.clean_tracker = true.
Proof.
  apply (X11_clean_constellation_is_locked MoreExamples.clean_tracker 1).
  - lra.
  - cbn [MoreExamples.clean_tracker tracking_params set_qs set_is set_tracking_params
         carrier_wave_phase_errors set_carrier_wave_phase_errors].
    rewrite repeat_length. apply Nat.le_refl.
  - cbn [MoreExamples.clean_tracker tracking_params set_qs set_is set_tracking_params
         carrier_wave_phase_errors set_carrier_wave_phase_errors].
    apply Forall_last_n. apply List.Forall_forall. intros x Hx.
    apply repeat_spec in Hx. exact Hx.
  - cbn [MoreExamples.clean_tracker _is set_qs set_is].
    repeat constructor; right; reflexivity.
  - cbn [MoreExamples.clean_tracker _qs set_qs]. repeat constructor.
  - reflexivity.
  - cbn [MoreExamples.clean_tracker _is set_qs set_is]. left. reflexivity.
  - cbn [MoreExamples.clean_tracker _is set_qs set_is]. right. left. reflexivity.
Defined.

End CleanLockAtExamples.

(** ** The carrier loop *)

Section CarrierLoop.
Import Np Tracker TrackerSpec TrackerStepSpec TrackerVariants.
Local Open Scope R_scope.
Context {zeros : SignedZeros}.

Lemma gains_of_pos (self : GpsSatelliteTracker) :
  0 < fst (gains_of self) /\ 0 < snd (gains_of self).
Proof.
  assert (Hs : 0 < 1 / sqrt 2).
  { apply Rdiv_lt_0_compat; [lra |]. apply sqrt_lt_R0. lra. }
  unfold gains_of.
  destruct (_is_locked self); unfold _calculate_loop_filter_alpha_and_beta;
    cbv zeta; cbn [fst snd]; unfold SAMPLES_PER_SECOND; split; nra.
Qed.

(** X12.  The Doppler estimate follows the Costas discriminator: over a
    step that runs to its end it rises exactly when I * Q of the prompt
    peak is positive, falls exactly when I * Q is negative, and stays
    exactly when the peak lies on an axis, in which case a carrier phase
    that was in [0, 2 pi) stays as well.  The prompt peak is the entry of
    the correlation profile at the offset [np.argmax] finds. *)
Theorem X12_doppler_follows_the_discriminator
    (frequency_domain_correlation : list complex -> list complex -> result (list complex))
    (self : GpsSatelliteTracker) (seconds_since_start : R)
    (samples profile : list complex) (k : nat) :
  coherent_prompt_correlation frequency_domain_correlation
    self seconds_since_start samples = Ok profile ->
  argmax (map abs profile) = Some k ->
  prn_wipe_off self seconds_since_start samples = Ok tt ->
  let peak := nth k profile C0 in
  let e := real peak * imag peak in
  let p := tracking_params self in
  let p' :=
    tracking_params
      (snd (process_samples frequency_domain_correlation
              self seconds_since_start samples)) in
  (current_doppler_shift p < current_doppler_shift p' <-> 0 < e)
  /\ (current_doppler_shift p' < current_doppler_shift p <-> e < 0)
  /\ (current_doppler_shift p' = current_doppler_shift p <-> e = 0)
  /\ (e = 0 -> 0 <= current_carrier_wave_phase_shift p < tau ->
      current_carrier_wave_phase_shift p' = current_carrier_wave_phase_shift p).
Proof.
  intros Hprofile Hk Hwipe peak e p p'.
  destruct (process_samples_carrier frequency_domain_correlation
              self seconds_since_start samples profile k Hprofile Hk Hwipe)
    as (_ & Hphase & Hdoppler).
  cbv zeta in Hphase, Hdoppler. fold peak in Hphase, Hdoppler.
  rewrite _test5_params in Hphase, Hdoppler.
  cbn [current_doppler_shift current_carrier_wave_phase_shift tracking_params
       before_loop set_qs set_is set_tracking_params set_navigation_bit_pseudosymbols
       set_current_prn_code_phase_shift] in Hphase, Hdoppler.
  fold e in Hphase, Hdoppler. fold p in Hphase, Hdoppler.
  subst p'. rewrite Hphase, Hdoppler.
  match type of Hdoppler with
  | context [gains_of ?m] =>
      destruct (gains_of_pos m) as [Halpha Hbeta]; destruct (gains_of m) as [alpha beta]
  end.
  cbn [fst snd] in *. clear Hphase Hdoppler.
  split; [| split; [| split]].
  - split; intros H; nra.
  - split; intros H; nra.
  - split; intros H; nra.
  - intros He Hrange. rewrite He, Rmult_0_l, Rplus_0_r. apply fmod_small. exact Hrange.
Qed.

Lemma arctan2_bounds (y x : R) : - PI <= arctan2 y x <= PI.
Proof.
  pose proof PI_RGT_0 as Hpi.
  pose proof (atan_bound (y / x)) as [Hlo Hhi].
  unfold arctan2.
  destruct (Rlt_dec 0 x) as [Hx|Hx]; [lra |].
  destruct (Rlt_dec x 0) as [Hx'|Hx'].
  - destruct (Rlt_dec 0 y) as [Hy|Hy].
    + assert (Hq : y / x < 0).
      { unfold Rdiv. replace 0 with (y * 0) by ring.
        apply Rmult_lt_compat_l; [exact Hy |].
        apply Rinv_lt_0_compat. exact Hx'. }
      assert (Ha : atan (y / x) < 0).
      { rewrite <- atan_0. apply atan_increasing. exact Hq. }
      lra.
    + destruct (Rlt_dec y 0) as [Hy'|Hy'].
      * assert (Hq : 0 < y / x).
        { unfold Rdiv. replace (y * / x) with ((- y) * (- / x)) by ring.
          apply Rmult_lt_0_compat; [lra |].
          apply Ropp_0_gt_lt_contravar. apply Rinv_lt_0_compat. exact Hx'. }
        assert (Ha : 0 < atan (y / x)).
        { rewrite <- atan_0. apply atan_increasing. exact Hq. }
        lra.
      * destruct (y_is_negative_zero y x); lra.
  - destruct (Rlt_dec 0 y); [lra |]. destruct (Rlt_dec y 0); [lra |].
    destruct (x_is_negative_zero y x); [| lra].
    destruct (y_is_negative_zero y x); lra.
Qed.

(** X13.  Every variant of the carrier loop leaves the carrier phase in
    [0, 2 pi): [_adjust_tracking_parameters_via_correlation_profile] and
    [_follow_carrier_via_correlation_profile] always, [_test2] whenever its
    sample index is in range, and [_test3] and [_test4] whenever they are
    given at least one sample; given no sample, [_test3] and [_test4] leave
    the tracker as it is. *)
Theorem X13_carrier_loops_keep_the_phase_in_range
    (self : GpsSatelliteTracker) (profile : list complex) (peak : complex)
    (samples : list complex) (sample_offset : Z) :
  let in_range (t : GpsSatelliteTracker) :=
    0 <= current_carrier_wave_phase_shift (tracking_params t) < tau in
  in_range (_adjust_tracking_parameters_via_correlation_profile self peak)
  /\ in_range (_follow_carrier_via_correlation_profile self profile peak)
  /\ (forall after, _test2 self samples sample_offset = Some after -> in_range after)
  /\ (samples <> [] -> in_range (_test3 self samples) /\ in_range (_test4 self samples))
  /\ _test3 self [] = self /\ _test4 self [] = self.
Proof.
  intros in_range. subst in_range. cbv beta.
  split; [| split; [| split; [| split; [| split; reflexivity]]]].
  - unfold _adjust_tracking_parameters_via_correlation_profile. cbv zeta.
    cbn [tracking_params set_tracking_params current_carrier_wave_phase_shift
         set_current_carrier_wave_phase_shift].
    apply fmod_bounds, tau_pos.
  - unfold _follow_carrier_via_correlation_profile. cbv zeta.
    cbn [tracking_params set_tracking_params current_carrier_wave_phase_shift
         set_current_carrier_wave_phase_shift].
    apply fmod_bounds, tau_pos.
  - intros after Hafter. unfold _test2 in Hafter.
    destruct (getitem samples sample_offset) as [sample|]; [| discriminate].
    inversion Hafter. subst after. clear Hafter.
    cbn [tracking_params set_tracking_params set_iq_angles
         current_carrier_wave_phase_shift set_carrier_wave_phase_errors
         set_current_doppler_shift set_current_carrier_wave_phase_shift].
    apply fmod_bounds, tau_pos.
  - intros Hne.
    assert (Hloop : forall xs i s,
      (0 <= current_carrier_wave_phase_shift (tracking_params s) < tau) ->
      0 <= current_carrier_wave_phase_shift
             (tracking_params (for_enumerate _test3_body i xs s)) < tau).
    { induction xs as [|x xs IH]; intros i s Hs; [exact Hs |].
      cbn [for_enumerate]. apply IH.
      unfold _test3_body. cbv zeta.
      destruct (i =? 0)%nat;
        cbn [tracking_params set_tracking_params set_iq_angles
             current_carrier_wave_phase_shift set_carrier_wave_phase_errors
             set_current_doppler_shift set_current_carrier_wave_phase_shift];
        apply fmod_bounds, tau_pos. }
    assert (H3 : 0 <= current_carrier_wave_phase_shift
                        (tracking_params (_test3 self samples)) < tau).
    { destruct samples as [|x xs]; [contradiction |].
      unfold _test3. cbn [for_enumerate]. apply Hloop.
      unfold _test3_body. cbv zeta. cbn [Nat.eqb].
      cbn [tracking_params set_tracking_params set_iq_angles
           current_carrier_wave_phase_shift set_carrier_wave_phase_errors
           set_current_doppler_shift set_current_carrier_wave_phase_shift].
      apply fmod_bounds, tau_pos. }
    split; [exact H3 | exact H3].
Qed.

(** X14.  [_follow_carrier_via_correlation_profile] records one phase
    error, the angle of the peak, which lies in [-pi, pi]; so one call
    moves the Doppler estimate by at most a quarter of a hertz, either way,
    and not at all when the peak lies on the positive real axis. *)
Theorem X14_follow_carrier_slew_is_bounded
    (self : GpsSatelliteTracker) (profile : list complex) (peak : complex) :
  let after := _follow_carrier_via_correlation_profile self profile peak in
  let moved :=
    current_doppler_shift (tracking_params after)
    - current_doppler_shift (tracking_params self) in
  (exists phase_error,
     phase_errors after = phase_errors self ++ [phase_error]
     /\ phase_error = arctan2 (imag peak) (real peak)
     /\ - PI <= phase_error <= PI
     /\ moved = phase_error / tau * 0.5)
  /\ - (1 / 4) <= moved <= 1 / 4
  /\ (0 < real peak -> imag peak = 0 -> moved = 0).
Proof.
  intros after moved. subst after moved.
  unfold _follow_carrier_via_correlation_profile. cbv zeta.
  cbn [tracking_params set_tracking_params set_phase_errors phase_errors
       current_doppler_shift set_current_carrier_wave_phase_shift
       set_current_doppler_shift].
  pose proof (arctan2_bounds (imag peak) (real peak)) as [Hlo Hhi].
  pose proof PI_RGT_0 as Hpi.
  assert (Hmoved : forall a d, d + a / tau * 0.5 - d = a / (4 * PI)).
  { intros a d. replace 0.5 with (1 / 2) by lra. unfold tau. field. lra. }
  split; [| split].
  - exists (arctan2 (imag peak) (real peak)).
    split; [reflexivity |]. split; [reflexivity |].
    split; [split; assumption |]. ring.
  - rewrite Hmoved. split.
    + apply (Rmult_le_reg_r (4 * PI)); [lra |].
      unfold Rdiv. rewrite Rmult_assoc, Rinv_l by lra. lra.
    + apply (Rmult_le_reg_r (4 * PI)); [lra |].
      unfold Rdiv. rewrite Rmult_assoc, Rinv_l by lra. lra.
  - intros Hre Him. rewrite Hmoved.
    unfold arctan2. destruct (Rlt_dec 0 (real peak)) as [_|Hn]; [| contradiction].
    rewrite Him. unfold Rdiv. rewrite !Rmult_0_l, atan_0. ring.
Qed.

Lemma _test3_rest (xs : list complex) (i : nat) (s : GpsSatelliteTracker) :
  let after := for_enumerate _test3_body (S i) xs s in
  current_doppler_shift (tracking_params after)
  = current_doppler_shift (tracking_params s)
    + sum (map (fun x => real x * imag x * 0.00001) xs)
  /\ carrier_wave_phase_errors (tracking_params after)
     = carrier_wave_phase_errors (tracking_params s)
  /\ iq_angles after = iq_angles s.
Proof.
  revert i s. induction xs as [|x xs IH]; intros i s.
  - cbn [for_enumerate map sum fold_right]. repeat split. ring.
  - cbn [for_enumerate]. cbv zeta.
    destruct (IH (S i) (_test3_body s (S i) x)) as (Hd & He & Ha).
    rewrite Hd, He, Ha.
    unfold _test3_body. cbv zeta. cbn [Nat.eqb].
    cbn [tracking_params set_tracking_params current_doppler_shift
         carrier_wave_phase_errors iq_angles set_current_doppler_shift
         set_current_carrier_wave_phase_shift map].
    repeat split. change (sum (?a :: ?l)) with (a + sum l). ring.
Qed.

(** X15.  [_test3] steers the carrier with every sample it is given, but
    records only the first: the Doppler estimate moves by 0.00001 times
    I * Q of each sample, while the histories of phase errors and of
    angles receive one entry, that of the first sample, and none when the
    window is empty.  [_test4] does the same. *)
Theorem X15_test3_steers_with_all_and_records_the_first
    (self : GpsSatelliteTracker) (samples : list complex) :
  let after := _test3 self samples in
  current_doppler_shift (tracking_params after)
  = current_doppler_shift (tracking_params self)
    + sum (map (fun x => real x * imag x * 0.00001) samples)
  /\ carrier_wave_phase_errors (tracking_params after)
     = carrier_wave_phase_errors (tracking_params self)
       ++ map (fun x => real x * imag x) (firstn 1 samples)
  /\ iq_angles after
     = iq_angles self ++ map (fun x => arctan2 (imag x) (real x)) (firstn 1 samples)
  /\ _test4 self samples = after.
Proof.
  intros after. subst after. split; [| split; [| split; [| reflexivity]]];
    (destruct samples as [|x xs];
     [cbn [_test3 for_enumerate firstn map sum fold_right];
      rewrite ?app_nil_r; try reflexivity; ring |]);
    unfold _test3; cbn [for_enumerate];
    destruct (_test3_rest xs 0 (_test3_body self 0 x)) as (Hd & He & Ha);
    cbv zeta in Hd, He, Ha; rewrite ?Hd, ?He, ?Ha;
    unfold _test3_body; cbv zeta; cbn [Nat.eqb];
    cbn [tracking_params set_tracking_params current_doppler_shift
         carrier_wave_phase_errors iq_angles set_current_doppler_shift
         set_current_carrier_wave_phase_shift set_carrier_wave_phase_errors
         set_iq_angles map firstn];
    try reflexivity.
  change (sum (?a :: ?l)) with (a + sum l). ring.
Qed.

Lemma getitem_spec {A} (a : list A) (i : Z) :
  let n := Z.of_nat (length a) in
  if ((- n <=? i) && (i <? n))%Z
  then exists x, getitem a i = Some x /\ nth_error a (Z.to_nat (i mod n)) = Some x
  else getitem a i = None.
Proof.
  intros n. unfold getitem. fold n.
  destruct (Z.leb_spec (- n) i) as [Hlo|Hlo];
    destruct (Z.ltb_spec i n) as [Hhi|Hhi];
    destruct (Z.leb_spec 0 i) as [H0|H0];
    destruct (Z.ltb_spec i 0) as [Hneg|Hneg];
    cbn [andb]; try reflexivity; try lia.
  - rewrite Z.mod_small by lia.
    destruct (nth_error a (Z.to_nat i)) as [x|] eqn:Hx; [exists x; auto |].
    apply nth_error_None in Hx. lia.
  - replace (i mod n)%Z with (n + i)%Z.
    2: { apply (Z.mod_unique i n (-1) (n + i)); lia. }
    destruct (nth_error a (Z.to_nat (n + i))) as [x|] eqn:Hx; [exists x; auto |].
    apply nth_error_None in Hx. lia.
Qed.

(** X16.  [_test2] reads one sample by its index, as Python does: an index
    below minus the length or not below the length raises [IndexError],
    and any other index, counted from the end when it is negative, gives
    the sample whose I * Q is appended to the phase-error history and moves
    the Doppler estimate by 0.0001 times it, and whose angle is appended to
    [iq_angles]. *)
Theorem X16_test2_reads_one_sample
    (self : GpsSatelliteTracker) (samples : list complex) (sample_offset : Z) :
  let n := Z.of_nat (length samples) in
  (_test2 self samples sample_offset = None
   <-> (sample_offset < - n \/ n <= sample_offset)%Z)
  /\ (forall after, _test2 self samples sample_offset = Some after ->
      exists sample,
        nth_error samples (Z.to_nat (sample_offset mod n)) = Some sample
        /\ carrier_wave_phase_errors (tracking_params after)
           = carrier_wave_phase_errors (tracking_params self)
             ++ [real sample * imag sample]
        /\ iq_angles after
           = iq_angles self ++ [arctan2 (imag sample) (real sample)]
        /\ current_doppler_shift (tracking_params after)
           = current_doppler_shift (tracking_params self)
             + real sample * imag sample * 0.0001).
Proof.
  intros n. pose proof (getitem_spec samples sample_offset) as Hget.
  cbv zeta in Hget. fold n in Hget. unfold _test2.
  destruct (Z.leb_spec (- n) sample_offset) as [Hlo|Hlo];
    destruct (Z.ltb_spec sample_offset n) as [Hhi|Hhi]; cbn [andb] in Hget.
  - destruct Hget as (x & -> & Hnth). split.
    + split; [discriminate | lia].
    + intros after Hafter. inversion Hafter. subst after. clear Hafter.
      exists x. split; [exact Hnth |]. repeat split.
  - rewrite Hget. split; [split; [lia | reflexivity] | discriminate].
  - rewrite Hget. split; [split; [lia | reflexivity] | discriminate].
  - rewrite Hget. split; [split; [lia | reflexivity] | discriminate].
Qed.

End CarrierLoop.

Section CarrierLoopAtExamples.
Import Np Tracker TrackerSpec TrackerStepSpec TrackerVariants.
Local Open Scope R_scope.

(** both bounds of the slew are reached, at a peak on the negative real
    axis: the lower one when the imaginary part of the peak is [-0.0], the
    upper one when it is [0.0] *)
Lemma follow_carrier_slew_reaches_both_bounds
    (self : GpsSatelliteTracker) (profile : list complex) :
  let moved zeros :=
    current_doppler_shift
      (tracking_params
         (@_follow_carrier_via_correlation_profile zeros self profile (Cx (-1) 0)))
    - current_doppler_shift (tracking_params self) in
  moved Examples.negative_zeros = - (1 / 4)
  /\ moved Examples.positive_zeros = 1 / 4.
Proof.
  cbv zeta. unfold _follow_carrier_via_correlation_profile. cbv zeta.
  cbn [tracking_params set_tracking_params set_phase_errors phase_errors
       current_doppler_shift set_current_carrier_wave_phase_shift
       set_current_doppler_shift real imag].
  unfold arctan2.
  destruct (Rlt_dec 0 (-1)) as [Hn|_]; [lra |].
  destruct (Rlt_dec (-1) 0) as [_|Hn]; [| lra].
  destruct (Rlt_dec 0 0) as [Hn|_]; [lra |].
  cbn [y_is_negative_zero Examples.negative_zeros Examples.positive_zeros].
  replace 0.5 with (1 / 2) by lra.
  split; unfold tau; field; apply PI_neq0.
Qed.

#[local] Existing Instance Examples.positive_zeros.

(** X12 witness: a click heard by a tracker at rest. *)
Lemma X12_witness :
  let peak := nth 0 (map (ifft_ones_at 2046) (seq 0 2046)) C0 in
  let e := real peak * imag peak in
  let p := tracking_params Examples.click_tracker in
  let p' :=
    tracking_params
      (snd (process_samples frequency_domain_correlation
              Examples.click_tracker 0 Examples.click)) in
  (current_doppler_shift p < current_doppler_shift p' <-> 0 < e)
  /\ (current_doppler_shift p' < current_doppler_shift p <-> e < 0)
  /\ (current_doppler_shift p' = current_doppler_shift p <-> e = 0)
  /\ (e = 0 -> 0 <= current_carrier_wave_phase_shift p < tau ->
      current_carrier_wave_phase_shift p' = current_carrier_wave_phase_shift p).
Proof.
  exact (X12_doppler_follows_the_discriminator frequency_domain_correlation
           Examples.click_tracker 0 Examples.click
           (map (ifft_ones_at 2046) (seq 0 2046)) 0
           coherent_prompt_correlation_click argmax_click prn_wipe_off_click).
Defined.

(** X13 witness: the loops on a fresh tracker and one sample. *)
Lemma X13_witness :
  let in_range (t : GpsSatelliteTracker) :=
    0 <= current_carrier_wave_phase_shift (tracking_params t) < tau in
  in_range (_test3 Examples.fresh_tracker [Cx 1 1])
  /\ in_range (_test4 Examples.fresh_tracker [Cx 1 1]).
Proof.
  apply (X13_carrier_loops_keep_the_phase_in_range
           Examples.fresh_tracker [] C0 [Cx 1 1] 0).
  discriminate.
Defined.

End CarrierLoopAtExamples.

(** ** What the world model holds *)

Section WorldModelReadings.
Import WorldModel WorldModelSpec WorldModelAccessors.

Lemma handle_subframe_emitted_time (self : GpsWorldModel) (satellite_id other : Z)
    (subframe : NavigationMessageSubframe) :
  time_parameters_of (snd (handle_subframe_emitted self satellite_id subframe)) other
  = if decide (satellite_id = other)
    then match subframe with
         | Subframe1 s =>
             <[WEEK_NUMBER := Some (week_num s)]> (time_parameters_of self satellite_id)
         | _ => time_parameters_of self satellite_id
         end
    else time_parameters_of self other.
Proof.
  unfold handle_subframe_emitted, time_parameters_of, defaultdict_getitem.
  destruct (satellite_ids_to_orbital_parameters self !! satellite_id) as [o|] eqn:Ho;
    destruct (satellite_ids_to_time_parameters self !! satellite_id) as [t|] eqn:Ht;
    destruct subframe; cbn -[is_complete insert];
    destruct (decide (satellite_id = other)) as [->|Hne];
    rewrite ?lookup_insert_eq, ?lookup_insert_ne by exact Hne;
    rewrite ?Ht; try reflexivity.
Qed.

Lemma get_processed (subframe : NavigationMessageSubframe)
    (o : ParameterSet OrbitalParameterType R) (k : OrbitalParameterType) :
  _get_parameter_infallibly (processed subframe o) k
  = match broadcast k subframe with
    | Some v => Ok v
    | None => _get_parameter_infallibly o k
    end.
Proof.
  unfold _get_parameter_infallibly, processed, _process_subframe2, _process_subframe3.
  destruct subframe; destruct k; cbn [fst broadcast];
    repeat (rewrite lookup_insert_eq || rewrite lookup_insert_ne by discriminate);
    reflexivity.
Qed.

Lemma handle_subframes_cons (self : GpsWorldModel) (sat : Z)
    (subframe : NavigationMessageSubframe) (calls : list (Z * NavigationMessageSubframe)) :
  handle_subframes self ((sat, subframe) :: calls)
  = (fst (handle_subframe_emitted self sat subframe)
       ++ fst (handle_subframes (snd (handle_subframe_emitted self sat subframe)) calls),
     snd (handle_subframes (snd (handle_subframe_emitted self sat subframe)) calls)).
Proof.
  cbn [handle_subframes].
  destruct (handle_subframe_emitted self sat subframe) as [events self1].
  cbn [fst snd].
  destruct (handle_subframes self1 calls) as [events' self2]. reflexivity.
Qed.

(** What a run leaves readable, from any state of the model. *)
Lemma run_orbital_reading (calls : list (Z * NavigationMessageSubframe))
    (self : GpsWorldModel) (satellite_id : Z) (k : OrbitalParameterType) :
  _get_parameter_infallibly
    (orbital_parameters_of (snd (handle_subframes self calls)) satellite_id) k
  = match latest (broadcast k) satellite_id calls with
    | Some v => Ok v
    | None => _get_parameter_infallibly (orbital_parameters_of self satellite_id) k
    end.
Proof.
  revert self. induction calls as [|[sat subframe] calls IH]; intros self;
    [reflexivity |].
  rewrite handle_subframes_cons. cbn [snd latest].
  rewrite IH. destruct (latest (broadcast k) satellite_id calls) as [v|]; [reflexivity |].
  rewrite handle_subframe_emitted_orbital.
  destruct (decide (sat = satellite_id)) as [->|Hne].
  - rewrite bool_decide_eq_true_2 by reflexivity. apply get_processed.
  - rewrite bool_decide_eq_false_2 by exact Hne. reflexivity.
Qed.

Lemma run_week_reading (calls : list (Z * NavigationMessageSubframe))
    (self : GpsWorldModel) (satellite_id : Z) :
  week_number (time_parameters_of (snd (handle_subframes self calls)) satellite_id)
  = match latest broadcast_week satellite_id calls with
    | Some v => Ok v
    | None => week_number (time_parameters_of self satellite_id)
    end.
Proof.
  revert self. induction calls as [|[sat subframe] calls IH]; intros self;
    [reflexivity |].
  rewrite handle_subframes_cons. cbn [snd latest].
  rewrite IH. destruct (latest broadcast_week satellite_id calls) as [v|]; [reflexivity |].
  rewrite handle_subframe_emitted_time.
  destruct (decide (sat = satellite_id)) as [->|Hne].
  - rewrite bool_decide_eq_true_2 by reflexivity.
    destruct subframe; cbn [broadcast_week]; try reflexivity.
    unfold week_number, _get_parameter_infallibly. rewrite lookup_insert_eq. reflexivity.
  - rewrite bool_decide_eq_false_2 by exact Hne. reflexivity.
Qed.

Lemma fresh_orbital_reading (satellite_id : Z) (k : OrbitalParameterType) :
  _get_parameter_infallibly (orbital_parameters_of GpsWorldModel_init satellite_id) k
  = Raise RuntimeError.
Proof.
  unfold orbital_parameters_of, GpsWorldModel_init.
  cbn [satellite_ids_to_orbital_parameters]. rewrite lookup_empty. cbn [default].
  destruct k; reflexivity.
Qed.

(** X17.  After any run of calls on a fresh world model, each accessor of
    the orbital parameters of a satellite returns the value carried by the
    last subframe of that satellite that carries the parameter (subframe 2
    for the mean anomaly, the eccentricity and the semi-major axis, which is
    the square of the broadcast root; subframe 3 for the inclination, the
    argument of perigee and the longitude of the ascending node), whatever
    was handled for other satellites in between; until such a subframe has
    been handled the accessor raises [RuntimeError]. *)
Theorem X17_accessors_return_the_latest_broadcast
    (calls : list (Z * NavigationMessageSubframe)) (satellite_id : Z) :
  let o :=
    orbital_parameters_of (snd (handle_subframes GpsWorldModel_init calls)) satellite_id in
  let reading (k : OrbitalParameterType) : result R :=
    match latest (broadcast k) satellite_id calls with
    | Some v => Ok v
    | None => Raise RuntimeError
    end in
  semi_major_axis o = reading SEMI_MAJOR_AXIS
  /\ WorldModelAccessors.eccentricity o = reading ECCENTRICITY
  /\ inclination o = reading INCLINATION
  /\ WorldModelAccessors.longitude_of_ascending_node o = reading LONGITUDE_OF_ASCENDING_NODE
  /\ WorldModelAccessors.argument_of_perigee o = reading ARGUMENT_OF_PERIGEE
  /\ WorldModelAccessors.mean_anomaly_at_reference_time o
     = reading MEAN_ANOMALY_AT_REFERENCE_TIME.
Proof.
  intros o reading. subst o reading. cbv beta.
  unfold semi_major_axis, WorldModelAccessors.eccentricity, inclination,
    WorldModelAccessors.longitude_of_ascending_node,
    WorldModelAccessors.argument_of_perigee,
    WorldModelAccessors.mean_anomaly_at_reference_time.
  rewrite !run_orbital_reading, !fresh_orbital_reading. repeat split.
Qed.

(** X18.  After any run of calls on a fresh world model, [week_number] of
    the time parameters of a satellite returns the week number of the last
    subframe 1 handled for that satellite, and raises [RuntimeError] when
    none was; subframes 2 to 5 and the subframes of other satellites do not
    touch it. *)
Theorem X18_week_number_is_the_latest_broadcast
    (calls : list (Z * NavigationMessageSubframe)) (satellite_id : Z) :
  week_number
    (time_parameters_of (snd (handle_subframes GpsWorldModel_init calls)) satellite_id)
  = match latest broadcast_week satellite_id calls with
    | Some v => Ok v
    | None => Raise RuntimeError
    end.
Proof.
  rewrite run_week_reading.
  destruct (latest broadcast_week satellite_id calls); reflexivity.
Qed.

Lemma complete_stays_complete (calls : list (Z * NavigationMessageSubframe))
    (self : GpsWorldModel) (satellite_id : Z) :
  is_complete (orbital_parameters_of self satellite_id) = true ->
  is_complete (orbital_parameters_of (snd (handle_subframes self calls)) satellite_id)
  = true.
Proof.
  revert self. induction calls as [|[sat subframe] calls IH]; intros self Hc;
    [exact Hc |].
  rewrite handle_subframes_cons. cbn [snd]. apply IH.
  rewrite handle_subframe_emitted_orbital.
  destruct (decide (sat = satellite_id)) as [->|_];
    [apply processed_complete |]; exact Hc.
Qed.

(** The events of a run for one satellite, from any state of the model. *)
Lemma run_events (calls : list (Z * NavigationMessageSubframe))
    (self : GpsWorldModel) (satellite_id : Z) :
  let final := orbital_parameters_of (snd (handle_subframes self calls)) satellite_id in
  length (events_for satellite_id (fst (handle_subframes self calls)))
  = if negb (is_complete (orbital_parameters_of self satellite_id)) && is_complete final
    then 1%nat else 0%nat.
Proof.
  revert self. induction calls as [|[sat subframe] calls IH]; intros self.
  - cbn [handle_subframes fst snd events_for List.filter length].
    destruct (is_complete (orbital_parameters_of self satellite_id)); reflexivity.
  - cbv zeta. rewrite handle_subframes_cons. cbn [fst snd].
    unfold events_for. rewrite List.filter_app, length_app.
    fold (events_for satellite_id
            (fst (handle_subframes (snd (handle_subframe_emitted self sat subframe)) calls))).
    pose proof (IH (snd (handle_subframe_emitted self sat subframe))) as Hrest.
    cbv zeta in Hrest.
    pose proof (complete_stays_complete calls
                  (snd (handle_subframe_emitted self sat subframe)) satellite_id)
      as Hstays.
    rewrite handle_subframe_emitted_orbital in Hrest, Hstays.
    rewrite Hrest, handle_subframe_emitted_events. clear Hrest.
    destruct (decide (sat = satellite_id)) as [->|Hne].
    + pose proof (processed_complete subframe (orbital_parameters_of self satellite_id))
        as Hmono.
      destruct (is_complete (orbital_parameters_of self satellite_id)).
      * rewrite (Hmono eq_refl). reflexivity.
      * destruct (is_complete (processed subframe
                                 (orbital_parameters_of self satellite_id))).
        -- rewrite (Hstays eq_refl). cbn [negb andb List.filter event_satellite_id].
           rewrite bool_decide_eq_true_2 by reflexivity. reflexivity.
        -- reflexivity.
    + assert (Hhead : List.filter
                (fun e => bool_decide (event_satellite_id e = satellite_id))
                (if negb (is_complete (orbital_parameters_of self sat))
                    && is_complete (processed subframe (orbital_parameters_of self sat))
                 then [DeterminedSatelliteOrbitEvent sat
                         (processed subframe (orbital_parameters_of self sat))]
                 else []) = []).
      { destruct (_ && _); [| reflexivity].
        cbn [List.filter event_satellite_id].
        rewrite bool_decide_eq_false_2 by exact Hne. reflexivity. }
      rewrite Hhead. reflexivity.
Qed.

Lemma latest_is_Some {A} (pick : NavigationMessageSubframe -> option A)
    (kind : NavigationMessageSubframe -> bool) (satellite_id : Z)
    (calls : list (Z * NavigationMessageSubframe)) :
  (forall subframe, pick subframe <> None <-> kind subframe = true) ->
  latest pick satellite_id calls <> None <-> seen kind satellite_id calls = true.
Proof.
  intros Hkind. induction calls as [|[sat subframe] calls IH].
  - cbn. split; [congruence | discriminate].
  - cbn [latest seen existsb fst snd] in *.
    rewrite orb_true_iff, andb_true_iff, <- IH, <- Hkind.
    destruct (latest pick satellite_id calls) as [v|].
    + split; [intros _; right; discriminate | discriminate].
    + destruct (bool_decide (sat = satellite_id)).
      * split; [intros H; left; auto | intros [[_ H]|H]; [exact H | congruence]].
      * split; [congruence | intros [[H _]|H]; [discriminate | congruence]].
Qed.

Lemma broadcast_kind (k : OrbitalParameterType) (subframe : NavigationMessageSubframe) :
  broadcast k subframe <> None
  <-> (match k with
       | SEMI_MAJOR_AXIS | ECCENTRICITY | MEAN_ANOMALY_AT_REFERENCE_TIME => is_subframe2
       | _ => is_subframe3
       end) subframe = true.
Proof.
  destruct k, subframe; cbn; split; congruence.
Qed.

Lemma fresh_run_complete (calls : list (Z * NavigationMessageSubframe))
    (satellite_id : Z) :
  is_complete
    (orbital_parameters_of (snd (handle_subframes GpsWorldModel_init calls)) satellite_id)
  = seen is_subframe2 satellite_id calls && seen is_subframe3 satellite_id calls.
Proof.
  apply eq_true_iff_eq. rewrite andb_true_iff, is_complete_spec.
  assert (Hslot : forall k,
    orbital_parameters_of (snd (handle_subframes GpsWorldModel_init calls)) satellite_id
      !! k <> Some None
    <-> latest (broadcast k) satellite_id calls <> None).
  { intros k.
    pose proof (run_orbital_reading calls GpsWorldModel_init satellite_id k) as Hread.
    rewrite fresh_orbital_reading in Hread.
    unfold _get_parameter_infallibly in Hread.
    destruct (orbital_parameters_of _ _ !! k) as [[v|]|];
      destruct (latest (broadcast k) satellite_id calls) as [w|];
      split; congruence. }
  split.
  - intros Hall. split.
    + apply (latest_is_Some (broadcast SEMI_MAJOR_AXIS));
        [apply (broadcast_kind SEMI_MAJOR_AXIS) | apply Hslot, Hall].
    + apply (latest_is_Some (broadcast INCLINATION));
        [apply (broadcast_kind INCLINATION) | apply Hslot, Hall].
  - intros [H2 H3] k. apply Hslot.
    apply (latest_is_Some (broadcast k) _ satellite_id calls (broadcast_kind k)).
    destruct k; assumption.
Qed.

Lemma fresh_is_incomplete (satellite_id : Z) :
  is_complete (orbital_parameters_of GpsWorldModel_init satellite_id) = false.
Proof.
  unfold orbital_parameters_of, GpsWorldModel_init.
  cbn [satellite_ids_to_orbital_parameters]. rewrite lookup_empty. cbn [default].
  vm_compute. reflexivity.
Qed.

(** X19.  On a fresh world model, a run of calls returns exactly one
    [DeterminedSatelliteOrbitEvent] for a satellite when the run holds both
    a subframe 2 and a subframe 3 of that satellite, and none otherwise;
    which other subframes and which other satellites the run holds, and in
    which order, makes no difference. *)
Theorem X19_orbit_is_determined_by_subframes_2_and_3
    (calls : list (Z * NavigationMessageSubframe)) (satellite_id : Z) :
  length (events_for satellite_id (fst (handle_subframes GpsWorldModel_init calls)))
  = if seen is_subframe2 satellite_id calls && seen is_subframe3 satellite_id calls
    then 1%nat else 0%nat.
Proof.
  pose proof (run_events calls GpsWorldModel_init satellite_id) as Hrun.
  cbv zeta in Hrun.
  rewrite Hrun, fresh_run_complete, fresh_is_incomplete. reflexivity.
Qed.

(** X20.  The event is what makes the accessors safe: after any run of
    calls on a fresh world model, a [DeterminedSatelliteOrbitEvent] has been
    returned for a satellite if and only if every accessor of its orbital
    parameters returns a value; [is_complete] says the same of the set, and
    an accessor that fails raises [RuntimeError], never [KeyError]. *)
Theorem X20_accessors_are_safe_once_the_orbit_is_determined
    (calls : list (Z * NavigationMessageSubframe)) (satellite_id : Z) :
  let run := handle_subframes GpsWorldModel_init calls in
  let o := orbital_parameters_of (snd run) satellite_id in
  (events_for satellite_id (fst run) <> []
   <-> forall k, is_ok (_get_parameter_infallibly o k) = true)
  /\ (is_complete o = true
      <-> forall k, is_ok (_get_parameter_infallibly o k) = true)
  /\ (forall k, is_ok (_get_parameter_infallibly o k) = false ->
      _get_parameter_infallibly o k = Raise RuntimeError).
Proof.
  intros run o. subst run o.
  assert (Hread : forall k,
    is_ok (_get_parameter_infallibly
             (orbital_parameters_of (snd (handle_subframes GpsWorldModel_init calls))
                satellite_id) k) = true
    <-> orbital_parameters_of (snd (handle_subframes GpsWorldModel_init calls))
          satellite_id !! k <> Some None).
  { intros k.
    pose proof (run_orbital_reading calls GpsWorldModel_init satellite_id k) as Hread.
    rewrite fresh_orbital_reading in Hread.
    unfold _get_parameter_infallibly in *.
    destruct (orbital_parameters_of _ _ !! k) as [[v|]|];
      destruct (latest (broadcast k) satellite_id calls) as [w|];
      cbn [is_ok]; split; congruence. }
  assert (Hcomplete :
    is_complete (orbital_parameters_of (snd (handle_subframes GpsWorldModel_init calls))
                   satellite_id) = true
    <-> forall k,
        is_ok (_get_parameter_infallibly
                 (orbital_parameters_of (snd (handle_subframes GpsWorldModel_init calls))
                    satellite_id) k) = true).
  { rewrite is_complete_spec. split; intros Hall k; apply Hread, Hall. }
  split; [| split; [exact Hcomplete |]].
  - rewrite <- Hcomplete, fresh_run_complete.
    pose proof (run_events calls GpsWorldModel_init satellite_id) as Hcount.
    cbv zeta in Hcount.
    rewrite fresh_run_complete, fresh_is_incomplete in Hcount.
    cbn [negb andb] in Hcount.
    destruct (seen is_subframe2 satellite_id calls && seen is_subframe3 satellite_id calls);
      destruct (events_for satellite_id (fst (handle_subframes GpsWorldModel_init calls)));
      cbn [length] in Hcount; split; congruence.
  - intros k Hfail.
    pose proof (run_orbital_reading calls GpsWorldModel_init satellite_id k) as Hrun.
    rewrite fresh_orbital_reading in Hrun. rewrite Hrun in *.
    destruct (latest (broadcast k) satellite_id calls); [discriminate | reflexivity].
Qed.

End WorldModelReadings.

(** ** Runs of the receiver *)

Section ReceiverRuns.
Import Np Receiver AcquisitionSpec ReceiverSpec ReceiverRunSpec.
Context `{Collaborators}.

(** X21.  One call of the pipeline's [process_samples], in full.  When the
    tracker call raises, the exception goes to the caller, the pipeline
    keeps the tracker as the call left it, and neither the integrator nor
    the decoder is touched.  Otherwise the integrator is given the
    pseudosymbol and its events are handled in order, up to the first
    [CannotDetermineBitPhase] ([NotImplementedError]) or event of an unknown
    class ([UnknownEventError]); the decoder has received exactly the bits
    emitted before that event, in order, and one record is logged per
    handled event of a known class. *)
Theorem X21_pipeline_feeds_the_decoder_until_the_first_failure
    (samples : list complex) (sample_index : Z)
    (self : GpsSatelliteSignalProcessingPipeline) :
  process_samples samples sample_index self
  = let '(r, tracker') := tracker_process_samples (tracker self) samples sample_index in
    match r with
    | Raise e => (Raise e, set_tracker tracker' self, [])
    | Ok pseudosymbol =>
        let '(events, integrator) :=
          process_pseudosymbol (pseudosymbol_integrator self) pseudosymbol in
        (outcome events,
         set_navigation_message_decoder
           (feed (navigation_message_decoder self) (bits_of (handled events)))
           (set_pseudosymbol_integrator integrator (set_tracker tracker' self)),
         records_of (Tracker.satellite_id (satellite self)) (handled events))
    end.
Proof.
  unfold process_samples. run_M.
  destruct (tracker_process_samples (tracker self) samples sample_index) as [[sym|e] t];
    [| reflexivity].
  cbn [pseudosymbol_integrator set_tracker].
  destruct (process_pseudosymbol (pseudosymbol_integrator self) sym)
    as [events integrator].
  rewrite for_each_dispatch. reflexivity.
Qed.

Lemma acquire_result (acquisition_result : SatelliteAcquisitionAttemptResult)
    (self : GpsReceiver) :
  acquire acquisition_result self
  = (Raise (match satellites_by_id self !! satellite_id acquisition_result with
            | Some _ => TypeError
            | None => KeyError
            end), self, []).
Proof.
  unfold acquire. rewrite bind_unfold. simpl.
  destruct (satellites_by_id self !! satellite_id acquisition_result); reflexivity.
Qed.

Lemma set_tracked_same (rx : GpsReceiver) :
  set_tracked_satellite_ids_to_processing_pipelines
    (tracked_satellite_ids_to_processing_pipelines rx) rx = rx.
Proof. destruct rx. reflexivity. Qed.

Lemma buffered_more_fields (rx : GpsReceiver) :
  antenna_samples_provider (buffered rx)
  = snd (get_samples (antenna_samples_provider rx) SAMPLES_PER_PRN_TRANSMISSION)
  /\ rolling_samples_buffer (buffered rx)
     = last_n ACQUISITION_INTEGRATION_PERIOD_MS
         (rolling_samples_buffer rx
          ++ [fst (get_samples (antenna_samples_provider rx)
                     SAMPLES_PER_PRN_TRANSMISSION)])
  /\ satellites_by_id (buffered rx) = satellites_by_id rx.
Proof.
  unfold buffered. destruct (get_samples _ _) as [samples provider].
  repeat split.
Qed.

(** A step of a receiver that tracks nothing, in closed form. *)
Lemma step_nothing_tracked (rx : GpsReceiver) :
  tracked_satellite_ids_to_processing_pipelines rx = [] ->
  let primed :=
    (ACQUISITION_INTEGRATION_PERIOD_MS <=? length (rolling_samples_buffer rx) + 1)%nat in
  let detections :=
    detect_satellites_in_antenna_data
      (satellite_ids_eligible_for_acquisition rx)
      (concat (rolling_samples_buffer (buffered rx))) in
  step rx
  = (if primed
     then match detections with
          | [] => Ok tt
          | first :: _ =>
              Raise (match satellites_by_id rx !! satellite_id first with
                     | Some _ => TypeError
                     | None => KeyError
                     end)
          end
     else Ok tt,
     buffered rx,
     [WillPerformAcquisitionSearch 0;
      if primed
      then PerformingAcquisitionSearch (length (satellite_ids_eligible_for_acquisition rx))
      else SkippingAcquisitionAttempt]).
Proof.
  intros Hnone primed detections.
  pose proof (step_cases rx) as Hstep. rewrite Hnone in Hstep.
  destruct Hstep as (r & l & Hacq & Hstep).
  destruct (buffered_fields rx) as (Htracked & Heligible & Hlen).
  destruct (buffered_more_fields rx) as (_ & _ & Hsats).
  assert (Hidle : tracked_by rx = (Ok tt, [], []))
    by (unfold tracked_by; rewrite Hnone; reflexivity).
  rewrite Hidle in Hstep. cbn [fst snd] in Hstep.
  assert (Hsame : set_tracked_satellite_ids_to_processing_pipelines [] (buffered rx)
                  = buffered rx).
  { assert (Hb : tracked_satellite_ids_to_processing_pipelines (buffered rx) = [])
      by congruence.
    rewrite <- Hb at 1. apply set_tracked_same. }
  rewrite Hsame, app_nil_r in Hstep.
  assert (Hprimed :
    (length (rolling_samples_buffer (buffered rx)) <? ACQUISITION_INTEGRATION_PERIOD_MS)%nat
    = negb primed).
  { subst primed. rewrite Hlen. unfold ACQUISITION_INTEGRATION_PERIOD_MS.
    destruct (Nat.ltb_spec (Nat.min 20 (length (rolling_samples_buffer rx) + 1)) 20);
      destruct (Nat.leb_spec 20 (length (rolling_samples_buffer rx) + 1));
      try reflexivity; lia. }
  unfold _perform_acquisition in Hacq. rewrite bind_unfold in Hacq. cbn [get] in Hacq.
  rewrite Hprimed in Hacq.
  destruct primed; cbn [negb] in Hacq.
  - rewrite bind_unfold in Hacq. cbn [info] in Hacq. fold acquire in Hacq.
    rewrite Heligible in Hacq. fold detections in Hacq.
    destruct detections as [|first rest].
    + cbn in Hacq. inversion Hacq. subst r l. rewrite Hstep. reflexivity.
    + cbn [for_each] in Hacq. rewrite bind_unfold, acquire_result, Hsats in Hacq.
      cbn in Hacq. inversion Hacq. subst r l. rewrite Hstep. reflexivity.
  - cbn in Hacq. inversion Hacq. subst r l. rewrite Hstep. reflexivity.
Qed.

(** X22.  A step of a receiver that tracks nothing.  It pulls one window
    of samples and buffers it, logs that it will search, and then either
    skips the search, when the buffer holds fewer than 20 windows, or
    searches; a search that detects nothing lets the step return, and a
    search that detects something makes the step raise: [TypeError] from
    the pipeline constructor when the first detected satellite is known to
    [satellites_by_id], and [KeyError] from the lookup when it is not.  In
    every case the receiver is left with the window consumed and buffered
    and nothing else changed. *)
Theorem X22_step_of_a_receiver_that_tracks_nothing (rx : GpsReceiver) :
  tracked_satellite_ids_to_processing_pipelines rx = [] ->
  let primed :=
    (ACQUISITION_INTEGRATION_PERIOD_MS <=? length (rolling_samples_buffer rx) + 1)%nat in
  let detections :=
    detect_satellites_in_antenna_data
      (satellite_ids_eligible_for_acquisition rx)
      (concat (rolling_samples_buffer (buffered rx))) in
  step rx
  = (if primed
     then match detections with
          | [] => Ok tt
          | first :: _ =>
              Raise (match satellites_by_id rx !! satellite_id first with
                     | Some _ => TypeError
                     | None => KeyError
                     end)
          end
     else Ok tt,
     buffered rx,
     [WillPerformAcquisitionSearch 0;
      if primed
      then PerformingAcquisitionSearch (length (satellite_ids_eligible_for_acquisition rx))
      else SkippingAcquisitionAttempt]).
Proof. exact (step_nothing_tracked rx). Qed.

Lemma step_state (rx : GpsReceiver) :
  snd (fst (step rx))
  = set_tracked_satellite_ids_to_processing_pipelines
      (tracked_satellite_ids_to_processing_pipelines (snd (fst (step rx))))
      (buffered rx).
Proof.
  pose proof (step_cases rx) as Hstep.
  destruct (buffered_fields rx) as (Htracked & _ & _).
  destruct (tracked_satellite_ids_to_processing_pipelines rx) as [|kv items] eqn:Hrx.
  - rewrite (step_nothing_tracked rx Hrx). cbn [fst snd].
    symmetry. apply set_tracked_same.
  - rewrite Hstep. reflexivity.
Qed.

(** X23.  Every step, whether it returns or raises, consumes exactly one
    window of 2046 samples from the antenna and appends it to the rolling
    buffer, which keeps the last 20 windows; the satellites known and the
    satellites eligible for acquisition are never changed. *)
Theorem X23_every_step_consumes_and_buffers_one_window (rx : GpsReceiver) :
  let pulled := get_samples (antenna_samples_provider rx) SAMPLES_PER_PRN_TRANSMISSION in
  let rx' := snd (fst (step rx)) in
  antenna_samples_provider rx' = snd pulled
  /\ rolling_samples_buffer rx'
     = last_n ACQUISITION_INTEGRATION_PERIOD_MS (rolling_samples_buffer rx ++ [fst pulled])
  /\ length (rolling_samples_buffer rx')
     = Nat.min ACQUISITION_INTEGRATION_PERIOD_MS (length (rolling_samples_buffer rx) + 1)
  /\ satellites_by_id rx' = satellites_by_id rx
  /\ satellite_ids_eligible_for_acquisition rx'
     = satellite_ids_eligible_for_acquisition rx.
Proof.
  intros pulled rx'. subst pulled rx'.
  rewrite (step_state rx).
  destruct (buffered_fields rx) as (_ & Heligible & Hlen).
  destruct (buffered_more_fields rx) as (Hprovider & Hbuffer & Hsats).
  cbn [antenna_samples_provider rolling_samples_buffer satellites_by_id
       satellite_ids_eligible_for_acquisition
       set_tracked_satellite_ids_to_processing_pipelines].
  repeat split; assumption.
Qed.

Lemma after_steps_nothing_tracked (n : nat) (rx : GpsReceiver) :
  tracked_satellite_ids_to_processing_pipelines rx = [] ->
  (length (rolling_samples_buffer rx) <= ACQUISITION_INTEGRATION_PERIOD_MS)%nat ->
  tracked_satellite_ids_to_processing_pipelines (after_steps n rx) = []
  /\ satellite_ids_eligible_for_acquisition (after_steps n rx)
     = satellite_ids_eligible_for_acquisition rx
  /\ length (rolling_samples_buffer (after_steps n rx))
     = Nat.min ACQUISITION_INTEGRATION_PERIOD_MS (length (rolling_samples_buffer rx) + n).
Proof.
  revert rx. induction n as [|n IH]; intros rx Hnone Hlen.
  - cbn [after_steps]. repeat split; [exact Hnone | lia].
  - cbn [after_steps].
    destruct (buffered_fields rx) as (Htracked & Heligible & Hbuffer).
    rewrite (step_nothing_tracked rx Hnone). cbn [fst snd].
    destruct (IH (buffered rx)) as (Ht & He & Hl).
    + congruence.
    + rewrite Hbuffer. lia.
    + rewrite Ht, He, Hl, Hbuffer, Heligible. repeat split. lia.
Qed.

(** X24.  A receiver never comes to track a satellite.  After any number
    of steps from [GpsReceiver.__init__], whatever the antenna delivers and
    the detector reports and whether the steps returned or raised, no
    pipeline is tracked and satellite 32 alone is eligible; the buffer
    holds one window per step up to 20; so every step goes into
    acquisition, and the search itself runs on the 20th step and on every
    step after it. *)
Theorem X24_a_started_receiver_never_tracks
    (provider : AntennaSampleProvider) (replicas : gmap Z (list complex)) (n : nat) :
  let rx := after_steps n (GpsReceiver_init provider replicas) in
  tracked_satellite_ids_to_processing_pipelines rx = []
  /\ satellite_ids_eligible_for_acquisition rx = [32%Z]
  /\ length (rolling_samples_buffer rx) = Nat.min ACQUISITION_INTEGRATION_PERIOD_MS n
  /\ enters_acquisition rx = true
  /\ (runs_acquisition_search rx = true <-> (19 <= n)%nat).
Proof.
  intros rx. subst rx.
  destruct (after_steps_nothing_tracked n (GpsReceiver_init provider replicas))
    as (Ht & He & Hl).
  { reflexivity. }
  { cbn [GpsReceiver_init rolling_samples_buffer length]. lia. }
  cbn [GpsReceiver_init rolling_samples_buffer satellite_ids_eligible_for_acquisition
       length Nat.add] in He, Hl.
  split; [exact Ht |]. split; [exact He |]. split; [exact Hl |]. split.
  - apply enters_acquisition_iff. rewrite Ht. cbn [length]. lia.
  - rewrite runs_acquisition_search_iff, Ht, Hl.
    unfold ACQUISITION_INTEGRATION_PERIOD_MS. cbn [length]. lia.
Qed.

Lemma for_each_pipeline_abort
    (pre post : list (Z * GpsSatelliteSignalProcessingPipeline))
    (k : Z) (p : GpsSatelliteSignalProcessingPipeline)
    (body : M GpsSatelliteSignalProcessingPipeline unit) (e : exn) :
  Forall (fun kp => is_ok (fst (fst (body (snd kp)))) = true) pre ->
  fst (fst (body p)) = Raise e ->
  for_each_pipeline (pre ++ (k, p) :: post) body
  = (Raise e,
     map (fun kp => (fst kp, snd (fst (body (snd kp))))) pre
       ++ (k, snd (fst (body p))) :: post,
     flat_map (fun kp => snd (body (snd kp))) pre ++ snd (body p)).
Proof.
  intros Hpre Hp. induction Hpre as [|[k0 p0] pre Hok _ IH].
  - cbn [app map flat_map for_each_pipeline].
    destruct (body p) as [[[u|e'] p'] l]; cbn [fst snd] in *; [discriminate |].
    inversion Hp. reflexivity.
  - cbn [app map flat_map for_each_pipeline fst snd] in *.
    destruct (body p0) as [[[u|e'] p0'] l0]; cbn [fst snd is_ok] in *; [| discriminate].
    rewrite IH. rewrite app_assoc. reflexivity.
Qed.

(** X25.  The tracking loop stops at the first pipeline that raises.  When
    the pipelines before it in the dictionary return and it raises, the
    exception goes to the caller of [_track_acquired_satellites]; the
    pipelines before it and the one that raised keep what their calls did
    to them, the pipelines after it are not called in this step and are
    left as they were, and the log holds the records of the calls made, in
    order. *)
Theorem X25_tracking_stops_at_the_first_pipeline_that_raises
    (rx : GpsReceiver) (samples : list complex) (sample_index : Z)
    (pre post : list (Z * GpsSatelliteSignalProcessingPipeline))
    (k : Z) (p : GpsSatelliteSignalProcessingPipeline) (e : exn) :
  tracked_satellite_ids_to_processing_pipelines rx = pre ++ (k, p) :: post ->
  Forall (fun kp => is_ok (fst (fst (process_samples samples sample_index (snd kp)))) = true)
         pre ->
  fst (fst (process_samples samples sample_index p)) = Raise e ->
  _track_acquired_satellites samples sample_index rx
  = (Raise e,
     set_tracked_satellite_ids_to_processing_pipelines
       (map (fun kp => (fst kp, snd (fst (process_samples samples sample_index (snd kp)))))
            pre
        ++ (k, snd (fst (process_samples samples sample_index p))) :: post)
       rx,
     flat_map (fun kp => snd (process_samples samples sample_index (snd kp))) pre
       ++ snd (process_samples samples sample_index p)).
Proof.
  intros Htracked Hpre Hp. unfold _track_acquired_satellites.
  rewrite Htracked, (for_each_pipeline_abort pre post k p _ e Hpre Hp). reflexivity.
Qed.

End ReceiverRuns.

Section ReceiverRunWitnesses.
Import Np Receiver AcquisitionSpec ReceiverSpec ReceiverRunSpec.

(** X22 witness: the first step of a receiver that has just started. *)
Lemma X22_witness :
  @step ReceiverExamples.low_confidence ReceiverExamples.just_started
  = (Ok tt,
     @buffered ReceiverExamples.low_confidence ReceiverExamples.just_started,
     [WillPerformAcquisitionSearch 0; SkippingAcquisitionAttempt]).
Proof.
  exact (@X22_step_of_a_receiver_that_tracks_nothing ReceiverExamples.low_confidence
           ReceiverExamples.just_started eq_refl).
Defined.

(** X25 witness: of two tracked satellites, the pipeline of the first raises
    and the pipeline of the second is left as it was. *)
Lemma X25_witness :
  @_track_acquired_satellites ReceiverExamples.low_confidence
    Examples.silence 0 ReceiverRunExamples.tracking_two
  = (Raise TypeError,
     @set_tracked_satellite_ids_to_processing_pipelines ReceiverExamples.low_confidence
       ([] ++ (32%Z,
               snd (fst (@process_samples ReceiverExamples.low_confidence
                           Examples.silence 0 ReceiverExamples.pipeline_32)))
           :: [(1%Z, ReceiverRunExamples.pipeline_1)])
       ReceiverRunExamples.tracking_two,
     [] ++ snd (@process_samples ReceiverExamples.low_confidence
                  Examples.silence 0 ReceiverExamples.pipeline_32)).
Proof.
  apply (@X25_tracking_stops_at_the_first_pipeline_that_raises
           ReceiverExamples.low_confidence ReceiverRunExamples.tracking_two
           Examples.silence 0 [] [(1%Z, ReceiverRunExamples.pipeline_1)]
           32 ReceiverExamples.pipeline_32 TypeError).
  - reflexivity.
  - constructor.
  - reflexivity.
Defined.

End ReceiverRunWitnesses.

(** ** The constructor of the tracker *)

Section ConstructorClaims.
Import Np Tracker.
Local Open Scope R_scope.
Context {zeros : SignedZeros}.

(** X26.  A tracker is constructed with empty prompt histories and with the
    time axis of one PRN period: 2046 instants, the i-th at i / 2046000
    seconds, all of them in [0, 1 ms); so a tracker is never locked when it
    is constructed with fewer than 250 recorded phase errors. *)
Theorem X26_constructor_time_axis_spans_one_millisecond
    (params : GpsSatelliteTrackingParameters) (bandwidth : R) :
  let self := __init__ params bandwidth in
  length (time_domain_for_1ms self) = 2046%nat
  /\ (forall i, (i < 2046)%nat ->
        nth i (time_domain_for_1ms self) 0 = INR i / 2046000
        /\ 0 <= nth i (time_domain_for_1ms self) 0 < 1 / 1000)
  /\ _is self = [] /\ _qs self = [] /\ iq_angles self = []
  /\ carrier_phases self = [] /\ phase_errors self = []
  /\ ((length (carrier_wave_phase_errors params) < 250)%nat ->
      _is_locked self = false).
Proof.
  intros self. subst self. unfold __init__. cbv zeta.
  cbn [time_domain_for_1ms _is _qs iq_angles carrier_phases phase_errors].
  unfold arange, SAMPLES_PER_PRN_TRANSMISSION, SAMPLES_PER_SECOND.
  replace (Z.to_nat 2046) with 2046%nat by (symmetry; apply (Nat2Z.id 2046)).
  split; [rewrite !length_map, length_seq; reflexivity |].
  split; [| repeat split].
  - intros i Hi. rewrite map_map.
    assert (Hnth : nth i (map (fun x => INR x / 2046000) (seq 0 2046)) 0 = INR i / 2046000).
    { rewrite (nth_indep _ 0 ((fun x => INR x / 2046000) 0%nat))
        by (rewrite length_map, length_seq; exact Hi).
      rewrite (map_nth (fun x => INR x / 2046000)), seq_nth by exact Hi. reflexivity. }
    rewrite Hnth. split; [reflexivity |].
    assert (H0 : 0 <= INR i) by apply pos_INR.
    assert (H1 : INR i < 2046).
    { replace 2046 with (INR 2046) by (rewrite INR_IZR_INZ; reflexivity).
      apply lt_INR. exact Hi. }
    lra.
  - intros Hlen. unfold _is_locked. cbn [tracking_params].
    destruct (Nat.ltb_spec (length (carrier_wave_phase_errors params)) 250);
      [reflexivity | lia].
Qed.

End ConstructorClaims.
